(** * Synthetic exam-anomaly dataset generator: a shallow embedding

    This development embeds [generate_realistic_cheating_data] of
    [project_yeta_ah.py] and settles the properties its specification states.

    Modelling decisions.
    - Python floats are IEEE binary64 numbers: Rocq's primitive [float], with
      the same rounding, infinities and NaN.  Decimal literals such as [0.8]
      denote the nearest binary64 value, in Python and here alike.
    - Python integers are [Z]; positions in a frame are [nat].
    - The numeric kernels follow the algorithms of the libraries, operation
      by operation, because the order of the binary64 operations decides the
      last bits: numpy adds pairwise, interpolates a percentile by [_lerp],
      and pandas skips NaN in the reductions of a column (pandas as
      installed by default, without the optional bottleneck).
    - The global numpy random state is threaded explicitly.  The generator
      interface [NumpyRandom] is abstract: every theorem holds for every
      generator, and a concrete replay generator is used for the runs.
    - Exceptions are values of [exn]; a computation is a function from the
      random state to a [result].
    - A pandas frame is a row count and an ordered association list of named,
      typed columns over the default range index.
    - The outlier detector (scikit-learn's isolation forest) is an abstract
      operation that returns labels or raises. *)

From Stdlib Require Import String ZArith Bool Lia Floats List Permutation.
From Stdlib Require DecimalString.
Import ListNotations.
#[local] Open Scope string_scope.
#[local] Open Scope list_scope.
#[local] Set Warnings "-inexact-float".

(** ** Exceptions and results *)

Inductive exn : Type :=
| ValueError
| TypeError
| OverflowError
| KeyError
| IndexError
| AssertionError.

Inductive result (A : Type) : Type :=
| Ok (a : A)
| Err (e : exn).
Arguments Ok {A} a.
Arguments Err {A} e.

Definition is_ok {A} (r : result A) : bool :=
  match r with Ok _ => true | Err _ => false end.

(** Sequencing of steps that may raise, for code that does not touch the
    random state. *)
Definition and_then {A B} (r : result A) (k : A -> result B) : result B :=
  match r with
  | Ok a => k a
  | Err e => Err e
  end.

Declare Scope result_scope.
Delimit Scope result_scope with result.
Notation "x <~ r ;; k" := (and_then r (fun x => k))
  (at level 61, r at next level, right associativity) : result_scope.

(** [for x in l: acc = body x acc], where the body may raise. *)
Fixpoint for_r {A B} (l : list A) (body : A -> B -> result B) (acc : B)
  : result B :=
  match l with
  | [] => Ok acc
  | x :: rest => and_then (body x acc) (for_r rest body)
  end.

(** [a[i]] for a Python list or a one-dimensional array. *)
Definition item {A} (a : list A) (i : nat) : result A :=
  match nth_error a i with
  | Some x => Ok x
  | None => Err IndexError
  end.

(** ** Python numbers *)

Module Py.

(** [float(n)] for a Python integer: the correctly rounded binary64 value. *)
Definition float_of_Z (z : Z) : float :=
  SF2Prim (binary_normalize prec emax z 0 false).

Definition float_of_nat (k : nat) : float := float_of_Z (Z.of_nat k).

(** The implicit conversion of [int * float]: an integer too large for a
    binary64 raises [OverflowError]. *)
Definition float_of_int (z : Z) : result float :=
  match Prim2SF (float_of_Z z) with
  | S754_infinity _ => Err OverflowError
  | _ => Ok (float_of_Z z)
  end.

(** [int(x)]: truncation toward zero; NaN raises [ValueError], an infinity
    raises [OverflowError]. *)
Definition int (x : float) : result Z :=
  match Prim2SF x with
  | S754_zero _ => Ok 0%Z
  | S754_infinity _ => Err OverflowError
  | S754_nan => Err ValueError
  | S754_finite s m e =>
      let mag := if (0 <=? e)%Z then (Z.pos m * 2 ^ e)%Z
                 else (Z.pos m / 2 ^ (- e))%Z in
      Ok (if s then (- mag)%Z else mag)
  end.

(** [round(x)]: the nearest integer, ties to the even one.  The generator
    never calls it; the specification's count of cheaters is stated with it. *)
Definition round (x : float) : result Z :=
  match Prim2SF x with
  | S754_zero _ => Ok 0%Z
  | S754_infinity _ => Err OverflowError
  | S754_nan => Err ValueError
  | S754_finite s m e =>
      let mag :=
        if (0 <=? e)%Z then (Z.pos m * 2 ^ e)%Z
        else
          let d := (2 ^ (- e))%Z in
          let q := (Z.pos m / d)%Z in
          let r := (Z.pos m mod d)%Z in
          if (d <? 2 * r)%Z then (q + 1)%Z
          else if (d =? 2 * r)%Z then (if Z.even q then q else q + 1)%Z
          else q in
      Ok (if s then (- mag)%Z else mag)
  end.

(** The conversion numpy applies to a computed position
    ([floor(x).astype(intp)]); it never raises. *)
Definition to_index (x : float) : nat :=
  match int x with
  | Ok z => Z.to_nat z
  | Err _ => 0
  end.

(** [range(n)]. *)
Definition range (n : Z) : list nat := seq 0 (Z.to_nat n).

(** A number given where the code expects an integer: an [int] or a
    [float]. *)
Inductive number : Type :=
| Int (z : Z)
| Float (x : float).

(** [operator.index(v)], the conversion numpy applies to the size of an
    array: a float is not an integer, whatever its value, [TypeError]. *)
Definition index (v : number) : result Z :=
  match v with
  | Int z => Ok z
  | Float _ => Err TypeError
  end.

End Py.

(** ** Lists as arrays *)

Fixpoint list_set {A} (l : list A) (i : nat) (x : A) : list A :=
  match l, i with
  | [], _ => []
  | _ :: t, 0 => x :: t
  | h :: t, S j => h :: list_set t j x
  end.

Fixpoint map2 {A B C} (f : A -> B -> C) (l1 : list A) (l2 : list B) : list C :=
  match l1, l2 with
  | a :: t1, b :: t2 => f a b :: map2 f t1 t2
  | _, _ => []
  end.

(** Boolean-mask selection [values[mask]]. *)
Fixpoint mask_select {A} (mask : list bool) (l : list A) : list A :=
  match mask, l with
  | b :: m, x :: t => if b then x :: mask_select m t else mask_select m t
  | _, _ => []
  end.

(** The positions at which a predicate holds, counted from [start]. *)
Fixpoint positions {A} (p : A -> bool) (start : nat) (l : list A) : list nat :=
  match l with
  | [] => []
  | x :: t => if p x then start :: positions p (S start) t
              else positions p (S start) t
  end.

Definition enumerate {A} (l : list A) : list (nat * A) :=
  combine (seq 0 (length l)) l.

(** ** Numeric kernels *)

Module Np.

Definition vadd : list float -> list float -> list float := map2 PrimFloat.add.
Definition vsub : list float -> list float -> list float := map2 PrimFloat.sub.

(** numpy's pairwise summation over a block of at most 128 values: eight
    running sums [r0 .. r7] take the values eight at a time, are added as a
    balanced tree, and the values left over (fewer than eight) are added to
    the result one by one. *)
Fixpoint pairwise_block (r0 r1 r2 r3 r4 r5 r6 r7 : float) (a : list float)
  : float :=
  match a with
  | a0 :: a1 :: a2 :: a3 :: a4 :: a5 :: a6 :: a7 :: rest =>
      pairwise_block (r0 + a0) (r1 + a1) (r2 + a2) (r3 + a3)
        (r4 + a4) (r5 + a5) (r6 + a6) (r7 + a7) rest
  | _ =>
      fold_left PrimFloat.add a
        (((r0 + r1) + (r2 + r3)) + ((r4 + r5) + (r6 + r7)))
  end%float.

(** [pairwise_sum(a, n)]: fewer than eight values are added from the left,
    starting at [-0.0]; up to 128 values are one block; a longer array is cut
    at [n / 2] rounded down to a multiple of eight and the sums of the two
    parts are added.  [depth] bounds the nesting of the cuts. *)
Fixpoint pairwise_sum_rec (depth : nat) (a : list float) : float :=
  match a with
  | a0 :: a1 :: a2 :: a3 :: a4 :: a5 :: a6 :: a7 :: rest =>
      match depth with
      | S depth' =>
          let n := length a in
          if Nat.leb n 128 then pairwise_block a0 a1 a2 a3 a4 a5 a6 a7 rest
          else
            let n2 := Nat.div n 2 - Nat.modulo (Nat.div n 2) 8 in
            (pairwise_sum_rec depth' (firstn n2 a)
             + pairwise_sum_rec depth' (skipn n2 a))%float
      | 0 => pairwise_block a0 a1 a2 a3 a4 a5 a6 a7 rest
      end
  | _ => fold_left PrimFloat.add a neg_zero
  end.

(** Every cut at least halves the longer part, so the length of the array
    is more nesting than the cuts ever need. *)
Definition pairwise_sum (a : list float) : float :=
  pairwise_sum_rec (length a) a.

(** [np.sum(a)], [np.add.reduce] along a contiguous axis: the pairwise sum is
    added to the identity [0.0] the result starts from. *)
Definition sum (l : list float) : float := (0 + pairwise_sum l)%float.

Definition mean (l : list float) : float :=
  (sum l / Py.float_of_nat (length l))%float.

(** [np.std]: the population standard deviation ([ddof = 0]), the square
    root of the mean of the squared deviations from the mean. *)
Definition std (l : list float) : float :=
  let m := mean l in
  PrimFloat.sqrt
    (sum (map (fun x => ((x - m) * (x - m))%float) l)
       / Py.float_of_nat (length l))%float.

(** Sorting in numpy's order: increasing, with every NaN after the
    numbers. *)
Fixpoint insert (x : float) (l : list float) : list float :=
  match l with
  | [] => [x]
  | y :: t =>
      if (x <=? y)%float || PrimFloat.is_nan y then x :: y :: t
      else y :: insert x t
  end.

Definition sort (l : list float) : list float := fold_right insert [] l.

(** [_lerp(a, b, t)]: [a + (b - a) * t], replaced by [b - (b - a) * (1 - t)]
    where [t >= 0.5]. *)
Definition lerp (a b t : float) : float :=
  let diff_b_a := (b - a)%float in
  if (0.5 <=? t)%float then (b - diff_b_a * (1 - t))%float
  else (a + diff_b_a * t)%float.

(** [np.percentile(a, q)] with the default linear method.  A [q] outside
    [0 .. 100] raises [ValueError]; an empty array has no order statistic,
    [IndexError].  The virtual position [(n - 1) * q / 100] lies between two
    order statistics, which are interpolated by [lerp] with its fractional
    part; at the last position both are the last value ([arr[-1]]) and the
    weight is the position minus [-1].  An array that holds a NaN has the
    percentile NaN. *)
Definition percentile (a : list float) (q : float) : result float :=
  let quantile := (q / 100)%float in
  if negb ((0 <=? quantile)%float && (quantile <=? 1)%float)
  then Err ValueError
  else
    match sort a with
    | [] => Err IndexError
    | (x0 :: _) as arr =>
        let last := length arr - 1 in
        let virt := (Py.float_of_nat last * quantile)%float in
        let above := (Py.float_of_nat last <=? virt)%float in
        let prev := if above then last else Py.to_index virt in
        let next := if above then last else S prev in
        let gamma := if above then (virt - (-1))%float
                     else (virt - Py.float_of_nat prev)%float in
        if PrimFloat.is_nan (nth last arr x0) then Ok (nth last arr x0)
        else Ok (lerp (nth prev arr x0) (nth next arr x0) gamma)
    end.

(** [np.digitize(x, bins)] for increasing bins: the number of bins that are
    at most [x]; NaN is placed after the last bin. *)
Definition digitize (bins : list float) (x : float) : nat :=
  if PrimFloat.is_nan x then length bins
  else length (filter (fun b => (b <=? x)%float) bins).

(** [np.zeros(n, dtype=int)]: a negative size raises [ValueError]. *)
Definition zeros (size : Z) : result (list Z) :=
  if (size <? 0)%Z then Err ValueError else Ok (repeat 0%Z (Z.to_nat size)).

Definition ones (size : Z) : result (list Z) :=
  if (size <? 0)%Z then Err ValueError else Ok (repeat 1%Z (Z.to_nat size)).

(** [np.zeros((n, m))]. *)
Definition zeros2 (n : Z) (m : nat) : result (list (list float)) :=
  if (n <? 0)%Z then Err ValueError
  else Ok (repeat (repeat 0%float m) (Z.to_nat n)).

(** [np.pi]. *)
Definition pi : float := 0x1.921fb54442d18p+1%float.

(** [np.linspace(start, stop, num, endpoint=endpoint)]: [arange(num)] scaled
    by the step and shifted by [start]; with [endpoint] the last sample is set
    to [stop] itself.  A negative [num] raises [ValueError]. *)
Definition linspace (start stop : float) (num : Z) (endpoint : bool)
  : result (list float) :=
  if (num <? 0)%Z then Err ValueError
  else
    let div := if endpoint then (num - 1)%Z else num in
    let delta := (stop - start)%float in
    let y := map Py.float_of_nat (seq 0 (Z.to_nat num)) in
    let y :=
      if (0 <? div)%Z then
        let step := (delta / Py.float_of_Z div)%float in
        if (step =? 0)%float
        then map (fun v => (v / Py.float_of_Z div * delta)%float) y
        else map (fun v => (v * step)%float) y
      else map (fun v => (v * delta)%float) y in
    let y := map (fun v => (v + start)%float) y in
    Ok (if endpoint && (1 <? num)%Z
        then list_set y (Z.to_nat num - 1) stop
        else y).

(** [np.append(a, x)] for a scalar [x]. *)
Definition append (a : list float) (x : float) : list float := a ++ [x].

(** An arithmetic operator between two one-dimensional arrays: element by
    element when the lengths agree, a length-one array is broadcast, any other
    pair of lengths raises [ValueError]. *)
Definition broadcast (f : float -> float -> float) (a b : list float)
  : result (list float) :=
  if Nat.eqb (length a) (length b) then Ok (map2 f a b)
  else
    match a, b with
    | [x], _ => Ok (map (f x) b)
    | _, [y] => Ok (map (fun x => f x y) a)
    | _, _ => Err ValueError
    end.

Definition add : list float -> list float -> result (list float) :=
  broadcast PrimFloat.add.
Definition multiply : list float -> list float -> result (list float) :=
  broadcast PrimFloat.mul.

(** The scan of [argmax]: [mp] is the largest value so far and [max_ind] its
    position; a value that is not [<= mp] replaces it, and a NaN ends the
    scan. *)
Fixpoint argmax_from (mp : float) (max_ind i : nat) (l : list float) : nat :=
  match l with
  | [] => max_ind
  | x :: t =>
      if (x <=? mp)%float then argmax_from mp max_ind (S i) t
      else if PrimFloat.is_nan x then i
      else argmax_from x i (S i) t
  end.

(** [a.argmax()]: the first position of the largest value, a NaN counting as
    the largest; an empty array raises [ValueError]. *)
Definition argmax (a : list float) : result nat :=
  match a with
  | [] => Err ValueError
  | x :: t => Ok (if PrimFloat.is_nan x then 0 else argmax_from x 0 1 t)
  end.

(** [m[:, j]] for a matrix given by its rows; a matrix without rows has an
    empty column. *)
Fixpoint column (m : list (list float)) (j : nat) : result (list float) :=
  match m with
  | [] => Ok []
  | row :: rest =>
      match nth_error row j with
      | None => Err IndexError
      | Some x =>
          match column rest j with
          | Ok xs => Ok (x :: xs)
          | Err e => Err e
          end
      end
  end.

End Np.

(** ** Frames *)

Inductive column : Type :=
| IntCol (l : list Z)
| FloatCol (l : list float).

Inductive value : Type :=
| VInt (z : Z)
| VFloat (f : float).

Definition col_len (c : column) : nat :=
  match c with IntCol l => length l | FloatCol l => length l end.

Definition as_float (c : column) : list float :=
  match c with IntCol l => map Py.float_of_Z l | FloatCol l => l end.

Definition col_nth (c : column) (i : nat) : option value :=
  match c with
  | IntCol l => option_map VInt (nth_error l i)
  | FloatCol l => option_map VFloat (nth_error l i)
  end.

Definition to_float (v : value) : float :=
  match v with VInt z => Py.float_of_Z z | VFloat f => f end.

(** [v == z] for an integer literal [z]. *)
Definition value_eq_int (v : value) (z : Z) : bool :=
  match v with
  | VInt z' => (z' =? z)%Z
  | VFloat f => (f =? Py.float_of_Z z)%float
  end.

(** [c == z], element by element. *)
Definition col_eq_int (c : column) (z : Z) : list bool :=
  match c with
  | IntCol l => map (fun x => (x =? z)%Z) l
  | FloatCol l => map (fun x => (x =? Py.float_of_Z z)%float) l
  end.

Record DataFrame : Type := {
  nrows : nat;
  cols : list (string * column)
}.

Fixpoint df_lookup (name : string) (cs : list (string * column)) : option column :=
  match cs with
  | [] => None
  | (k, c) :: rest => if String.eqb k name then Some c else df_lookup name rest
  end.

(** Replace the column in place when the name exists, append it otherwise. *)
Fixpoint upsert (name : string) (c : column) (cs : list (string * column))
  : list (string * column) :=
  match cs with
  | [] => [(name, c)]
  | (k, c0) :: rest =>
      if String.eqb k name then (k, c) :: rest
      else (k, c0) :: upsert name c rest
  end.

Definition with_col (df : DataFrame) (name : string) (c : column) : DataFrame :=
  {| nrows := nrows df; cols := upsert name c (cols df) |}.

Definition column_names (df : DataFrame) : list string := map fst (cols df).

Module Pd.

(** [pd.DataFrame({...})]: all arrays must have one length. *)
Definition DataFrame_of (d : list (string * column)) : result DataFrame :=
  match d with
  | [] => Ok {| nrows := 0; cols := [] |}
  | (_, c) :: _ =>
      if forallb (fun kc => Nat.eqb (col_len (snd kc)) (col_len c)) d
      then Ok {| nrows := col_len c; cols := d |}
      else Err ValueError
  end.

(** [df[name]]. *)
Definition get_col (df : DataFrame) (name : string) : result column :=
  match df_lookup name (cols df) with
  | Some c => Ok c
  | None => Err KeyError
  end.

Definition get_float (df : DataFrame) (name : string) : result (list float) :=
  match get_col df name with
  | Ok c => Ok (as_float c)
  | Err e => Err e
  end.

(** [df[name] = array]: the array must have one entry per row. *)
Definition set_col (df : DataFrame) (name : string) (c : column)
  : result DataFrame :=
  if Nat.eqb (col_len c) (nrows df) then Ok (with_col df name c)
  else Err ValueError.

(** [df[name] = x] for a scalar [x], broadcast over the rows. *)
Definition set_scalar (df : DataFrame) (name : string) (x : float) : DataFrame :=
  with_col df name (FloatCol (repeat x (nrows df))).

(** [df.loc[i, name]] read: a missing column or row label raises [KeyError]. *)
Definition loc (df : DataFrame) (i : nat) (name : string) : result value :=
  match df_lookup name (cols df) with
  | None => Err KeyError
  | Some c =>
      match col_nth c i with
      | Some v => Ok v
      | None => Err KeyError
      end
  end.

Definition loc_float (df : DataFrame) (i : nat) (name : string) : result float :=
  match loc df i name with
  | Ok v => Ok (to_float v)
  | Err e => Err e
  end.

(** [df.loc[i, name] = x] for a float [x].  A missing column is created and
    filled with NaN first.  Every write of the generator addresses an existing
    row label; pandas would append a row for a new label, which this model of
    a range-indexed frame leaves out (the column is returned unchanged). *)
Definition loc_set (df : DataFrame) (i : nat) (name : string) (x : float)
  : DataFrame :=
  let old := match df_lookup name (cols df) with
             | Some c => as_float c
             | None => repeat nan (nrows df)
             end in
  with_col df name (FloatCol (list_set old i x)).

Definition col_app (c1 c2 : column) : column :=
  match c1, c2 with
  | IntCol a, IntCol b => IntCol (a ++ b)
  | _, _ => FloatCol (as_float c1 ++ as_float c2)
  end.

Definition col_or_nan (df : DataFrame) (name : string) : column :=
  match df_lookup name (cols df) with
  | Some c => c
  | None => FloatCol (repeat nan (nrows df))
  end.

Definition mem (name : string) (names : list string) : bool :=
  existsb (String.eqb name) names.

(** [pd.concat([d1, d2]).reset_index(drop=True)]: the rows of [d1] followed
    by the rows of [d2], over the union of the columns in order of first
    appearance, renumbered from zero. *)
Definition concat (d1 d2 : DataFrame) : DataFrame :=
  let names := column_names d1
               ++ filter (fun k => negb (mem k (column_names d1)))
                    (column_names d2) in
  {| nrows := nrows d1 + nrows d2;
     cols := map (fun k => (k, col_app (col_or_nan d1 k) (col_or_nan d2 k)))
               names |}.

(** [df[[names]]]: a missing name raises [KeyError]. *)
Fixpoint select_cols (cs : list (string * column)) (names : list string)
  : result (list (string * column)) :=
  match names with
  | [] => Ok []
  | k :: rest =>
      match df_lookup k cs with
      | None => Err KeyError
      | Some c =>
          match select_cols cs rest with
          | Ok sel => Ok ((k, c) :: sel)
          | Err e => Err e
          end
      end
  end.

Definition select (df : DataFrame) (names : list string) : result DataFrame :=
  match select_cols (cols df) names with
  | Ok sel => Ok {| nrows := nrows df; cols := sel |}
  | Err e => Err e
  end.

(** [df.drop(names, axis=1)]: a missing name raises [KeyError]. *)
Definition drop (df : DataFrame) (names : list string) : result DataFrame :=
  if forallb (fun k => mem k (column_names df)) names
  then Ok {| nrows := nrows df;
             cols := filter (fun kc => negb (mem (fst kc) names)) (cols df) |}
  else Err KeyError.

(** The reductions of a column skip NaN ([skipna=True]): [count] is the
    number of values that are not NaN, and in a sum every NaN is replaced
    by zero, in place. *)
Definition count (l : list float) : nat :=
  length (filter (fun x => negb (PrimFloat.is_nan x)) l).

Definition fillna (x : float) (l : list float) : list float :=
  map (fun v => if PrimFloat.is_nan v then x else v) l.

(** [Series.mean()] ([nanops.nanmean]): the sum over the count, NaN when
    there is no value. *)
Definition mean (l : list float) : float :=
  if Nat.eqb (count l) 0 then nan
  else (Np.sum (fillna 0 l) / Py.float_of_nat (count l))%float.

(** [Series.std()] ([nanops.nanstd]): the sample standard deviation, pandas'
    default [ddof = 1]; NaN when there are fewer than two values.  The
    squared deviations from the average are summed (zero for a NaN) and
    divided by the count minus one. *)
Definition std (l : list float) : float :=
  if Nat.leb (count l) 1 then nan
  else
    let avg := (Np.sum (fillna 0 l) / Py.float_of_nat (count l))%float in
    let sqr := map (fun v => if PrimFloat.is_nan v then 0%float
                             else ((avg - v) * (avg - v))%float) l in
    PrimFloat.sqrt (Np.sum sqr / (Py.float_of_nat (count l) - 1))%float.

(** [series[idx]] read by label. *)
Definition series_get (s : list float) (idx : nat) : result float :=
  match nth_error s idx with
  | Some x => Ok x
  | None => Err KeyError
  end.

(** [df[df[name] == z].index]. *)
Definition index_where_eq (df : DataFrame) (name : string) (z : Z)
  : result (list nat) :=
  match get_col df name with
  | Ok c => Ok (positions (fun b : bool => b) 0 (col_eq_int c z))
  | Err e => Err e
  end.

(** [pd.DataFrame([row], columns=names)] for a row that is a numpy array:
    a frame of one row; the row must hold one value per name, otherwise
    pandas raises [AssertionError]. *)
Definition DataFrame_row (row : list float) (names : list string)
  : result DataFrame :=
  if Nat.eqb (length row) (length names)
  then Ok {| nrows := 1;
             cols := combine names (map (fun x => FloatCol [x]) row) |}
  else Err AssertionError.

(** The values of a frame as a matrix, row by row. *)
Definition values (df : DataFrame) : list (list float) :=
  map (fun i => map (fun kc => nth i (as_float (snd kc)) nan) (cols df))
    (seq 0 (nrows df)).

End Pd.

(** ** Computations: random state and exceptions *)

Definition M (S A : Type) : Type := S -> result (A * S).

Definition ret {S A} (a : A) : M S A := fun s => Ok (a, s).

Definition bind {S A B} (c : M S A) (k : A -> M S B) : M S B :=
  fun s => match c s with
           | Ok (a, s') => k a s'
           | Err e => Err e
           end.

(** A step that cannot touch the random state. *)
Definition lift {S A} (r : result A) : M S A :=
  fun s => match r with
           | Ok a => Ok (a, s)
           | Err e => Err e
           end.

Declare Scope comp_scope.
Delimit Scope comp_scope with comp.
Notation "x <- c ;; k" := (bind c (fun x => k))
  (at level 61, c at next level, right associativity) : comp_scope.
Notation "c ;;; k" := (bind c (fun _ => k))
  (at level 61, right associativity) : comp_scope.
#[local] Open Scope comp_scope.

(** [for x in l: acc = body x acc]. *)
Fixpoint for_each {S A B} (l : list A) (body : A -> B -> M S B) (acc : B)
  : M S B :=
  match l with
  | [] => ret acc
  | x :: rest => acc' <- body x acc ;; for_each rest body acc'
  end.

(** [[f(x) for x in l]]. *)
Fixpoint map_m {S A B} (f : A -> M S B) (l : list A) : M S (list B) :=
  match l with
  | [] => ret []
  | x :: rest => y <- f x ;; ys <- map_m f rest ;; ret (y :: ys)
  end.

(** ** The external libraries *)

(** numpy's legacy global generator.  [rng_seed] is [np.random.seed]: the
    state it installs depends on the seed alone.  The scalar draws return the
    value and the next state.  [rng_categorical p] draws an index with the
    weights [p]; [rng_permutation n] is [np.random.permutation(n)]. *)
Class NumpyRandom : Type := {
  rng_state : Type;
  rng_seed : Z -> rng_state;
  rng_random : rng_state -> float * rng_state;
  rng_normal : float -> float -> rng_state -> float * rng_state;
  rng_uniform : float -> float -> rng_state -> float * rng_state;
  rng_categorical : list float -> rng_state -> nat * rng_state;
  rng_permutation : nat -> rng_state -> list nat * rng_state;
  rng_categorical_lt :
    forall p s, p <> [] -> fst (rng_categorical p s) < length p;
  rng_permutation_perm :
    forall n s, Permutation (fst (rng_permutation n s)) (seq 0 n)
}.

(** [IsolationForest(contamination, random_state).fit_predict(X)]: one label
    (1 inlier, -1 outlier) per row, or an exception. *)
Class OutlierDetector : Type := {
  fit_predict : float -> Z -> DataFrame -> result (list Z)
}.

Section Generator.

Context {R : NumpyRandom} {D : OutlierDetector}.

#[local] Abbreviation Comp := (M rng_state).

(** *** np.random *)

Definition seed (z : Z) : Comp unit := fun _ => Ok (tt, rng_seed z).
Definition random : Comp float := fun s => Ok (rng_random s).
Definition normal (loc scale : float) : Comp float :=
  fun s => Ok (rng_normal loc scale s).
Definition uniform (low high : float) : Comp float :=
  fun s => Ok (rng_uniform low high s).

(** An array of [k] draws is filled in order from the one stream. *)
Fixpoint draw_n {A} (draw : rng_state -> A * rng_state) (k : nat)
  (s : rng_state) : list A * rng_state :=
  match k with
  | 0 => ([], s)
  | S k' =>
      let (x, s1) := draw s in
      let (xs, s2) := draw_n draw k' s1 in
      (x :: xs, s2)
  end.

(** [np.random.normal(loc, scale, size)]: a negative size raises. *)
Definition normal_n (loc scale : float) (size : Z) : Comp (list float) :=
  fun s => if (size <? 0)%Z then Err ValueError
           else Ok (draw_n (rng_normal loc scale) (Z.to_nat size) s).

Fixpoint take_indices {A} (a : list A) (idx : list nat) : result (list A) :=
  match idx with
  | [] => Ok []
  | i :: rest =>
      match nth_error a i with
      | None => Err IndexError
      | Some x =>
          match take_indices a rest with
          | Ok xs => Ok (x :: xs)
          | Err e => Err e
          end
      end
  end.

(** [np.random.choice(a, size=size, p=p)]. *)
Definition choice_p {A} (a : list A) (size : Z) (p : list float)
  : Comp (list A) :=
  fun s => if (size <? 0)%Z then Err ValueError
           else
             let (idx, s') := draw_n (rng_categorical p) (Z.to_nat size) s in
             match take_indices a idx with
             | Ok xs => Ok (xs, s')
             | Err e => Err e
             end.

(** [np.random.choice(a, size=size, replace=False)]: the first [size]
    entries of a random permutation of the positions of [a]. *)
Definition choice_no_replace {A} (a : list A) (size : Z) : Comp (list A) :=
  fun s => if (size <? 0)%Z then Err ValueError
           else if (Z.of_nat (length a) <? size)%Z then Err ValueError
           else
             let (perm, s') := rng_permutation (length a) s in
             match take_indices a (firstn (Z.to_nat size) perm) with
             | Ok xs => Ok (xs, s')
             | Err e => Err e
             end.

(** *** The blocks of the generator, in source order *)

(** Lines 47-55. *)
Definition make_non_cheaters (n_non_cheaters : Z) : Comp DataFrame :=
  ability <- normal_n 0 1 n_non_cheaters ;;
  zeros <- lift (Np.zeros n_non_cheaters) ;;
  non_cheaters <- lift (Pd.DataFrame_of
                          [("ability", FloatCol ability);
                           ("cheater", IntCol zeros)]) ;;
  a <- lift (Pd.get_float non_cheaters "ability") ;;
  noise <- normal_n 0 0.8 n_non_cheaters ;;
  non_cheaters <- lift (Pd.set_col non_cheaters "coursework_raw"
                          (FloatCol (Np.vadd a noise))) ;;
  a <- lift (Pd.get_float non_cheaters "ability") ;;
  noise <- normal_n 0 0.8 n_non_cheaters ;;
  lift (Pd.set_col non_cheaters "exam_raw" (FloatCol (Np.vadd a noise))).

(** Lines 58-65. *)
Definition make_cheaters (n_cheaters : Z) : Comp DataFrame :=
  ability <- normal_n (-0.5) 1 n_cheaters ;;
  ones <- lift (Np.ones n_cheaters) ;;
  cheaters <- lift (Pd.DataFrame_of
                      [("ability", FloatCol ability);
                       ("cheater", IntCol ones)]) ;;
  a <- lift (Pd.get_float cheaters "ability") ;;
  noise <- normal_n 0 0.8 n_cheaters ;;
  lift (Pd.set_col cheaters "coursework_raw" (FloatCol (Np.vadd a noise))).

(** Lines 77-92: the body of the loop over the cheater types. *)
Definition apply_pattern (ic : nat * string) (cheaters : DataFrame)
  : Comp DataFrame :=
  let (i, cheater_type) := ic in
  if String.eqb cheater_type "coursework_advantage" then
    a <- lift (Pd.loc_float cheaters i "ability") ;;
    u <- uniform 1.0 2.5 ;;
    let cheaters := Pd.loc_set cheaters i "coursework_raw" (a + u)%float in
    a <- lift (Pd.loc_float cheaters i "ability") ;;
    g <- normal 0 0.8 ;;
    ret (Pd.loc_set cheaters i "exam_raw" (a + g)%float)
  else if String.eqb cheater_type "exam_advantage" then
    a <- lift (Pd.loc_float cheaters i "ability") ;;
    g <- normal 0 0.8 ;;
    let cheaters := Pd.loc_set cheaters i "coursework_raw" (a + g)%float in
    a <- lift (Pd.loc_float cheaters i "ability") ;;
    u <- uniform 1.5 3.0 ;;
    ret (Pd.loc_set cheaters i "exam_raw" (a + u)%float)
  else
    both_boost <- uniform 1.0 2.0 ;;
    a <- lift (Pd.loc_float cheaters i "ability") ;;
    g <- normal 0 0.2 ;;
    let cheaters :=
      Pd.loc_set cheaters i "coursework_raw" (a + both_boost + g)%float in
    a <- lift (Pd.loc_float cheaters i "ability") ;;
    g <- normal 0 0.2 ;;
    ret (Pd.loc_set cheaters i "exam_raw" (a + both_boost + g)%float).

Definition n_subjects : nat := 5.

(** Lines 103-113: the body of the loop that fills [subject_scores]. *)
Definition subject_row (data : DataFrame) (i : nat)
  (subject_scores : list (list float)) : Comp (list (list float)) :=
  base_ability <- lift (Pd.loc_float data i "ability") ;;
  c <- lift (Pd.loc data i "cheater") ;;
  if value_eq_int c 0 then
    noise <- normal_n 0 1 (Z.of_nat n_subjects) ;;
    ret (list_set subject_scores i
           (map (fun x => (base_ability + x)%float) noise))
  else
    u <- random ;;
    if (u <? 0.7)%float then
      noise <- normal_n 0 0.4 (Z.of_nat n_subjects) ;;
      ret (list_set subject_scores i
             (map (fun x => (base_ability + x)%float) noise))
    else
      noise <- normal_n 0 1 (Z.of_nat n_subjects) ;;
      ret (list_set subject_scores i
             (map (fun x => (base_ability + x)%float) noise)).

(** Lines 100-115. *)
Definition subject_variation_block (n_samples : Z) (data : DataFrame)
  : Comp DataFrame :=
  subject_scores <- lift (Np.zeros2 n_samples n_subjects) ;;
  subject_scores <- for_each (Py.range n_samples) (subject_row data)
                      subject_scores ;;
  lift (Pd.set_col data "subject_variation"
          (FloatCol (map Np.std subject_scores))).

(** Lines 124-125: the body of the loop over the sudden improvers. *)
Definition worsen_past (idx : nat) (past_performance : list float)
  : Comp (list float) :=
  old <- lift (Pd.series_get past_performance idx) ;;
  u <- uniform 0.5 1.5 ;;
  ret (list_set past_performance idx (old - u)%float).

(** Lines 118-127; also returns [cheater_indices] and [sudden_improvers]. *)
Definition historical_trend_block (n_samples : Z) (data : DataFrame)
  : Comp (DataFrame * list nat * list nat) :=
  a <- lift (Pd.get_float data "ability") ;;
  noise <- normal_n 0 0.5 n_samples ;;
  let past_performance := Np.vadd a noise in
  cw <- lift (Pd.get_float data "coursework_raw") ;;
  ex <- lift (Pd.get_float data "exam_raw") ;;
  let current_performance := map (fun x => (x / 2)%float) (Np.vadd cw ex) in
  cheater_indices <- lift (Pd.index_where_eq data "cheater" 1) ;;
  size <- lift (Py.int (Py.float_of_nat (length cheater_indices) * 0.6)%float) ;;
  sudden_improvers <- choice_no_replace cheater_indices size ;;
  past_performance <- for_each sudden_improvers worsen_past past_performance ;;
  data <- lift (Pd.set_col data "historical_trend"
                  (FloatCol (Np.vsub current_performance past_performance))) ;;
  ret (data, cheater_indices, sudden_improvers).

(** Lines 132-137: the body of the loop over the cheaters. *)
Definition skew_exam_time (i : nat) (data : DataFrame) : Comp DataFrame :=
  u1 <- random ;;
  if (u1 <? 0.4)%float then
    v <- uniform 1.5 3 ;;
    ret (Pd.loc_set data i "exam_time_std" (- v)%float)
  else
    u2 <- random ;;
    if (u2 <? 0.7)%float then
      v <- uniform 1.5 3 ;;
      ret (Pd.loc_set data i "exam_time_std" v)
    else ret data.

(** Lines 130-137. *)
Definition exam_time_block (n_samples : Z) (cheater_indices : list nat)
  (data : DataFrame) : Comp DataFrame :=
  base <- normal_n 0 1 n_samples ;;
  data <- lift (Pd.set_col data "exam_time_std" (FloatCol base)) ;;
  for_each cheater_indices skew_exam_time data.

(** The exam-time step as a single pass over the records: the new value of
    one cheater's exam time, given its standard-normal draw [b]. *)
Definition skewed_time (b : float) : Comp float :=
  u1 <- random ;;
  if (u1 <? 0.4)%float then
    v <- uniform 1.5 3 ;; ret (- v)%float
  else
    u2 <- random ;;
    if (u2 <? 0.7)%float then uniform 1.5 3 else ret b.

(** Record by record, in row order: a cheater's time is redrawn by
    [skewed_time], everybody else keeps the standard-normal draw. *)
Definition exam_times (is_cheater : list bool) (base : list float)
  : Comp (list float) :=
  map_m (fun cb : bool * float =>
           if fst cb then skewed_time (snd cb) else ret (snd cb))
    (combine is_cheater base).

(** The exam-time step in the specification's words: the second replacement
    happens with probability 0.3 of the remaining cases. *)
Definition skew_exam_time_spec (i : nat) (data : DataFrame) : Comp DataFrame :=
  u1 <- random ;;
  if (u1 <? 0.4)%float then
    v <- uniform 1.5 3 ;;
    ret (Pd.loc_set data i "exam_time_std" (- v)%float)
  else
    u2 <- random ;;
    if (u2 <? 0.3)%float then
      v <- uniform 1.5 3 ;;
      ret (Pd.loc_set data i "exam_time_std" v)
    else ret data.

Definition exam_time_block_spec (n_samples : Z) (cheater_indices : list nat)
  (data : DataFrame) : Comp DataFrame :=
  base <- normal_n 0 1 n_samples ;;
  data <- lift (Pd.set_col data "exam_time_std" (FloatCol base)) ;;
  for_each cheater_indices skew_exam_time_spec data.

Definition dict_get (d : list (nat * float)) (k : nat) : result float :=
  match find (fun kv => Nat.eqb (fst kv) k) d with
  | Some kv => Ok (snd kv)
  | None => Err KeyError
  end.

(** Lines 148-150: the body of the peer-comparison loop. *)
Definition peer_row (ability_groups : list nat)
  (avg_group_exam : list (nat * float)) (i : nat) (data : DataFrame)
  : Comp DataFrame :=
  group <- lift (match nth_error ability_groups i with
                 | Some g => Ok g
                 | None => Err IndexError
                 end) ;;
  expected_score <- lift (dict_get avg_group_exam group) ;;
  e <- lift (Pd.loc_float data i "exam_raw") ;;
  ret (Pd.loc_set data i "peer_comparison" (e - expected_score)%float).

(** The entry of [avg_group_exam] for a group (NaN stands for a missing
    key, which [peer_row] turns into [KeyError]). *)
Definition expected_score (avg_group_exam : list (nat * float)) (g : nat)
  : float :=
  match dict_get avg_group_exam g with
  | Ok m => m
  | Err _ => nan
  end.

(** The members of a group: the exam scores of the rows placed in it. *)
Definition group_members (ability_groups : list nat) (ex : list float)
  (g : nat) : list float :=
  mask_select (map (Nat.eqb g) ability_groups) ex.

(** The dictionary [avg_group_exam] over the groups 0, 1 and 2. *)
Definition three_means (groups : list nat) (ex : list float)
  : list (nat * float) :=
  [(0, Pd.mean (group_members groups ex 0));
   (1, Pd.mean (group_members groups ex 1));
   (2, Pd.mean (group_members groups ex 2))].

(** Line 144: the mean exam score of one ability group. *)
Definition group_mean (data : DataFrame) (ability_groups : list nat)
  (g : nat) : Comp (nat * float) :=
  ex <- lift (Pd.get_float data "exam_raw") ;;
  ret (g, Pd.mean (group_members ability_groups ex g)).

(** Lines 140-150; also returns [ability_groups] and [avg_group_exam]. *)
Definition peer_comparison_block (n_samples : Z) (data : DataFrame)
  : Comp (DataFrame * list nat * list (nat * float)) :=
  a <- lift (Pd.get_float data "ability") ;;
  p33 <- lift (Np.percentile a 33) ;;
  p66 <- lift (Np.percentile a 66) ;;
  let ability_percentiles := [p33; p66] in
  a <- lift (Pd.get_float data "ability") ;;
  let ability_groups := map (Np.digitize ability_percentiles) a in
  avg_group_exam <- map_m (group_mean data ability_groups) (seq 0 3) ;;
  let data := Pd.set_scalar data "peer_comparison" 0.0 in
  data <- for_each (Py.range n_samples) (peer_row ability_groups avg_group_exam)
            data ;;
  ret (data, ability_groups, avg_group_exam).

(** [(x - x.mean()) / x.std()] over a pandas column. *)
Definition z_scores (x : list float) : list float :=
  map (fun v => ((v - Pd.mean x) / Pd.std x)%float) x.


(** Lines 153-155. *)
Definition z_score_block (data : DataFrame) : Comp DataFrame :=
  cw <- lift (Pd.get_float data "coursework_raw") ;;
  data <- lift (Pd.set_col data "coursework_z" (FloatCol (z_scores cw))) ;;
  ex <- lift (Pd.get_float data "exam_raw") ;;
  data <- lift (Pd.set_col data "exam_z" (FloatCol (z_scores ex))) ;;
  cz <- lift (Pd.get_float data "coursework_z") ;;
  ez <- lift (Pd.get_float data "exam_z") ;;
  lift (Pd.set_col data "z_diff" (FloatCol (Np.vsub cz ez))).

(** Lines 159-168: the body of the score-variance loop. *)
Definition score_variance_row (i : nat) (data : DataFrame) : Comp DataFrame :=
  c <- lift (Pd.loc data i "cheater") ;;
  assessments <-
    (if value_eq_int c 1 then
       u <- random ;;
       if (u <? 0.7)%float then
         a <- lift (Pd.loc_float data i "ability") ;;
         noise <- normal_n 1.2 0.3 8 ;;
         ret (map (fun x => (a + x)%float) noise)
       else
         a <- lift (Pd.loc_float data i "ability") ;;
         noise <- normal_n 0 1 8 ;;
         ret (map (fun x => (a + x)%float) noise)
     else
       a <- lift (Pd.loc_float data i "ability") ;;
       noise <- normal_n 0 1 8 ;;
       ret (map (fun x => (a + x)%float) noise)) ;;
  ret (Pd.loc_set data i "score_variance" (Np.std assessments)).

Definition features_for_anomaly : list string :=
  ["coursework_z"; "exam_z"; "z_diff"; "score_variance";
   "subject_variation"; "historical_trend"].

(** Line 179: [(col == -1).astype(float)]. *)
Definition outlier_flags (c : column) : column :=
  FloatCol (map (fun b : bool => if b then 1%float else 0%float)
              (col_eq_int c (-1))).

(** Lines 171-179. *)
Definition anomaly_block (data : DataFrame) : Comp DataFrame :=
  X <- lift (Pd.select data features_for_anomaly) ;;
  anomaly_scores <- lift (fit_predict 0.2 42 X) ;;
  data <- lift (Pd.set_col data "anomaly_score" (IntCol anomaly_scores)) ;;
  c <- lift (Pd.get_col data "anomaly_score") ;;
  lift (Pd.set_col data "anomaly_score" (outlier_flags c)).

Definition dropped_columns : list string :=
  ["ability"; "coursework_raw"; "exam_raw"].

Definition cheater_type_names : list string :=
  ["coursework_advantage"; "exam_advantage"; "consistent"].

(** The local variables of one call that the properties refer to. *)
Record Locals : Type := {
  n_cheaters : Z;
  cheater_types : list string;
  cheater_indices : list nat;
  sudden_improvers : list nat;
  ability_groups : list nat;
  avg_group_exam : list (nat * float);
  data : DataFrame;
  final_data : DataFrame
}.

(** Lines 40-95: the seed, the two groups and their concatenation. *)
Definition make_data (n_samples : Z) (cheater_ratio : float)
  : Comp (Z * list string * DataFrame) :=
  seed 42 ;;;
  n <- lift (Py.float_of_int n_samples) ;;
  n_cheaters <- lift (Py.int (n * cheater_ratio)%float) ;;
  let n_non_cheaters := (n_samples - n_cheaters)%Z in
  non_cheaters <- make_non_cheaters n_non_cheaters ;;
  cheaters <- make_cheaters n_cheaters ;;
  cheater_types <- choice_p cheater_type_names n_cheaters [0.5; 0.3; 0.2]%float ;;
  cheaters <- for_each (enumerate cheater_types) apply_pattern cheaters ;;
  ret (n_cheaters, cheater_types, Pd.concat non_cheaters cheaters).

(** Lines 40-168: everything before the outlier detector. *)
Definition prepare (n_samples : Z) (cheater_ratio : float)
  : Comp (Z * list string * list nat * list nat * list nat
          * list (nat * float) * DataFrame) :=
  r <- make_data n_samples cheater_ratio ;;
  let '(n_cheaters, cheater_types, data) := r in
  data <- subject_variation_block n_samples data ;;
  r <- historical_trend_block n_samples data ;;
  let '(data, cheater_indices, sudden_improvers) := r in
  data <- exam_time_block n_samples cheater_indices data ;;
  r <- peer_comparison_block n_samples data ;;
  let '(data, ability_groups, avg_group_exam) := r in
  data <- z_score_block data ;;
  data <- for_each (Py.range n_samples) score_variance_row data ;;
  ret (n_cheaters, cheater_types, cheater_indices, sudden_improvers,
       ability_groups, avg_group_exam, data).

(** Lines 170-184: the outlier flag and the final projection. *)
Definition finish
  (p : Z * list string * list nat * list nat * list nat
       * list (nat * float) * DataFrame) : Comp Locals :=
  let '(n_cheaters, cheater_types, cheater_indices, sudden_improvers,
        ability_groups, avg_group_exam, data) := p in
  data <- anomaly_block data ;;
  final_data <- lift (Pd.drop data dropped_columns) ;;
  ret {| n_cheaters := n_cheaters;
         cheater_types := cheater_types;
         cheater_indices := cheater_indices;
         sudden_improvers := sudden_improvers;
         ability_groups := ability_groups;
         avg_group_exam := avg_group_exam;
         data := data;
         final_data := final_data |}.

(** The whole call, returning its locals. *)
Definition run (n_samples : Z) (cheater_ratio : float) : Comp Locals :=
  p <- prepare n_samples cheater_ratio ;; finish p.

(** [generate_realistic_cheating_data(n_samples, cheater_ratio)]. *)
Definition generate_realistic_cheating_data (n_samples : Z)
  (cheater_ratio : float) : Comp DataFrame :=
  l <- run n_samples cheater_ratio ;; ret (final_data l).

(** The call with any number for [n_samples].  With a float, line 43
    truncates the product as it does with an integer and line 44 makes
    [n_non_cheaters] a float; it is the size of the first draw, on line 49,
    which raises: the frame of lines 47-51 is not built and the call ends
    there. *)
Definition generate_realistic_cheating_data_of (n_samples : Py.number)
  (cheater_ratio : float) : Comp DataFrame :=
  match n_samples with
  | Py.Int z => generate_realistic_cheating_data z cheater_ratio
  | Py.Float x =>
      seed 42 ;;;
      n_cheaters <- lift (Py.int (x * cheater_ratio)%float) ;;
      let n_non_cheaters := Py.Float (x - Py.float_of_Z n_cheaters)%float in
      size <- lift (Py.index n_non_cheaters) ;;
      ability <- normal_n 0 1 size ;;
      zeros <- lift (Np.zeros size) ;;
      lift (Pd.DataFrame_of [("ability", FloatCol ability);
                             ("cheater", IntCol zeros)])
  end.

End Generator.

(** The frame just before the outlier detector runs, column by column. *)
Definition full_frame (n : nat) (a : list float) (ch : list Z)
  (cw ex sv ht et pc sc : list float) : DataFrame :=
  {| nrows := n;
     cols := [("ability", FloatCol a);
              ("cheater", IntCol ch);
              ("coursework_raw", FloatCol cw);
              ("exam_raw", FloatCol ex);
              ("subject_variation", FloatCol sv);
              ("historical_trend", FloatCol ht);
              ("exam_time_std", FloatCol et);
              ("peer_comparison", FloatCol pc);
              ("coursework_z", FloatCol (z_scores cw));
              ("exam_z", FloatCol (z_scores ex));
              ("z_diff", FloatCol (Np.vsub (z_scores cw) (z_scores ex)));
              ("score_variance", FloatCol sc)] |}.

(** The returned table, column by column. *)
Definition final_frame (n : nat) (ch : list Z)
  (cw ex sv ht et pc sc : list float) (labels : list Z) : DataFrame :=
  {| nrows := n;
     cols := [("cheater", IntCol ch);
              ("subject_variation", FloatCol sv);
              ("historical_trend", FloatCol ht);
              ("exam_time_std", FloatCol et);
              ("peer_comparison", FloatCol pc);
              ("coursework_z", FloatCol (z_scores cw));
              ("exam_z", FloatCol (z_scores ex));
              ("z_diff", FloatCol (Np.vsub (z_scores cw) (z_scores ex)));
              ("score_variance", FloatCol sc);
              ("anomaly_score", outlier_flags (IntCol labels))] |}.

(** The input of the detector. *)
Definition features_frame (n : nat) (cw ex sv ht sc : list float) : DataFrame :=
  {| nrows := n;
     cols := [("coursework_z", FloatCol (z_scores cw));
              ("exam_z", FloatCol (z_scores ex));
              ("z_diff", FloatCol (Np.vsub (z_scores cw) (z_scores ex)));
              ("score_variance", FloatCol sc);
              ("subject_variation", FloatCol sv);
              ("historical_trend", FloatCol ht)] |}.

(** The labels of the rows: the non-cheaters first, then the cheaters. *)
Definition labels_of (n k : nat) : list Z :=
  repeat 0%Z (n - k) ++ repeat 1%Z k.

(** The peer-comparison column: each exam score minus the mean exam score of
    the row's ability group. *)
Definition peer_column (p33 p66 : float) (a ex : list float) : list float :=
  let groups := map (Np.digitize [p33; p66]) a in
  map2 (fun g e => (e - expected_score (three_means groups ex) g)%float)
    groups ex.

(** The locals of a call that returned, from the values it drew. *)
Definition locals_of (n : nat) (kz : Z) (types : list string) (imp : list nat)
  (a cw ex sv ht et sc : list float) (p33 p66 : float) (labels : list Z)
  : Locals :=
  let k := Z.to_nat kz in
  let groups := map (Np.digitize [p33; p66]) a in
  let pc := peer_column p33 p66 a ex in
  {| n_cheaters := kz;
     cheater_types := types;
     cheater_indices := seq (n - k) k;
     sudden_improvers := imp;
     ability_groups := groups;
     avg_group_exam := three_means groups ex;
     data := with_col (full_frame n a (labels_of n k) cw ex sv ht et pc sc)
               "anomaly_score" (outlier_flags (IntCol labels));
     final_data := final_frame n (labels_of n k) cw ex sv ht et pc sc labels |}.

(** The number of rows labelled 1 in a table. *)
Definition cheater_count (t : DataFrame) : result nat :=
  match Pd.get_col t "cheater" with
  | Ok c => Ok (length (filter (fun b : bool => b) (col_eq_int c 1)))
  | Err e => Err e
  end.

(** Two columns differ: some row's values are more than 0.001 apart. *)
Definition differ (l1 l2 : list float) : bool :=
  existsb (fun p => (0.001 <? PrimFloat.abs (fst p - snd p))%float)
    (combine l1 l2).

(** ** The cells after the generator

    The rest of the notebook is a script.  Each cell is embedded as the
    functions of the values it reads; the fitted classifier, the metrics of
    scikit-learn and the formatting of a float are external. *)

(** A fitted classifier: [model.predict_proba(X)] gives one row of class
    probabilities per row of [X], or raises. *)
Class Classifier : Type := {
  predict_proba : list (list float) -> result (list (list float));
  feature_importances_ : list float
}.

(** [sklearn.metrics]. *)
Class Metrics : Type := {
  fbeta_score : list Z -> list Z -> float -> result float;
  precision_recall_curve :
    list Z -> list float -> result (list float * list float * list float)
}.

(** The format specification [.2f] of an f-string. *)
Class Formatter : Type := {
  format_2f : float -> string
}.

(** What matplotlib is given for one polar plot. *)
Module Plt.

Record Figure : Type := {
  line_x : list float;
  line_y : list float;
  xticks : list float;
  xticklabels : list string
}.

(** [ax.fill(x, y)] and [ax.plot(x, y)]: both arrays must have one length. *)
Definition plot (x y : list float) : result (list float * list float) :=
  if Nat.eqb (length x) (length y) then Ok (x, y) else Err ValueError.

(** [ax.set_xticks(ticks)] followed by [ax.set_xticklabels(labels)]: one
    label per tick. *)
Definition set_xticklabels (ticks : list float) (labels : list string)
  : result (list string) :=
  if Nat.eqb (length ticks) (length labels) then Ok labels else Err ValueError.

End Plt.

(** [str(n)] for an integer. *)
Definition str (n : Z) : string :=
  DecimalString.NilEmpty.string_of_int (Z.to_int n).

Definition newline : string := String (Ascii.ascii_of_nat 10) EmptyString.

(** [d[k] = v] on a dictionary in insertion order. *)
Fixpoint dict_set {V} (k : string) (v : V) (d : list (string * V))
  : list (string * V) :=
  match d with
  | [] => [(k, v)]
  | (k0, v0) :: rest =>
      if String.eqb k0 k then (k0, v) :: rest
      else (k0, v0) :: dict_set k v rest
  end.

(** [dict(pairs)]: a later pair with the same key replaces the value. *)
Definition dict {V} (pairs : list (string * V)) : list (string * V) :=
  fold_left (fun d kv => dict_set (fst kv) (snd kv) d) pairs [].

Fixpoint dict_lookup {V} (k : string) (d : list (string * V)) : option V :=
  match d with
  | [] => None
  | (k0, v0) :: rest => if String.eqb k0 k then Some v0 else dict_lookup k rest
  end.

(** *** Data generation and preprocessing (lines 186-191) *)

Module Preprocessing.

Section Cell.

Context {R : NumpyRandom} {D : OutlierDetector}.

(** Line 187. *)
Definition improved_data : M rng_state DataFrame :=
  generate_realistic_cheating_data 1000 0.15.

End Cell.

(** Lines 190, 323-324, 429-430 and 550-551: the columns of [X]. *)
Definition feature_names : list string :=
  ["coursework_z"; "exam_z"; "z_diff"; "score_variance"; "exam_time_std";
   "peer_comparison"; "subject_variation"; "historical_trend";
   "anomaly_score"].

(** Line 190. *)
Definition X (improved_data : DataFrame) : result DataFrame :=
  Pd.select improved_data feature_names.

(** Line 191. *)
Definition y (improved_data : DataFrame) : result column :=
  Pd.get_col improved_data "cheater".

End Preprocessing.

(** *** Grid search and model training (lines 254-267) *)

Module Training.

(** [(y_probs > threshold).astype(int)], lines 262, 331, 423, 434, 544
    and 555. *)
Definition y_pred (y_probs : list float) (threshold : float) : list Z :=
  map (fun p => if (threshold <? p)%float then 1%Z else 0%Z) y_probs.

Section Cell.

Context {C : Classifier} {K : Metrics}.

#[local] Open Scope result_scope.

(** Line 257: [model.predict_proba(X_test_scaled)[:, 1]]. *)
Definition y_probs (X_test_scaled : list (list float)) : result (list float) :=
  proba <~ predict_proba X_test_scaled ;;
  Np.column proba 1.

(** Line 258. *)
Definition thresholds : result (list float) := Np.linspace 0 1 100 true.

(** Lines 262-266: the body of the sweep; the accumulator is
    [(best_threshold, best_f1)]. *)
Definition try_threshold (y_test : list Z) (y_probs : list float)
  (threshold : float) (best : float * float) : result (float * float) :=
  let (best_threshold, best_f1) := best in
  f1 <~ fbeta_score y_test (y_pred y_probs threshold) 1 ;;
  if (best_f1 <? f1)%float then Ok (threshold, f1)
  else Ok (best_threshold, best_f1).

(** Lines 261-266 over any list of candidates. *)
Definition sweep (y_test : list Z) (y_probs : list float)
  (thresholds : list float) : result (float * float) :=
  for_r thresholds (try_threshold y_test y_probs) (0.5, 0)%float.

(** Lines 258-266: [(best_threshold, best_f1)] after the loop. *)
Definition best_threshold (y_test : list Z) (y_probs : list float)
  : result (float * float) :=
  thresholds <~ thresholds ;;
  sweep y_test y_probs thresholds.

End Cell.

End Training.

(** *** Model loading and analysis (lines 283-315) *)

Module Analysis.

Section Cell.

Context {C : Classifier} {F : Formatter}.

#[local] Open Scope result_scope.

(** Lines 287-291, 378-382 and 514-518: the probability of the positive
    class for one student, [model.predict_proba(student_df)[:, 1][0]], and
    the prediction [1 if prob > threshold else 0]. *)
Definition predict (student_data : list float) (feature_names : list string)
  (threshold : float) : result (Z * float) :=
  student_df <~ Pd.DataFrame_row student_data feature_names ;;
  proba <~ predict_proba (Pd.values student_df) ;;
  positive <~ Np.column proba 1 ;;
  prob <~ item positive 0 ;;
  Ok (if (threshold <? prob)%float then 1%Z else 0%Z, prob).

(** Lines 294-306 and 388-399: the radar chart of one student. *)
Definition radar_chart (categories : list string) (values : list float)
  : result Plt.Figure :=
  angles <~ Np.linspace 0 (2 * Np.pi) (Z.of_nat (length categories)) false ;;
  first <~ item values 0 ;;
  let values := Np.append values first in
  let angles := angles ++ firstn 1 angles in
  line <~ Plt.plot angles values ;;
  let ticks := removelast angles in
  labels <~ Plt.set_xticklabels ticks categories ;;
  Ok {| Plt.line_x := fst line;
        Plt.line_y := snd line;
        Plt.xticks := ticks;
        Plt.xticklabels := labels |}.

(** Lines 309-313. *)
Definition report (student_id : Z) (prob : float) (prediction : Z) : string :=
  newline ++ "    Student ID: " ++ str student_id
  ++ newline ++ "    Predicted Probability: " ++ format_2f prob
  ++ newline ++ "    Prediction: "
  ++ (if (prediction =? 0)%Z then "Not Cheater" else "Cheater")
  ++ newline ++ "    ".

(** Lines 283-315. *)
Definition analyze_student_with_dashboard (student_id : Z)
  (student_data : list float) (feature_names : list string)
  (threshold : float)
  : result (Z * string * list (string * Plt.Figure)) :=
  p <~ predict student_data feature_names threshold ;;
  let (prediction, prob) := p in
  radar_fig <~ radar_chart feature_names student_data ;;
  Ok (prediction, report student_id prob prediction,
      [("radar_chart", radar_fig)]).

End Cell.

End Analysis.

(** *** The students likely cheating (lines 374-478) *)

Module Likely.

Record Row : Type := {
  student_id : Z;
  predicted_probability : float;
  feature_contributions : list (string * float);
  radar_chart : Plt.Figure
}.

Definition columns : list string :=
  ["Student ID"; "Predicted Probability"; "Feature Contributions";
   "Radar Chart"].

Section Cell.

Context {C : Classifier} {K : Metrics} {F : Formatter}.

#[local] Open Scope result_scope.

(** Lines 374-402. *)
Definition analyze_student (student_id : Z) (student_data : list float)
  (feature_names : list string) (threshold : float)
  : result (Z * float * list (string * float) * Plt.Figure) :=
  p <~ Analysis.predict student_data feature_names threshold ;;
  let (prediction, prob) := p in
  weighted <~ Np.multiply feature_importances_ student_data ;;
  let feature_contributions := dict (combine feature_names weighted) in
  radar_fig <~ Analysis.radar_chart feature_names student_data ;;
  Ok (prediction, prob, feature_contributions, radar_fig).

(** Lines 414-418: the threshold with the largest sum of precision and
    recall. *)
Definition optimal_threshold (y_test : list Z) (y_probs : list float)
  : result float :=
  curve <~ precision_recall_curve y_test y_probs ;;
  let '(precisions, recalls, thresholds) := curve in
  sums <~ Np.add precisions recalls ;;
  best_idx <~ Np.argmax sums ;;
  item thresholds best_idx.

(** Lines 458-472: the body of the loop over the students. *)
Definition visit (X_test_scaled : list (list float))
  (feature_names : list string) (optimal_threshold : float)
  (student_index : nat) (likely_cheaters : list Row) : result (list Row) :=
  student_data <~ item X_test_scaled student_index ;;
  r <~ analyze_student (Z.of_nat student_index) student_data feature_names
         optimal_threshold ;;
  let '(prediction, prob, feature_contributions, radar_fig) := r in
  if (prediction =? 1)%Z
  then Ok (likely_cheaters
           ++ [{| student_id := Z.of_nat student_index;
                  predicted_probability := prob;
                  feature_contributions := feature_contributions;
                  radar_chart := radar_fig |}])
  else Ok likely_cheaters.

(** Lines 456-472. *)
Definition likely_cheaters (X_test_scaled : list (list float))
  (feature_names : list string) (optimal_threshold : float)
  : result (list Row) :=
  for_r (Py.range (Z.of_nat (length X_test_scaled)))
    (visit X_test_scaled feature_names optimal_threshold) [].

End Cell.

(** Line 475: the columns of [pd.DataFrame(rows)] for a list of
    dictionaries with the keys [keys]: a frame made from no row has no
    column. *)
Definition frame_columns {A} (keys : list string) (rows : list A)
  : list string :=
  match rows with
  | [] => []
  | _ :: _ => keys
  end.

(** Lines 475-478: [pd.DataFrame(likely_cheaters)[['Student ID', 'Predicted
    Probability']]]; a name that is not a column raises [KeyError]. *)
Definition summary_table (likely_cheaters : list Row)
  : result (list (Z * float)) :=
  if forallb (fun k => Pd.mem k (frame_columns columns likely_cheaters))
       ["Student ID"; "Predicted Probability"]
  then Ok (map (fun r => (student_id r, predicted_probability r))
             likely_cheaters)
  else Err KeyError.

End Likely.

(** *** The full list of students (lines 510-582) *)

Module Summary.

Record Row : Type := {
  student_id : Z;
  predicted_probability : float;
  cheater : string
}.

Definition columns : list string :=
  ["Student ID"; "Predicted Probability"; "Cheater"].

Section Cell.

Context {C : Classifier}.

#[local] Open Scope result_scope.

(** Lines 510-523. *)
Definition analyze_student (student_id : Z) (student_data : list float)
  (feature_names : list string) (threshold : float)
  : result (Z * float * list (string * float)) :=
  p <~ Analysis.predict student_data feature_names threshold ;;
  let (prediction, prob) := p in
  weighted <~ Np.multiply feature_importances_ student_data ;;
  let feature_contributions := dict (combine feature_names weighted) in
  Ok (prediction, prob, feature_contributions).

(** Lines 564-576: the body of the loop over the students. *)
Definition visit (X_test_scaled : list (list float))
  (feature_names : list string) (optimal_threshold : float)
  (student_index : nat) (students_list : list Row) : result (list Row) :=
  student_data <~ item X_test_scaled student_index ;;
  r <~ analyze_student (Z.of_nat student_index) student_data feature_names
         optimal_threshold ;;
  let '(prediction, prob, feature_contributions) := r in
  Ok (students_list
      ++ [{| student_id := Z.of_nat student_index;
             predicted_probability := prob;
             cheater := if (prediction =? 1)%Z then "Yes" else "No" |}]).

(** Lines 560-576. *)
Definition students_list (X_test_scaled : list (list float))
  (feature_names : list string) (optimal_threshold : float)
  : result (list Row) :=
  for_r (Py.range (Z.of_nat (length X_test_scaled)))
    (visit X_test_scaled feature_names optimal_threshold) [].

End Cell.

(** Lines 579-582: [pd.DataFrame(students_list)[['Student ID', 'Predicted
    Probability', 'Cheater']]]. *)
Definition summary_table (students_list : list Row) : result (list Row) :=
  if forallb (fun k => Pd.mem k (Likely.frame_columns columns students_list))
       ["Student ID"; "Predicted Probability"; "Cheater"]
  then Ok students_list
  else Err KeyError.

(** Lines 588-590: the style of the cells of one row, one entry per column
    of the table. *)
Definition highlight (x : Row) : list string :=
  map (fun _ => if String.eqb (cheater x) "Yes"
                then "background-color: blue" else "") columns.

(** [summary_table.style.apply(highlight, axis=1)]: the styles, row by
    row. *)
Definition highlighted_table (summary_table : list Row) : list (list string) :=
  map highlight summary_table.

End Summary.

(** ** Descriptions used by the properties *)

(** The degenerate case in the specification's words: every record is a
    non-cheater and none of the cheater-only logic runs.  [Honest.prepare]
    is lines 40-168 with that logic taken out: no group of cheaters and no
    cheating pattern, no cheater branch for the subject scores and the
    assessments, no sudden-improvement penalty and no exam-time skew.  It is
    compared with [prepare], the embedding of the source. *)
Module Honest.

Section Blocks.

Context {R : NumpyRandom}.

(** Lines 104-107: the subject scores of a non-cheater. *)
Definition subject_row (data : DataFrame) (i : nat)
  (subject_scores : list (list float)) : M rng_state (list (list float)) :=
  base_ability <- lift (Pd.loc_float data i "ability") ;;
  noise <- normal_n 0 1 (Z.of_nat n_subjects) ;;
  ret (list_set subject_scores i
         (map (fun x => (base_ability + x)%float) noise)).

Definition subject_variation_block (n_samples : Z) (data : DataFrame)
  : M rng_state DataFrame :=
  subject_scores <- lift (Np.zeros2 n_samples n_subjects) ;;
  subject_scores <- for_each (Py.range n_samples) (subject_row data)
                      subject_scores ;;
  lift (Pd.set_col data "subject_variation"
          (FloatCol (map Np.std subject_scores))).

(** Lines 118-127 without the penalty.  Line 123 still draws the sudden
    improvers, among nobody. *)
Definition historical_trend_block (n_samples : Z) (data : DataFrame)
  : M rng_state DataFrame :=
  a <- lift (Pd.get_float data "ability") ;;
  noise <- normal_n 0 0.5 n_samples ;;
  let past_performance := Np.vadd a noise in
  cw <- lift (Pd.get_float data "coursework_raw") ;;
  ex <- lift (Pd.get_float data "exam_raw") ;;
  let current_performance := map (fun x => (x / 2)%float) (Np.vadd cw ex) in
  choice_no_replace (@nil nat) 0 ;;;
  lift (Pd.set_col data "historical_trend"
          (FloatCol (Np.vsub current_performance past_performance))).

(** Line 130 alone: the exam time of every record is its standard-normal
    draw. *)
Definition exam_time_block (n_samples : Z) (data : DataFrame)
  : M rng_state DataFrame :=
  base <- normal_n 0 1 n_samples ;;
  lift (Pd.set_col data "exam_time_std" (FloatCol base)).

(** Lines 166-168: the assessments of a non-cheater. *)
Definition score_variance_row (i : nat) (data : DataFrame)
  : M rng_state DataFrame :=
  a <- lift (Pd.loc_float data i "ability") ;;
  noise <- normal_n 0 1 8 ;;
  ret (Pd.loc_set data i "score_variance"
         (Np.std (map (fun x => (a + x)%float) noise))).

Definition prepare (n_samples : Z)
  : M rng_state (list nat * list (nat * float) * DataFrame) :=
  seed 42 ;;;
  data <- make_non_cheaters n_samples ;;
  data <- subject_variation_block n_samples data ;;
  data <- historical_trend_block n_samples data ;;
  data <- exam_time_block n_samples data ;;
  r <- peer_comparison_block n_samples data ;;
  let '(data, ability_groups, avg_group_exam) := r in
  data <- z_score_block data ;;
  data <- for_each (Py.range n_samples) score_variance_row data ;;
  ret (ability_groups, avg_group_exam, data).

End Blocks.

End Honest.

(** [writes names d d']: the frame [d'] has the rows of [d], and every column
    that is not listed in [names] is the one of [d]. *)
Definition writes (names : list string) (d d' : DataFrame) : Prop :=
  nrows d' = nrows d
  /\ forall c, ~ In c names -> df_lookup c (cols d') = df_lookup c (cols d).

(** The frame of the cheaters once both raw columns exist. *)
Definition cheaters_frame (k : nat) (a : list float) (o : list Z)
  (cw ex : list float) : DataFrame :=
  {| nrows := k;
     cols := [("ability", FloatCol a); ("cheater", IntCol o);
              ("coursework_raw", FloatCol cw); ("exam_raw", FloatCol ex)] |}.

Section PatternScores.

Context {R : NumpyRandom}.

(** Lines 78-92 for one cheater: the two raw scores of a cheater of ability
    [x], by cheater type, and the state of the stream after the draws. *)
Definition pattern_scores (x : float) (cheater_type : string) (s : rng_state)
  : float * float * rng_state :=
  if String.eqb cheater_type "coursework_advantage" then
    let (u, s1) := rng_uniform 1.0 2.5 s in
    let (g, s2) := rng_normal 0 0.8 s1 in
    ((x + u)%float, (x + g)%float, s2)
  else if String.eqb cheater_type "exam_advantage" then
    let (g, s1) := rng_normal 0 0.8 s in
    let (u, s2) := rng_uniform 1.5 3.0 s1 in
    ((x + g)%float, (x + u)%float, s2)
  else
    let (both_boost, s1) := rng_uniform 1.0 2.0 s in
    let (g, s2) := rng_normal 0 0.2 s1 in
    let (g', s3) := rng_normal 0 0.2 s2 in
    ((x + both_boost + g)%float, (x + both_boost + g')%float, s3).

(** The scores of the cheaters, row after row on one stream. *)
Fixpoint pattern_rows (a : list float) (types : list string) (s : rng_state)
  : list float * list float * rng_state :=
  match a, types with
  | x :: a', ty :: types' =>
      let '(c, e, s1) := pattern_scores x ty s in
      let '(cs, es, s2) := pattern_rows a' types' s1 in
      (c :: cs, e :: es, s2)
  | _, _ => ([], [], s)
  end.

End PatternScores.

Section Predictions.

Context {C : Classifier}.

(** The prediction for the student in row [i], when there is one. *)
Definition flagged (X_test_scaled : list (list float))
  (feature_names : list string) (threshold : float) (i : nat) : bool :=
  match nth_error X_test_scaled i with
  | Some student_data =>
      match Analysis.predict student_data feature_names threshold with
      | Ok (prediction, _) => (prediction =? 1)%Z
      | Err _ => false
      end
  | None => false
  end.

(** The probability the model gives the student in row [i]. *)
Definition probability (X_test_scaled : list (list float))
  (feature_names : list string) (threshold : float) (i : nat) : float :=
  match nth_error X_test_scaled i with
  | Some student_data =>
      match Analysis.predict student_data feature_names threshold with
      | Ok (_, prob) => prob
      | Err _ => nan
      end
  | None => nan
  end.

End Predictions.

(** A key that orders the binary64 numbers as [<] does: the class (negative
    infinity, negative, zero, positive, positive infinity), then exponent and
    mantissa. *)
Definition sf_key (x : spec_float) : Z * Z * Z :=
  match x with
  | S754_zero _ => (0, 0, 0)
  | S754_infinity s => (if s then -2 else 2, 0, 0)
  | S754_nan => (3, 0, 0)
  | S754_finite s m e => if s then (-1, - e, - Z.pos m) else (1, e, Z.pos m)
  end%Z.

Definition key_compare (k1 k2 : Z * Z * Z) : comparison :=
  let '(a1, b1, c1) := k1 in
  let '(a2, b2, c2) := k2 in
  match (a1 ?= a2)%Z with
  | Eq => match (b1 ?= b2)%Z with
          | Eq => (c1 ?= c2)%Z
          | c => c
          end
  | c => c
  end.

Definition sf_is_nan (x : spec_float) : bool :=
  match x with S754_nan => true | _ => false end.

(** ** A concrete generator and detector for the runs

    [Replay] is a small deterministic instance of [NumpyRandom]: the state is
    a counter into fixed tables of uniform and standard-normal values.  The
    detector flags the rows whose [z_diff] exceeds one in absolute value. *)

Module Replay.

Definition uniforms : list float :=
  [0.5; 0.125; 0.75; 0.25; 0.625; 0.375; 0.875; 0.0625]%float.

Definition gaussians : list float :=
  [-1; 0.5; 0.25; -0.5; 1; -0.25; 0.75; -0.75; 1.5; 0; -1.25]%float.

Definition next_uniform (s : nat) : float :=
  nth (s mod length uniforms) uniforms 0%float.

Definition next_gaussian (s : nat) : float :=
  nth (s mod length gaussians) gaussians 0%float.

Fixpoint cumsum (acc : float) (p : list float) : list float :=
  match p with
  | [] => []
  | x :: t => (acc + x)%float :: cumsum (acc + x)%float t
  end.

Definition categorical (p : list float) (s : nat) : nat * nat :=
  let u := next_uniform s in
  (Nat.min (length (filter (fun c => (c <=? u)%float) (cumsum 0 p)))
     (length p - 1),
   S s).

Lemma categorical_lt p s : p <> [] -> fst (categorical p s) < length p.
Proof.
  intros Hp. unfold categorical. cbn [fst].
  destruct p as [|x t]; [congruence|]. cbn [length]. lia.
Qed.

Definition permutation (n : nat) (s : nat) : list nat * nat :=
  (rev (seq 0 n), S s).

Lemma permutation_perm n s : Permutation (fst (permutation n s)) (seq 0 n).
Proof. cbn [permutation fst]. apply Permutation_sym, Permutation_rev. Qed.

#[export] Instance rng : NumpyRandom := {|
  rng_state := nat;
  rng_seed := fun z => Z.to_nat z;
  rng_random := fun s => (next_uniform s, S s);
  rng_normal := fun loc scale s => ((loc + scale * next_gaussian s)%float, S s);
  rng_uniform := fun low high s =>
                   ((low + (high - low) * next_uniform s)%float, S s);
  rng_categorical := categorical;
  rng_permutation := permutation;
  rng_categorical_lt := categorical_lt;
  rng_permutation_perm := permutation_perm
|}.

Definition flag (z : float) : Z :=
  if (1 <? PrimFloat.abs z)%float then (-1)%Z else 1%Z.

Definition infinite (x : float) : bool :=
  match Prim2SF x with
  | S754_infinity _ => true
  | _ => false
  end.

(** Like scikit-learn's isolation forest, the detector rejects an empty
    input and an infinite value, and accepts NaN, which it treats as a
    missing value. *)
#[export] Instance detector : OutlierDetector := {|
  fit_predict := fun _ _ X =>
    if Nat.eqb (nrows X) 0 then Err ValueError
    else if existsb (fun kc => existsb infinite (as_float (snd kc))) (cols X)
    then Err ValueError
    else match Pd.get_float X "z_diff" with
         | Ok zd => Ok (map flag zd)
         | Err e => Err e
         end
|}.

(** A frame of one non-cheater and one cheater. *)
Definition two_records : DataFrame :=
  {| nrows := 2; cols := [("cheater", IntCol [0%Z; 1%Z])] |}.


(** A classifier over three features: the probability of the positive class
    is the first feature.  Like scikit-learn, it rejects an input without
    rows and a row that does not have three features. *)
#[export] Instance model : Classifier := {|
  predict_proba := fun X =>
    if Nat.eqb (length X) 0 then Err ValueError
    else if forallb (fun row : list float => Nat.eqb (length row) 3) X
    then Ok (map (fun row => let p := nth 0 row 0%float in [(1 - p)%float; p])
               X)
    else Err ValueError;
  feature_importances_ := [0.5; 0.25; 0.25]%float
|}.

(** The number of positions with the true label [a] and the prediction
    [b]. *)
Definition count (a b : Z) (y_true y_pred : list Z) : nat :=
  length (filter (fun p => (fst p =? a)%Z && (snd p =? b)%Z)
            (combine y_true y_pred)).

Definition ratio (a b : nat) (default : float) : float :=
  if Nat.eqb b 0 then default
  else (Py.float_of_nat a / Py.float_of_nat b)%float.

(** F1: twice the true positives over twice the true positives plus the
    errors; zero when nothing is positive. *)
Definition f1 (y_true y_pred : list Z) : float :=
  let tp := count 1 1 y_true y_pred in
  ratio (2 * tp)
    (2 * tp + count 0 1 y_true y_pred + count 1 0 y_true y_pred) 0.

(** The distinct values of a sorted array. *)
Fixpoint distinct (l : list float) : list float :=
  match l with
  | [] => []
  | x :: t =>
      match t with
      | y :: _ => if (x =? y)%float then distinct t else x :: distinct t
      | [] => [x]
      end
  end.

(** Precision and recall at each distinct score, then the final point
    (1, 0), which has no threshold.  As in scikit-learn, the recall is one at
    every threshold when no label is positive. *)
Definition curve (y_true : list Z) (probs : list float)
  : list float * list float * list float :=
  let ths := distinct (Np.sort probs) in
  let pred t := map (fun p => if (t <=? p)%float then 1%Z else 0%Z) probs in
  let tp t := count 1 1 y_true (pred t) in
  (map (fun t => ratio (tp t) (tp t + count 0 1 y_true (pred t)) 0) ths
     ++ [1%float],
   map (fun t => ratio (tp t) (tp t + count 1 0 y_true (pred t)) 1) ths
     ++ [0%float],
   ths).

#[export] Instance metrics : Metrics := {|
  fbeta_score := fun y_true y_pred _ =>
    if Nat.eqb (length y_true) (length y_pred) then Ok (f1 y_true y_pred)
    else Err ValueError;
  precision_recall_curve := fun y_true probs =>
    if Nat.eqb (length y_true) (length probs) then Ok (curve y_true probs)
    else Err ValueError
|}.

(** A formatter that prints the hundredths of a number. *)
#[export] Instance formatter : Formatter := {|
  format_2f := fun x =>
    match Py.round (x * 100)%float with
    | Ok c => (str (c / 100) ++ "."
               ++ (if (c mod 100 <? 10)%Z then "0" else "")
               ++ str (c mod 100))%string
    | Err _ => "nan"
    end
|}.

(** A detector that accepts every input and flags no row. *)
Definition lenient : OutlierDetector := {|
  fit_predict := fun _ _ X => Ok (repeat 1%Z (nrows X))
|}.

End Replay.

(** * Properties *)

(** ** Computations *)

Lemma bind_ok {S A B} (c : M S A) (k : A -> M S B) s a s' :
  c s = Ok (a, s') -> bind c k s = k a s'.
Proof. intros H. unfold bind. rewrite H. reflexivity. Qed.

Lemma bind_err {S A B} (c : M S A) (k : A -> M S B) s e :
  c s = Err e -> bind c k s = Err e.
Proof. intros H. unfold bind. rewrite H. reflexivity. Qed.

Lemma lift_ok {S A} (r : result A) (a : A) (s : S) :
  r = Ok a -> lift r s = Ok (a, s).
Proof. intros ->. reflexivity. Qed.

Lemma lift_err {S A} (r : result A) e (s : S) :
  r = Err e -> lift r s = @Err (A * S) e.
Proof. intros ->. reflexivity. Qed.

Lemma bind_inv {S A B} (c : M S A) (k : A -> M S B) s b s2 :
  bind c k s = Ok (b, s2) ->
  exists a s1, c s = Ok (a, s1) /\ k a s1 = Ok (b, s2).
Proof.
  unfold bind. destruct (c s) as [[a s1]|e]; [|discriminate].
  intros H. exists a, s1. split; [reflexivity | exact H].
Qed.

(** Rewrite the head computation of a sequence with a known outcome. *)
Ltac step_with H :=
  first [ erewrite (bind_ok _ _ _ _ _ H) | rewrite H ]; cbv beta.
Ltac step_lift H :=
  erewrite (bind_ok _ _ _ _ _ (lift_ok _ _ _ H)); cbv beta.


(** ** Lists *)

Lemma list_set_length {A} (l : list A) i x : length (list_set l i x) = length l.
Proof.
  revert i. induction l as [|h t IH]; intros [|j]; cbn; auto.
Qed.

Lemma nth_error_list_set {A} (l : list A) i j x :
  nth_error (list_set l i x) j =
  if Nat.eqb i j then (if Nat.ltb i (length l) then Some x else None)
  else nth_error l j.
Proof.
  revert i j. induction l as [|h t IH]; intros i j.
  - cbn. destruct (Nat.eqb i j), i, j; reflexivity.
  - destruct i as [|i], j as [|j]; cbn [list_set nth_error Nat.eqb]; try reflexivity.
    rewrite IH. cbn [length].
    reflexivity.
Qed.

Lemma map2_length {A B C} (f : A -> B -> C) l1 l2 :
  length (map2 f l1 l2) = Nat.min (length l1) (length l2).
Proof.
  revert l2. induction l1 as [|a t IH]; intros [|b t2]; cbn; auto.
Qed.

Lemma nth_error_map2 {A B C} (f : A -> B -> C) l1 l2 i a b :
  nth_error l1 i = Some a -> nth_error l2 i = Some b ->
  nth_error (map2 f l1 l2) i = Some (f a b).
Proof.
  revert l2 i. induction l1 as [|x t IH]; intros [|y t2] [|i]; cbn;
    try discriminate.
  - intros [= ->] [= ->]. reflexivity.
  - apply IH.
Qed.

Lemma nth_error_some {A} (l : list A) i :
  i < length l -> exists x, nth_error l i = Some x.
Proof.
  intros H. destruct (nth_error l i) as [x|] eqn:E; [eauto|].
  apply nth_error_None in E. lia.
Qed.

Lemma positions_bound {A} (p : A -> bool) start l :
  Forall (fun i => start <= i < start + length l) (positions p start l).
Proof.
  revert start. induction l as [|x t IH]; intros start; cbn; [constructor|].
  assert (Hrest : Forall (fun i => start <= i < start + S (length t))
                    (positions p (S start) t)).
  { eapply Forall_impl; [|apply IH]. cbn. intros; lia. }
  destruct (p x); [constructor; [lia|]|]; exact Hrest.
Qed.

Lemma positions_app {A} (p : A -> bool) start l1 l2 :
  positions p start (l1 ++ l2) =
  positions p start l1 ++ positions p (start + length l1) l2.
Proof.
  revert start. induction l1 as [|x t IH]; intros start; cbn.
  - rewrite Nat.add_0_r. reflexivity.
  - rewrite IH, <- plus_n_Sm. destruct (p x); reflexivity.
Qed.

Lemma positions_all {A} (p : A -> bool) start l :
  forallb p l = true -> positions p start l = seq start (length l).
Proof.
  revert start. induction l as [|x t IH]; intros start; cbn; [reflexivity|].
  intros H. apply andb_prop in H as [Hx Ht]. rewrite Hx, IH by exact Ht.
  reflexivity.
Qed.

Lemma positions_none {A} (p : A -> bool) start l :
  forallb (fun x => negb (p x)) l = true -> positions p start l = [].
Proof.
  revert start. induction l as [|x t IH]; intros start; cbn; [reflexivity|].
  intros H. apply andb_prop in H as [Hx Ht].
  apply negb_true_iff in Hx. rewrite Hx. apply IH, Ht.
Qed.

Lemma forallb_repeat {A} (p : A -> bool) x k :
  p x = true -> forallb p (repeat x k) = true.
Proof. intros H. induction k; cbn; [reflexivity|]. rewrite H. exact IHk. Qed.

Lemma In_firstn {A} (x : A) n l : In x (firstn n l) -> In x l.
Proof.
  intros H. rewrite <- (firstn_skipn n l). apply in_or_app. left. exact H.
Qed.

(** The rows labelled 1 in a column of zeros followed by ones. *)
Lemma positions_labels m k :
  positions (fun b : bool => b) 0
    (map (fun x => (x =? 1)%Z) (repeat 0%Z m ++ repeat 1%Z k)) = seq m k.
Proof.
  rewrite map_app, positions_app, !map_repeat. cbn [Z.eqb].
  rewrite positions_none by (apply forallb_repeat; reflexivity).
  rewrite positions_all by (apply forallb_repeat; reflexivity).
  rewrite !repeat_length. reflexivity.
Qed.

(** ** Binary64 facts

    Three facts about binary64 arithmetic that the generator depends on,
    derived from the specification of the primitive floats: an integer below
    [2^53] survives the conversion to a float and back, multiplying by [1.0]
    changes nothing, and [int(k * 0.6)] lies between 0 and [k]. *)

Lemma digits2_bounds p :
  (2 ^ (Z.pos (digits2_pos p) - 1) <= Z.pos p < 2 ^ Z.pos (digits2_pos p))%Z.
Proof.
  induction p as [p IH|p IH|]; cbn [digits2_pos].
  - rewrite Pos2Z.inj_succ.
    replace (Z.succ (Z.pos (digits2_pos p)) - 1)%Z with (Z.succ (Z.pos (digits2_pos p) - 1))%Z by lia.
    rewrite !Z.pow_succ_r by lia. lia.
  - rewrite Pos2Z.inj_succ.
    replace (Z.succ (Z.pos (digits2_pos p)) - 1)%Z with (Z.succ (Z.pos (digits2_pos p) - 1))%Z by lia.
    rewrite !Z.pow_succ_r by lia. lia.
  - cbn. lia.
Qed.

Lemma digits2_unique p d :
  (2 ^ (d - 1) <= Z.pos p < 2 ^ d)%Z -> (1 <= d)%Z -> Z.pos (digits2_pos p) = d.
Proof.
  intros [Hlo Hhi] Hd.
  destruct (digits2_bounds p) as [Hlo' Hhi'].
  set (d' := Z.pos (digits2_pos p)) in *.
  assert (Hd' : (1 <= d')%Z) by (unfold d'; lia).
  destruct (Z.lt_trichotomy d' d) as [H|[H|H]]; [|exact H|].
  - exfalso. assert (2 ^ d' <= 2 ^ (d - 1))%Z by (apply Z.pow_le_mono_r; lia). lia.
  - exfalso. assert (2 ^ d <= 2 ^ (d' - 1))%Z by (apply Z.pow_le_mono_r; lia). lia.
Qed.

Lemma iter_xO p k : Z.pos (Pos.iter xO p k) = (Z.pos p * 2 ^ Z.pos k)%Z.
Proof.
  revert p. induction k using Pos.peano_ind; intros p.
  - cbn. lia.
  - rewrite Pos.iter_succ, Pos2Z.inj_succ, Z.pow_succ_r by lia.
    rewrite Pos2Z.inj_xO, IHk. lia.
Qed.

Lemma round_aux_canonical s m e :
  canonical_mantissa prec emax m e = true -> (e <= emax - prec)%Z ->
  binary_round_aux prec emax s (Z.pos m) e loc_Exact = S754_finite s m e.
Proof.
  intros Hc He. unfold canonical_mantissa in Hc. apply Z.eqb_eq in Hc.
  unfold binary_round_aux, shr_fexp. cbn [Zdigits2 shr_record_of_loc].
  rewrite Hc, Z.sub_diag. cbn [shr shr_m loc_of_shr_record round_nearest_even Zdigits2].
  rewrite Hc, Z.sub_diag. cbn [shr shr_m].
  destruct (Z.leb_spec e (emax - prec)); [reflexivity | lia].
Qed.

(** [float(z)] is exact for [0 < z < 2^53]: its mantissa is [z] shifted to
    53 bits. *)
Lemma float_of_Z_exact z :
  (0 < z < 2 ^ 53)%Z ->
  exists m e,
    Prim2SF (Py.float_of_Z z) = S754_finite false m e
    /\ (-52 <= e <= 0)%Z /\ (Z.pos m = z * 2 ^ (- e))%Z
    /\ (2 ^ 52 <= Z.pos m < 2 ^ 53)%Z.
Proof.
  intros [Hpos Hlt]. destruct z as [|p|p]; try lia.
  unfold Py.float_of_Z.
  pose proof (digits2_bounds p) as [Hlo Hhi].
  set (d := Z.pos (digits2_pos p)) in *.
  assert (Hd1 : (1 <= d)%Z) by (unfold d; lia).
  assert (Hd53 : (d <= 53)%Z).
  { destruct (Z.le_gt_cases d 53) as [H|H]; [exact H|exfalso].
    assert (2 ^ 53 <= 2 ^ (d - 1))%Z by (apply Z.pow_le_mono_r; lia). lia. }
  assert (Hnorm : exists m, binary_normalize prec emax (Z.pos p) 0 false
                            = S754_finite false m (d - 53)
                            /\ Z.pos m = (Z.pos p * 2 ^ (53 - d))%Z
                            /\ Z.pos (digits2_pos m) = 53%Z).
  { unfold binary_normalize, binary_round, shl_align.
    fold d. 
    assert (Hf : fexp prec emax (d + 0) = (d - 53)%Z).
    { unfold fexp, emin, prec, emax. lia. }
    rewrite Hf. rewrite Z.sub_0_r.
    destruct (d - 53)%Z as [|q|q] eqn:Eq; try lia.
    - exists p. assert (d = 53%Z) by lia.
      split.
      + apply round_aux_canonical.
        * unfold canonical_mantissa. fold d. apply Z.eqb_eq.
          unfold fexp, emin, prec, emax. lia.
        * unfold emax, prec. lia.
      + split; [replace (53 - d)%Z with 0%Z by lia; lia | exact H].
    - assert (Hq : Z.pos q = (53 - d)%Z) by lia.
      assert (Hm : Z.pos (Pos.iter xO p q) = (Z.pos p * 2 ^ (53 - d))%Z).
      { rewrite iter_xO, Hq. reflexivity. }
      assert (Hdig : Z.pos (digits2_pos (Pos.iter xO p q)) = 53%Z).
      { apply digits2_unique; [|lia]. rewrite Hm.
        replace (2 ^ (53 - 1))%Z with (2 ^ (d - 1) * 2 ^ (53 - d))%Z
          by (rewrite <- Z.pow_add_r by lia; f_equal; lia).
        replace (2 ^ 53)%Z with (2 ^ d * 2 ^ (53 - d))%Z
          by (rewrite <- Z.pow_add_r by lia; f_equal; lia).
        assert (0 < 2 ^ (53 - d))%Z by (apply Z.pow_pos_nonneg; lia).
        split; [apply Z.mul_le_mono_nonneg_r; lia | apply Z.mul_lt_mono_pos_r; lia]. }
      exists (Pos.iter xO p q). split; [|split; assumption].
      apply round_aux_canonical.
      + unfold canonical_mantissa. rewrite Hdig. apply Z.eqb_eq.
        unfold fexp, emin, prec, emax. lia.
      + unfold emax, prec. lia. }
  destruct Hnorm as (m & Hn & Hm & Hdig).
  exists m, (d - 53)%Z.
  split.
  - rewrite Prim2SF_SF2Prim; [exact Hn|].
    rewrite Hn. unfold valid_binary, bounded, canonical_mantissa.
    rewrite Hdig. apply andb_true_intro. split.
    + apply Z.eqb_eq. unfold fexp, emin, prec, emax. lia.
    + apply Z.leb_le. unfold emax, prec. lia.
  - split; [lia|]. split.
    + rewrite Hm. f_equal. f_equal. lia.
    + destruct (digits2_bounds m) as [Hl Hh]. rewrite Hdig in Hl, Hh.
      change (53 - 1)%Z with 52%Z in Hl. split; assumption.
Qed.

Lemma int_float_of_Z z : (0 < z < 2 ^ 53)%Z -> Py.int (Py.float_of_Z z) = Ok z.
Proof.
  intros Hz. destruct (float_of_Z_exact z Hz) as (m & e & Hsf & He & Hm & _).
  unfold Py.int. rewrite Hsf. f_equal.
  destruct (Z.leb_spec 0 e).
  - assert (e = 0%Z) by lia. subst e. cbn in Hm. cbn. lia.
  - rewrite Hm. apply Z.div_mul.
    assert (0 < 2 ^ (- e))%Z by (apply Z.pow_pos_nonneg; lia). lia.
Qed.

(** Multiplication by 1.0 is exact. *)
Lemma mul_one_finite s m e :
  bounded prec emax m e = true ->
  SFmul prec emax (S754_finite s m e) (S754_finite false 4503599627370496 (-52))
  = S754_finite s m e.
Proof.
  intros Hb. unfold bounded in Hb. apply andb_prop in Hb as [Hc He].
  unfold canonical_mantissa in Hc. apply Z.eqb_eq in Hc. apply Z.leb_le in He.
  unfold SFmul. rewrite xorb_false_r.
  rewrite Pos.mul_comm. cbn [Pos.mul].
  unfold binary_round_aux, shr_fexp. cbn [Zdigits2 digits2_pos shr_record_of_loc].
  rewrite !Pos2Z.inj_succ.
  set (d := Z.pos (digits2_pos m)) in *.
  match goal with
  | |- context [fexp prec emax ?x] =>
      replace x with (d + e)%Z by lia
  end.
  rewrite Hc.
  replace (e - (e + -52))%Z with 52%Z by lia.
  cbn [shr iter_pos shr_1 orb shr_m loc_of_shr_record round_nearest_even Zdigits2].
  fold d.
  replace (e + -52 + 52)%Z with e by lia.
  rewrite Hc, Z.sub_diag. cbn [shr shr_m].
  destruct (Z.leb_spec e (emax - prec)); [reflexivity | lia].
Qed.

Lemma mul_one x : (x * 1)%float = x.
Proof.
  apply Prim2SF_inj. rewrite mul_spec.
  change (Prim2SF 1) with (S754_finite false 4503599627370496 (-52)).
  pose proof (Prim2SF_valid x) as Hv.
  destruct (Prim2SF x) as [s|s| |s m e]; try (destruct s; reflexivity); try reflexivity.
  apply mul_one_finite. exact Hv.
Qed.

Lemma shr_1_m mrs :
  (0 <= shr_m mrs)%Z -> shr_m (shr_1 mrs) = (shr_m mrs / 2)%Z.
Proof.
  destruct mrs as [m r s]. cbn [shr_m]. intros Hm.
  destruct m as [|[p|p|]|p]; cbn [shr_1 shr_m]; try lia.
  - reflexivity.
  - apply Z.div_unique with 1%Z; lia.
  - apply Z.div_unique with 0%Z; lia.
  - reflexivity.
Qed.

Lemma iter_shr_m k : forall mrs,
  (0 <= shr_m mrs)%Z ->
  shr_m (iter_pos shr_1 k mrs) = (shr_m mrs / 2 ^ Z.pos k)%Z.
Proof.
  induction k as [k IH|k IH|]; intros mrs Hm; cbn [iter_pos].
  - assert (H1 : (0 <= shr_m (shr_1 mrs))%Z)
      by (rewrite shr_1_m by exact Hm; apply Z.div_pos; lia).
    assert (Hp : (0 < 2 ^ Z.pos k)%Z) by (apply Z.pow_pos_nonneg; lia).
    assert (H2 : (0 <= shr_m (iter_pos shr_1 k (shr_1 mrs)))%Z)
      by (rewrite IH by exact H1; apply Z.div_pos; lia).
    rewrite IH by exact H2. rewrite IH by exact H1. rewrite shr_1_m by exact Hm.
    rewrite !Z.div_div by lia.
    assert (E : (2 ^ Z.pos k~1 = 2 * 2 ^ Z.pos k * 2 ^ Z.pos k)%Z).
    { replace (Z.pos k~1) with (1 + Z.pos k + Z.pos k)%Z by lia.
      rewrite !Z.pow_add_r by lia. reflexivity. }
    rewrite E. f_equal. ring.
  - assert (Hp : (0 < 2 ^ Z.pos k)%Z) by (apply Z.pow_pos_nonneg; lia).
    assert (H2 : (0 <= shr_m (iter_pos shr_1 k mrs))%Z)
      by (rewrite IH by exact Hm; apply Z.div_pos; lia).
    rewrite IH by exact H2. rewrite IH by exact Hm.
    rewrite Z.div_div by lia.
    assert (E : (2 ^ Z.pos k~0 = 2 ^ Z.pos k * 2 ^ Z.pos k)%Z).
    { replace (Z.pos k~0) with (Z.pos k + Z.pos k)%Z by lia.
      rewrite Z.pow_add_r by lia. reflexivity. }
    rewrite E. reflexivity.
  - rewrite shr_1_m by exact Hm. reflexivity.
Qed.

Lemma round_bounds m l :
  (m <= round_nearest_even m l <= m + 1)%Z.
Proof.
  destruct l as [|[| |]]; cbn; try lia. destruct (Z.even m); lia.
Qed.

(** Rounding a long positive mantissa: the result is finite and at most one
    unit in the last place above the exact value. *)
Lemma round_aux_upper (P : positive) (e : Z) :
  let dP := Z.pos (digits2_pos P) in
  (54 <= dP)%Z -> (-1000 <= e)%Z -> (dP + e <= 900)%Z ->
  exists M E,
    binary_round_aux prec emax false (Z.pos P) e loc_Exact = S754_finite false M E
    /\ (e <= E)%Z
    /\ (Z.pos M * 2 ^ (E - e) <= Z.pos P + 2 ^ (dP - 53))%Z.
Proof.
  intros dP HdP He Hhi.
  destruct (digits2_bounds P) as [Plo Phi]. fold dP in Plo, Phi.
  unfold binary_round_aux, shr_fexp. cbn [Zdigits2 shr_record_of_loc]. fold dP.
  assert (Hf1 : (fexp prec emax (dP + e) - e = dP - 53)%Z)
    by (unfold fexp, emin, prec, emax; lia).
  rewrite Hf1.
  destruct (dP - 53)%Z as [|n1|n1] eqn:En1; try lia.
  cbn [shr].
  set (mrs1 := iter_pos shr_1 n1 {| shr_m := Z.pos P; shr_r := false; shr_s := false |}).
  assert (HM1 : shr_m mrs1 = (Z.pos P / 2 ^ Z.pos n1)%Z)
    by (unfold mrs1; rewrite iter_shr_m by (cbn; lia); reflexivity).
  assert (Hpow : (0 < 2 ^ Z.pos n1)%Z) by (apply Z.pow_pos_nonneg; lia).
  assert (Hsplit : (2 ^ dP = 2 ^ 53 * 2 ^ Z.pos n1)%Z).
  { rewrite <- Z.pow_add_r by lia. f_equal. lia. }
  assert (Hsplit' : (2 ^ (dP - 1) = 2 ^ 52 * 2 ^ Z.pos n1)%Z).
  { rewrite <- Z.pow_add_r by lia. f_equal. lia. }
  assert (M1lo : (2 ^ 52 <= shr_m mrs1)%Z).
  { rewrite HM1. apply Z.div_le_lower_bound; lia. }
  assert (M1hi : (shr_m mrs1 < 2 ^ 53)%Z).
  { rewrite HM1. apply Z.div_lt_upper_bound; lia. }
  assert (M1mul : (shr_m mrs1 * 2 ^ Z.pos n1 <= Z.pos P)%Z).
  { rewrite HM1. rewrite Z.mul_comm. apply Z.mul_div_le. lia. }
  pose proof (round_bounds (shr_m mrs1) (loc_of_shr_record mrs1)) as HM2.
  set (M2 := round_nearest_even (shr_m mrs1) (loc_of_shr_record mrs1)) in *.
  change (2 ^ 52)%Z with 4503599627370496%Z in *.
  change (2 ^ 53)%Z with 9007199254740992%Z in *.
  destruct M2 as [|q|q] eqn:EM2; try lia.
  cbn [Zdigits2].
  destruct (digits2_bounds q) as [qlo qhi].
  set (d2 := Z.pos (digits2_pos q)) in *.
  assert (Hd2 : (d2 = 53 \/ d2 = 54)%Z).
  { assert (52 < d2)%Z.
    { destruct (Z.le_gt_cases d2 52) as [H|H]; [|lia]. exfalso.
      assert (2 ^ d2 <= 2 ^ 52)%Z by (apply Z.pow_le_mono_r; lia).
      change (2 ^ 52)%Z with 4503599627370496%Z in *. lia. }
    assert (d2 - 1 <= 53)%Z.
    { destruct (Z.le_gt_cases (d2 - 1) 53) as [H'|H']; [lia|]. exfalso.
      assert (2 ^ 54 <= 2 ^ (d2 - 1))%Z by (apply Z.pow_le_mono_r; lia).
      change (2 ^ 54)%Z with 18014398509481984%Z in *. lia. }
    lia. }
  assert (Hf2 : (fexp prec emax (d2 + (e + Z.pos n1)) - (e + Z.pos n1) = d2 - 53)%Z)
    by (unfold fexp, emin, prec, emax; lia).
  rewrite Hf2.
  destruct Hd2 as [Hd2|Hd2]; rewrite Hd2.
  - change (53 - 53)%Z with 0%Z. cbn [shr shr_m].
    destruct (Z.leb_spec (e + Z.pos n1) (emax - prec)) as [_|Hbad];
      [|unfold emax, prec in Hbad; lia].
    exists q, (e + Z.pos n1)%Z. split; [reflexivity|]. split; [lia|].
    replace (e + Z.pos n1 - e)%Z with (Z.pos n1) by lia.
    nia.
  - change (54 - 53)%Z with 1%Z. cbn [shr iter_pos].
    assert (Hq : shr_m (shr_1 {| shr_m := Z.pos q; shr_r := false; shr_s := false |})
                 = (Z.pos q / 2)%Z) by (apply shr_1_m; cbn; lia).
    assert (Hq2 : (2 * (Z.pos q / 2) <= Z.pos q)%Z) by (apply Z.mul_div_le; lia).
    assert (Hq3 : (2251799813685248 <= Z.pos q / 2)%Z)
      by (apply Z.div_le_lower_bound; lia).
    destruct (shr_m (shr_1 {| shr_m := Z.pos q; shr_r := false; shr_s := false |}))
      as [|q3|q3] eqn:Eq3; try lia.
    destruct (Z.leb_spec (e + Z.pos n1 + 1) (emax - prec)) as [_|Hbad];
      [|unfold emax, prec in Hbad; lia].
    exists q3, (e + Z.pos n1 + 1)%Z. split; [reflexivity|]. split; [lia|].
    replace (e + Z.pos n1 + 1 - e)%Z with (1 + Z.pos n1)%Z by lia.
    rewrite Z.pow_add_r by lia. change (2 ^ 1)%Z with 2%Z.
    nia.
Qed.

(** [int(float(k) * 0.6)] is defined and lies between 0 and [k]. *)
Lemma mul_06_bound k :
  (0 <= k < 2 ^ 53)%Z ->
  exists size, Py.int (Py.float_of_Z k * 0.6)%float = Ok size /\ (0 <= size <= k)%Z.
Proof.
  intros [Hk0 Hk].
  destruct (Z.eq_dec k 0) as [->|Hne].
  { exists 0%Z. split; [reflexivity | lia]. }
  destruct (float_of_Z_exact k) as (m & e & Hsf & He & Hm & Hmb); [lia|].
  unfold Py.int. rewrite mul_spec, Hsf.
  change (Prim2SF 0.6) with (S754_finite false 5404319552844595 (-53)).
  unfold SF64mul, SFmul. cbn [xorb].
  change (2 ^ 52)%Z with 4503599627370496%Z in Hmb.
  change (2 ^ 53)%Z with 9007199254740992%Z in Hmb.
  set (P := (m * 5404319552844595)%positive).
  assert (HP : Z.pos P = (Z.pos m * 5404319552844595)%Z) by reflexivity.
  destruct (digits2_bounds P) as [Plo Phi].
  set (dP := Z.pos (digits2_pos P)) in *.
  assert (HdPlo : (105 <= dP)%Z).
  { destruct (Z.le_gt_cases 105 dP) as [H|H]; [exact H|exfalso].
    assert (2 ^ dP <= 2 ^ 104)%Z by (apply Z.pow_le_mono_r; lia).
    change (2 ^ 104)%Z with 20282409603651670423947251286016%Z in *. nia. }
  assert (HdPhi : (dP <= 106)%Z).
  { destruct (Z.le_gt_cases dP 106) as [H|H]; [exact H|exfalso].
    assert (2 ^ 106 <= 2 ^ (dP - 1))%Z by (apply Z.pow_le_mono_r; lia).
    change (2 ^ 106)%Z with 81129638414606681695789005144064%Z in *. nia. }
  destruct (round_aux_upper P (e + -53)) as (M & E & Hr & HE & Hbound);
    fold dP; try lia.
  fold dP in Hbound. rewrite Hr.
  assert (Hulp : (2 ^ (dP - 53) <= 2 ^ 53)%Z) by (apply Z.pow_le_mono_r; lia).
  change (2 ^ 53)%Z with 9007199254740992%Z in Hulp.
  set (t := (E - (e + -53))%Z) in *.
  assert (Ht : (0 <= t)%Z) by (unfold t; lia).
  assert (Hpt : (0 < 2 ^ t)%Z) by (apply Z.pow_pos_nonneg; lia).
  assert (Hpe : (0 < 2 ^ (- e))%Z) by (apply Z.pow_pos_nonneg; lia).
  assert (Hmain : (Z.pos M * 2 ^ t <= k * 2 ^ (- e) * 9007199254740992)%Z).
  { rewrite <- Hm. nia. }
  assert (Hsplit : (2 ^ (- e) * 9007199254740992 = 2 ^ (53 - e))%Z).
  { replace (53 - e)%Z with (- e + 53)%Z by lia.
    rewrite Z.pow_add_r by lia. reflexivity. }
  assert (Hp2 : (0 < 2 ^ (53 - e))%Z) by (apply Z.pow_pos_nonneg; lia).
  assert (Hmain' : (Z.pos M * 2 ^ t <= k * 2 ^ (53 - e))%Z).
  { rewrite <- Hsplit. lia. }
  destruct (Z.leb_spec 0 E) as [HE0|HE0].
  - exists (Z.pos M * 2 ^ E)%Z. split; [reflexivity|].
    assert (HpE : (0 < 2 ^ E)%Z) by (apply Z.pow_pos_nonneg; lia).
    split; [nia|].
    assert (Ht2 : (2 ^ t = 2 ^ E * 2 ^ (53 - e))%Z).
    { rewrite <- Z.pow_add_r by lia. f_equal. unfold t. lia. }
    rewrite Ht2, Z.mul_assoc in Hmain'.
    apply Z.mul_le_mono_pos_r in Hmain'; assumption.
  - exists (Z.pos M / 2 ^ (- E))%Z. split; [reflexivity|].
    assert (HpE : (0 < 2 ^ (- E))%Z) by (apply Z.pow_pos_nonneg; lia).
    split; [apply Z.div_pos; lia|].
    apply Z.div_le_upper_bound; [exact HpE|].
    assert (Ht2 : (2 ^ (53 - e) = 2 ^ (- E) * 2 ^ t)%Z).
    { rewrite <- Z.pow_add_r by lia. f_equal. unfold t. lia. }
    rewrite Ht2 in Hmain'.
    replace (k * (2 ^ (- E) * 2 ^ t))%Z with (2 ^ (- E) * k * 2 ^ t)%Z in Hmain'
      by ring.
    apply Z.mul_le_mono_pos_r in Hmain'; assumption.
Qed.

Lemma float_of_int_small z :
  (0 <= z < 2 ^ 53)%Z -> Py.float_of_int z = Ok (Py.float_of_Z z).
Proof.
  intros Hz. destruct (Z.eq_dec z 0) as [->|Hne]; [reflexivity|].
  destruct (float_of_Z_exact z) as (m & e & Hsf & _); [lia|].
  unfold Py.float_of_int. rewrite Hsf. reflexivity.
Qed.

(** At the ratio 1.0 the number of cheaters is the number of records. *)
Lemma int_mul_one z :
  (0 <= z < 2 ^ 53)%Z -> Py.int (Py.float_of_Z z * 1.0)%float = Ok z.
Proof.
  intros Hz. rewrite mul_one.
  destruct (Z.eq_dec z 0) as [->|Hne]; [reflexivity|].
  apply int_float_of_Z. lia.
Qed.

(** At the ratio 0.0 there is no cheater. *)
Lemma int_mul_zero z :
  (0 <= z < 2 ^ 53)%Z -> Py.int (Py.float_of_Z z * 0)%float = Ok 0%Z.
Proof.
  intros Hz. destruct (Z.eq_dec z 0) as [->|Hne]; [reflexivity|].
  destruct (float_of_Z_exact z) as (m & e & Hsf & _); [lia|].
  unfold Py.int. rewrite mul_spec, Hsf. reflexivity.
Qed.

(** The number of sudden improvers is always valid. *)
Lemma sample_size_ok kz :
  (0 <= kz < 2 ^ 53)%Z ->
  exists size,
    Py.int (Py.float_of_nat (Z.to_nat kz) * 0.6)%float = Ok size
    /\ (0 <= size <= kz)%Z.
Proof.
  intros Hk. unfold Py.float_of_nat. rewrite Z2Nat.id by lia.
  apply mul_06_bound, Hk.
Qed.

(** ** Sums *)

(** The nesting bound of the pairwise sum is never reached: any bound that
    is at least the length of the array gives the same sum. *)
Lemma pairwise_sum_depth : forall d1 d2 a,
  length a <= d1 -> length a <= d2 ->
  Np.pairwise_sum_rec d1 a = Np.pairwise_sum_rec d2 a.
Proof.
  induction d1 as [|d1 IH]; intros d2 a H1 H2.
  - destruct a; [|cbn in H1; lia]. destruct d2; reflexivity.
  - destruct a as [|a0 [|a1 [|a2 [|a3 [|a4 [|a5 [|a6 [|a7 rest]]]]]]]];
      try (destruct d2; reflexivity).
    destruct d2 as [|d2]; [cbn in H2; lia|].
    cbn [Np.pairwise_sum_rec].
    set (a := a0 :: a1 :: a2 :: a3 :: a4 :: a5 :: a6 :: a7 :: rest) in *.
    destruct (Nat.leb (length a) 128) eqn:E; [reflexivity|].
    apply Nat.leb_gt in E.
    set (n2 := Nat.div (length a) 2 - Nat.modulo (Nat.div (length a) 2) 8).
    assert (Hn2 : 1 <= n2 < length a).
    { unfold n2.
      pose proof (Nat.mod_upper_bound (Nat.div (length a) 2) 8 ltac:(lia)).
      pose proof (Nat.Div0.div_lt_upper_bound (length a) 2 (length a)
                    ltac:(lia)).
      assert (64 <= Nat.div (length a) 2)
        by (apply Nat.div_le_lower_bound; lia).
      lia. }
    f_equal; apply IH; rewrite ?length_firstn, ?length_skipn; lia.
Qed.

(** ** The order of binary64 numbers *)

Lemma SFcompare_key a b :
  SFcompare a b
  = if sf_is_nan a || sf_is_nan b then None
    else Some (key_compare (sf_key a) (sf_key b)).
Proof.
  destruct a as [sa|sa| |sa ma ea], b as [sb|sb| |sb mb eb];
    try reflexivity; try (destruct sa); try (destruct sb); try reflexivity.
  unfold SFcompare, sf_key, key_compare, sf_is_nan, orb.
    change (-1 ?= -1)%Z with Eq. cbv iota.
    change (Pos.compare_cont Eq ma mb) with (Pos.compare ma mb).
    rewrite (Z.compare_opp ea eb), (Z.compare_opp (Z.pos ma) (Z.pos mb)).
    cbn [Z.compare]. rewrite (Pos.compare_antisym ma mb).
    destruct (Z.compare_spec eb ea) as [He|He|He];
      destruct (Z.compare_spec ea eb); try lia; try reflexivity.
Qed.

Lemma key_compare_lt k1 k2 :
  key_compare k1 k2 = Lt <->
  let '(a1, b1, c1) := k1 in
  let '(a2, b2, c2) := k2 in
  (a1 < a2 \/ (a1 = a2 /\ (b1 < b2 \/ (b1 = b2 /\ c1 < c2))))%Z.
Proof.
  destruct k1 as [[a1 b1] c1], k2 as [[a2 b2] c2]. unfold key_compare.
  destruct (Z.compare_spec a1 a2); [|split; [lia|reflexivity]|split; [discriminate|lia]].
  destruct (Z.compare_spec b1 b2); [|split; [lia|reflexivity]|split; [discriminate|lia]].
  rewrite Z.compare_lt_iff. lia.
Qed.

Lemma key_compare_eq k1 k2 : key_compare k1 k2 = Eq <-> k1 = k2.
Proof.
  destruct k1 as [[a1 b1] c1], k2 as [[a2 b2] c2]. unfold key_compare.
  destruct (Z.compare_spec a1 a2);
    [|split; [discriminate|intros [= -> -> ->]; lia]..].
  destruct (Z.compare_spec b1 b2);
    [|split; [discriminate|intros [= _ -> ->]; lia]..].
  rewrite Z.compare_eq_iff. split; [intros ->|intros [= _ _ ->]]; congruence.
Qed.

Lemma key_compare_gt k1 k2 : key_compare k1 k2 = Gt <-> key_compare k2 k1 = Lt.
Proof.
  rewrite key_compare_lt.
  destruct k1 as [[a1 b1] c1], k2 as [[a2 b2] c2]. unfold key_compare.
  destruct (Z.compare_spec a1 a2); [|split; [discriminate|lia]|split; [lia|reflexivity]].
  destruct (Z.compare_spec b1 b2); [|split; [discriminate|lia]|split; [lia|reflexivity]].
  rewrite Z.compare_gt_iff. lia.
Qed.

Lemma is_nan_key x : PrimFloat.is_nan x = sf_is_nan (Prim2SF x).
Proof.
  unfold PrimFloat.is_nan. rewrite eqb_spec. unfold SFeqb.
  rewrite SFcompare_key, orb_diag.
  destruct (sf_is_nan (Prim2SF x)); [reflexivity|].
  replace (key_compare _ _) with Eq; [reflexivity|].
  symmetry. apply key_compare_eq. reflexivity.
Qed.

Lemma ltb_key x y :
  (x <? y)%float = true <->
  PrimFloat.is_nan x = false /\ PrimFloat.is_nan y = false
  /\ key_compare (sf_key (Prim2SF x)) (sf_key (Prim2SF y)) = Lt.
Proof.
  rewrite ltb_spec, !is_nan_key. unfold SFltb. rewrite SFcompare_key.
  destruct (sf_is_nan (Prim2SF x)), (sf_is_nan (Prim2SF y)); cbn [orb];
    try (split; [discriminate | intros (? & ? & ?); discriminate]).
  destruct (key_compare _ _); split; try discriminate; auto;
    intros (_ & _ & ?); discriminate.
Qed.

Lemma leb_key x y :
  (x <=? y)%float = true <->
  PrimFloat.is_nan x = false /\ PrimFloat.is_nan y = false
  /\ key_compare (sf_key (Prim2SF x)) (sf_key (Prim2SF y)) <> Gt.
Proof.
  rewrite leb_spec, !is_nan_key. unfold SFleb. rewrite SFcompare_key.
  destruct (sf_is_nan (Prim2SF x)), (sf_is_nan (Prim2SF y)); cbn [orb];
    try (split; [discriminate | intros (? & ? & ?); discriminate]).
  destruct (key_compare _ _); split; try discriminate; auto;
    first [ intros (_ & _ & ?); congruence
          | intros _; repeat split; congruence ].
Qed.

(** [<] is irreflexive and transitive, also across [<=]; two numbers, none of
    them NaN, are always comparable. *)
Lemma ltb_irrefl x : (x <? x)%float = false.
Proof.
  destruct (x <? x)%float eqn:E; [|reflexivity].
  apply ltb_key in E as (_ & _ & E).
  assert (H : key_compare (sf_key (Prim2SF x)) (sf_key (Prim2SF x)) = Eq)
    by (apply key_compare_eq; reflexivity).
  congruence.
Qed.


Lemma ltb_trans x y z :
  (x <? y)%float = true -> (y <? z)%float = true -> (x <? z)%float = true.
Proof.
  rewrite !ltb_key. intros (Hx & Hy & H1) (_ & Hz & H2).
  repeat (split; [assumption|]). revert H1 H2.
  generalize (sf_key (Prim2SF x)) (sf_key (Prim2SF y)) (sf_key (Prim2SF z)).
  intros [[? ?] ?] [[? ?] ?] [[? ?] ?]. rewrite !key_compare_lt. lia.
Qed.

Lemma ltb_leb_trans x y z :
  (x <? y)%float = true -> (y <=? z)%float = true -> (x <? z)%float = true.
Proof.
  rewrite !ltb_key, leb_key. intros (Hx & Hy & H1) (_ & Hz & H2).
  repeat (split; [assumption|]). revert H1 H2.
  generalize (sf_key (Prim2SF x)) (sf_key (Prim2SF y)) (sf_key (Prim2SF z)).
  intros [[? ?] ?] [[? ?] ?] [[? ?] ?].
  rewrite key_compare_gt, !key_compare_lt. lia.
Qed.

Lemma leb_ltb_trans x y z :
  (x <=? y)%float = true -> (y <? z)%float = true -> (x <? z)%float = true.
Proof.
  rewrite !ltb_key, leb_key. intros (Hx & Hy & H1) (_ & Hz & H2).
  repeat (split; [assumption|]). revert H1 H2.
  generalize (sf_key (Prim2SF x)) (sf_key (Prim2SF y)) (sf_key (Prim2SF z)).
  intros [[? ?] ?] [[? ?] ?] [[? ?] ?].
  rewrite key_compare_gt, !key_compare_lt. lia.
Qed.

Lemma ltb_leb x y : (x <? y)%float = true -> (x <=? y)%float = true.
Proof.
  rewrite ltb_key, leb_key. intros (Hx & Hy & H). repeat (split; [assumption|]).
  congruence.
Qed.

Lemma leb_total x y :
  PrimFloat.is_nan x = false -> PrimFloat.is_nan y = false ->
  (x <? y)%float = false -> (y <=? x)%float = true.
Proof.
  intros Hx Hy H. apply leb_key. repeat (split; [assumption|]).
  intros Hgt. apply key_compare_gt in Hgt.
  assert (Hlt : (x <? y)%float = true) by (apply ltb_key; auto).
  congruence.
Qed.

Lemma ltb_not_nan x y :
  (x <? y)%float = true ->
  PrimFloat.is_nan x = false /\ PrimFloat.is_nan y = false.
Proof. rewrite ltb_key. tauto. Qed.

Lemma leb_not_nan x y :
  (x <=? y)%float = true ->
  PrimFloat.is_nan x = false /\ PrimFloat.is_nan y = false.
Proof. rewrite leb_key. tauto. Qed.

Lemma leb_ltb_false x y : (x <=? y)%float = true -> (y <? x)%float = false.
Proof.
  intros H. destruct (y <? x)%float eqn:E; [|reflexivity].
  pose proof (ltb_leb_trans _ _ _ E H) as H1. rewrite ltb_irrefl in H1.
  discriminate.
Qed.

(** The square root is never negative. *)
Lemma binary_round_aux_sign mx ex lx :
  SFltb (binary_round_aux prec emax false mx ex lx) (S754_zero false) = false.
Proof.
  unfold binary_round_aux.
  destruct (shr_fexp prec emax mx ex lx) as [mrs' e'].
  destruct (shr_fexp prec emax _ e' loc_Exact) as [mrs'' e''].
  destruct (shr_m mrs''); [reflexivity| |reflexivity].
  destruct (_ <=? _)%Z; reflexivity.
Qed.

Lemma sqrt_not_negative x : (PrimFloat.sqrt x <? 0)%float = false.
Proof.
  rewrite ltb_spec, sqrt_spec. change (Prim2SF 0) with (S754_zero false).
  unfold SF64sqrt, SFsqrt.
  destruct (Prim2SF x) as [s|s| |s m e]; try reflexivity.
  - destruct s; reflexivity.
  - destruct s; [reflexivity|].
    destruct (SFsqrt_core_binary prec emax (Z.pos m) e) as [[mz ez] lz].
    apply binary_round_aux_sign.
Qed.

(** A quotient by NaN is NaN. *)
Lemma div_nan x : (x / nan)%float = nan.
Proof.
  apply Prim2SF_inj. rewrite div_spec. change (Prim2SF nan) with S754_nan.
  unfold SF64div, SFdiv. destruct (Prim2SF x); reflexivity.
Qed.

(** ** The number of cheaters for a valid ratio *)

(** A shift that drops only zero bits loses nothing. *)
Lemma shr_1_exact mrs :
  (0 <= shr_m mrs)%Z -> shr_r mrs = false -> shr_s mrs = false ->
  (2 | shr_m mrs)%Z ->
  shr_r (shr_1 mrs) = false /\ shr_s (shr_1 mrs) = false.
Proof.
  destruct mrs as [m r s]. cbn [shr_m shr_r shr_s]. intros Hm -> -> [q Hq].
  destruct m as [|[p|p|]|p]; cbn; try lia; auto.
Qed.

Lemma iter_shr_exact k : forall mrs,
  (0 <= shr_m mrs)%Z -> shr_r mrs = false -> shr_s mrs = false ->
  (2 ^ Z.pos k | shr_m mrs)%Z ->
  shr_r (iter_pos shr_1 k mrs) = false /\ shr_s (iter_pos shr_1 k mrs) = false.
Proof.
  induction k as [k IH|k IH|]; intros mrs Hm Hr Hs [q Hq]; cbn [iter_pos].
  - assert (Hp : (0 < 2 ^ Z.pos k)%Z) by (apply Z.pow_pos_nonneg; lia).
    assert (E : (2 ^ Z.pos k~1 = 2 ^ Z.pos k * 2 ^ Z.pos k * 2)%Z).
    { replace (Z.pos k~1) with (Z.pos k + Z.pos k + 1)%Z by lia.
      rewrite !Z.pow_add_r by lia. reflexivity. }
    rewrite E in Hq.
    destruct (shr_1_exact mrs Hm Hr Hs) as [Hr1 Hs1].
    { exists (q * 2 ^ Z.pos k * 2 ^ Z.pos k)%Z. rewrite Hq. ring. }
    assert (Hm1 : shr_m (shr_1 mrs) = (q * 2 ^ Z.pos k * 2 ^ Z.pos k)%Z).
    { rewrite shr_1_m by exact Hm. rewrite Hq.
      replace (q * (2 ^ Z.pos k * 2 ^ Z.pos k * 2))%Z
        with (q * 2 ^ Z.pos k * 2 ^ Z.pos k * 2)%Z by ring.
      apply Z.div_mul. lia. }
    assert (Hq0 : (0 <= q)%Z) by nia.
    assert (H1 : (0 <= shr_m (shr_1 mrs))%Z) by (rewrite Hm1; nia).
    destruct (IH (shr_1 mrs) H1 Hr1 Hs1) as [Hr2 Hs2].
    { exists (q * 2 ^ Z.pos k)%Z. exact Hm1. }
    assert (Hm2 : shr_m (iter_pos shr_1 k (shr_1 mrs)) = (q * 2 ^ Z.pos k)%Z).
    { rewrite iter_shr_m by exact H1. rewrite Hm1. apply Z.div_mul. lia. }
    apply IH; [rewrite Hm2; nia | exact Hr2 | exact Hs2 |].
    exists q. exact Hm2.
  - assert (Hp : (0 < 2 ^ Z.pos k)%Z) by (apply Z.pow_pos_nonneg; lia).
    assert (E : (2 ^ Z.pos k~0 = 2 ^ Z.pos k * 2 ^ Z.pos k)%Z).
    { replace (Z.pos k~0) with (Z.pos k + Z.pos k)%Z by lia.
      rewrite Z.pow_add_r by lia. reflexivity. }
    rewrite E in Hq.
    assert (Hq0 : (0 <= q)%Z) by nia.
    destruct (IH mrs Hm Hr Hs) as [Hr2 Hs2].
    { exists (q * 2 ^ Z.pos k)%Z. rewrite Hq. ring. }
    assert (Hm2 : shr_m (iter_pos shr_1 k mrs) = (q * 2 ^ Z.pos k)%Z).
    { rewrite iter_shr_m by exact Hm. rewrite Hq.
      replace (q * (2 ^ Z.pos k * 2 ^ Z.pos k))%Z
        with (q * 2 ^ Z.pos k * 2 ^ Z.pos k)%Z by ring.
      apply Z.div_mul. lia. }
    apply IH; [rewrite Hm2; nia | exact Hr2 | exact Hs2 |].
    exists q. exact Hm2.
  - apply shr_1_exact; try assumption. exists q. exact Hq.
Qed.

(** Rounding to nearest never passes a bound that is itself a multiple of
    the unit the mantissa is rounded to. *)
Lemma round_aux_le (P : positive) (e W : Z) :
  let n := Z.max 0 (fexp prec emax (Z.pos (digits2_pos P) + e) - e) in
  (Z.pos P <= W * 2 ^ n)%Z ->
  exists M E,
    (0 <= M)%Z /\ (e <= E)%Z
    /\ (M * 2 ^ (E - e) <= W * 2 ^ n)%Z
    /\ binary_round_aux prec emax false (Z.pos P) e loc_Exact
       = match M with
         | Z0 => S754_zero false
         | Zpos m => if (E <=? emax - prec)%Z then S754_finite false m E
                     else S754_infinity false
         | Zneg _ => S754_nan
         end.
Proof.
  intros n HW.
  (* the second, renormalising shift *)
  assert (Hsecond : forall M2 e1,
             (0 <= M2)%Z ->
             exists M E,
               (0 <= M)%Z /\ (e1 <= E)%Z /\ (M * 2 ^ (E - e1) <= M2)%Z
               /\ shr_fexp prec emax M2 e1 loc_Exact
                  = ({| shr_m := M;
                        shr_r := shr_r (fst (shr_fexp prec emax M2 e1 loc_Exact));
                        shr_s := shr_s (fst (shr_fexp prec emax M2 e1 loc_Exact)) |},
                     E)).
  { intros M2 e1 HM2. unfold shr_fexp. cbn [shr_record_of_loc].
    destruct (fexp prec emax (Zdigits2 M2 + e1) - e1)%Z as [|k2|k2] eqn:E2;
      cbn [shr fst].
    - exists M2, e1. rewrite Z.sub_diag. cbn [shr_m shr_r shr_s].
      repeat split; try lia.
    - exists (M2 / 2 ^ Z.pos k2)%Z, (e1 + Z.pos k2)%Z.
      assert (Hp : (0 < 2 ^ Z.pos k2)%Z) by (apply Z.pow_pos_nonneg; lia).
      split; [apply Z.div_pos; lia|]. split; [lia|].
      split.
      + replace (e1 + Z.pos k2 - e1)%Z with (Z.pos k2) by lia.
        rewrite Z.mul_comm. apply Z.mul_div_le. lia.
      + f_equal.
        pose proof (iter_shr_m k2 {| shr_m := M2; shr_r := false;
                                     shr_s := false |}) as Hi.
        cbn [shr_m] in Hi. rewrite <- Hi by lia.
        destruct (iter_pos shr_1 k2 _); reflexivity.
    - exists M2, e1. rewrite Z.sub_diag. cbn [shr_m shr_r shr_s].
      repeat split; try lia. }
  unfold binary_round_aux.
  assert (Hfirst : exists M2 e1,
             (0 <= M2)%Z /\ (e1 - e = n)%Z /\ (M2 <= W)%Z
             /\ (let '(mrs', e') := shr_fexp prec emax (Z.pos P) e loc_Exact in
                 (round_nearest_even (shr_m mrs') (loc_of_shr_record mrs'), e'))
                = (M2, e1)).
  { unfold shr_fexp. cbn [Zdigits2 shr_record_of_loc]. unfold n in *. clear n.
    destruct (fexp prec emax (Z.pos (digits2_pos P) + e) - e)%Z
      as [|k|k] eqn:En; cbn [shr].
    - exists (Z.pos P), e. cbn. cbn in HW. repeat split; lia.
    - set (mrs0 := {| shr_m := Z.pos P; shr_r := false; shr_s := false |}).
      assert (Hp : (0 < 2 ^ Z.pos k)%Z) by (apply Z.pow_pos_nonneg; lia).
      replace (Z.max 0 (Z.pos k)) with (Z.pos k) in HW by lia.
      assert (HM1 : shr_m (iter_pos shr_1 k mrs0) = (Z.pos P / 2 ^ Z.pos k)%Z)
        by (apply iter_shr_m; cbn; lia).
      assert (Hlo : (0 <= Z.pos P / 2 ^ Z.pos k)%Z) by (apply Z.div_pos; lia).
      pose proof (round_bounds (shr_m (iter_pos shr_1 k mrs0))
                    (loc_of_shr_record (iter_pos shr_1 k mrs0))) as Hrb.
      rewrite HM1 in Hrb at 1 4.
      exists (round_nearest_even (shr_m (iter_pos shr_1 k mrs0))
                (loc_of_shr_record (iter_pos shr_1 k mrs0))), (e + Z.pos k)%Z.
      split; [|split; [lia|split; [|reflexivity]]].
      + lia.
      + destruct (Z.eq_dec (Z.pos P mod 2 ^ Z.pos k) 0) as [Hdiv|Hndiv].
        * destruct (iter_shr_exact k mrs0) as [Hr Hs];
            [cbn; lia | reflexivity | reflexivity | |].
          { apply Z.mod_divide; [lia | exact Hdiv]. }
          destruct (iter_pos shr_1 k mrs0) as [m1 r1 s1].
          cbn [shr_r shr_s shr_m] in *. subst r1 s1.
          cbn [loc_of_shr_record round_nearest_even]. rewrite HM1.
          apply Z.div_le_upper_bound; [exact Hp|].
          rewrite Z.mul_comm. exact HW.
        * assert ((Z.pos P / 2 ^ Z.pos k) < W)%Z; [|lia].
          pose proof (Z.div_mod (Z.pos P) (2 ^ Z.pos k) ltac:(lia)) as Hdm.
          pose proof (Z.mod_pos_bound (Z.pos P) (2 ^ Z.pos k) Hp) as Hmb.
          nia.
    - exists (Z.pos P), e. cbn. cbn in HW. repeat split; lia. }
  destruct Hfirst as (M2 & e1 & HM2 & He1 & HM2W & Hf).
  destruct (shr_fexp prec emax (Z.pos P) e loc_Exact) as [mrs' e'].
  injection Hf as Hf1 Hf2. rewrite Hf1, Hf2.
  destruct (Hsecond M2 e1 HM2) as (M & E & HM & HE & Hb & Hs).
  rewrite Hs. cbn [shr_m].
  exists M, E. split; [exact HM|]. split; [lia|]. split; [|reflexivity].
  replace (E - e)%Z with ((E - e1) + n)%Z by lia.
  assert (Hn : (0 <= n)%Z) by (unfold n; lia).
  rewrite Z.pow_add_r by lia.
  assert (0 < 2 ^ n)%Z by (apply Z.pow_pos_nonneg; lia).
  nia.
Qed.

Lemma bounded_mantissa m e :
  bounded prec emax m e = true -> (Z.pos m < 2 ^ 53)%Z.
Proof.
  intros Hb. unfold bounded in Hb. apply andb_prop in Hb as [Hc _].
  unfold canonical_mantissa in Hc. apply Z.eqb_eq in Hc.
  destruct (digits2_bounds m) as [_ Hhi].
  set (d := Z.pos (digits2_pos m)) in *.
  assert (Hd : (d <= 53)%Z) by (unfold fexp, emin, prec, emax in Hc; lia).
  assert (2 ^ d <= 2 ^ 53)%Z by (apply Z.pow_le_mono_r; lia). lia.
Qed.

(** For a ratio between 0 and 1, [int(n * ratio)] is defined and lies
    between 0 and [n]: the product is rounded, and rounding does not pass
    [n], which is a binary64 number. *)
Lemma int_mul_ratio z r :
  (0 <= z < 2 ^ 53)%Z -> (0 <=? r)%float = true -> (r <=? 1)%float = true ->
  exists kz, Py.int (Py.float_of_Z z * r)%float = Ok kz /\ (0 <= kz <= z)%Z.
Proof.
  intros Hz H0 H1.
  apply leb_key in H0 as (_ & Hn & K0). apply leb_key in H1 as (_ & _ & K1).
  rewrite is_nan_key in Hn.
  change (Prim2SF 0) with (S754_zero false) in K0.
  change (Prim2SF 1) with (S754_finite false 4503599627370496 (-52)) in K1.
  pose proof (Prim2SF_valid r) as Hv.
  unfold Py.int. rewrite mul_spec.
  destruct (Z.eq_dec z 0) as [->|Hne].
  { change (Prim2SF (Py.float_of_Z 0)) with (S754_zero false).
    destruct (Prim2SF r) as [s|s| |s m e]; cbn in Hn, K0, K1 |- *;
      try discriminate.
    - exists 0%Z. split; [reflexivity | lia].
    - destruct s; [exfalso; apply K0 | exfalso; apply K1]; reflexivity.
    - exists 0%Z. split; [reflexivity | lia]. }
  destruct (float_of_Z_exact z) as (mz & ez & Hsf & Hez & Hmz & Hmzb); [lia|].
  rewrite Hsf.
  destruct (Prim2SF r) as [s|s| |s m e]; cbn [sf_is_nan] in Hn;
    try discriminate.
  - exists 0%Z. split; [reflexivity | lia].
  - destruct s; [exfalso; apply K0 | exfalso; apply K1]; reflexivity.
  - destruct s; [exfalso; apply K0; reflexivity|].
    cbn [valid_binary] in Hv. pose proof (bounded_mantissa m e Hv) as Hm53.
    assert (Hle : (e <= -52)%Z /\ (Z.pos m <= 2 ^ (- e))%Z).
    { destruct (Z.lt_trichotomy e (-52)) as [He|[He|He]].
      - split; [lia|].
        assert (2 ^ 53 <= 2 ^ (- e))%Z by (apply Z.pow_le_mono_r; lia). lia.
      - subst e. split; [lia|]. change (2 ^ (- -52))%Z with 4503599627370496%Z.
        destruct (Z.le_gt_cases (Z.pos m) 4503599627370496) as [Hc|Hc];
          [exact Hc|].
        exfalso. apply K1. apply key_compare_gt, key_compare_lt. cbn [sf_key]. lia.
      - exfalso. apply K1. apply key_compare_gt, key_compare_lt. cbn [sf_key]. lia. }
    destruct Hle as [He Hm].
    unfold SF64mul, SFmul. cbn [xorb].
    set (P := (mz * m)%positive).
    set (e' := (ez + e)%Z).
    set (dP := Z.pos (digits2_pos P)).
    set (n := Z.max 0 (fexp prec emax (dP + e') - e')).
    assert (Hpe : (0 < 2 ^ (- e))%Z) by (apply Z.pow_pos_nonneg; lia).
    assert (HP : (Z.pos P <= Z.pos mz * 2 ^ (- e))%Z).
    { unfold P. rewrite Pos2Z.inj_mul. apply Z.mul_le_mono_nonneg_l; lia. }
    assert (HdP : (dP <= 53 - e)%Z).
    { destruct (digits2_bounds P) as [Plo _]. fold dP in Plo.
      assert (Hlt : (2 ^ (dP - 1) < 2 ^ (53 - e))%Z).
      { replace (53 - e)%Z with (53 + - e)%Z by lia.
        rewrite Z.pow_add_r by lia. nia. }
      apply Z.pow_lt_mono_r_iff in Hlt; lia. }
    assert (Hn0 : (0 <= n <= - e)%Z).
    { unfold n, fexp, emin, prec, emax, e'. lia. }
    assert (Hsplit : (2 ^ (- e) = 2 ^ (- e - n) * 2 ^ n)%Z).
    { rewrite <- Z.pow_add_r by lia. f_equal; lia. }
    destruct (round_aux_le P e' (Z.pos mz * 2 ^ (- e - n)))
      as (M & E & HM & HE & Hb & Hr).
    { fold dP. fold n. rewrite <- Z.mul_assoc, <- Hsplit. exact HP. }
    fold dP in Hb. fold n in Hb.
    rewrite <- Z.mul_assoc, <- Hsplit in Hb.
    (* the bound in terms of [z] *)
    assert (Hb' : (M * 2 ^ (E - e') <= z * 2 ^ (- e'))%Z).
    { rewrite Hmz in Hb.
      replace (- e')%Z with (- ez + - e)%Z by (unfold e'; lia).
      rewrite Z.pow_add_r by lia. lia. }
    assert (Hpe' : (0 < 2 ^ (- e'))%Z)
      by (apply Z.pow_pos_nonneg; unfold e'; lia).
    assert (Hpd : (0 < 2 ^ (E - e'))%Z) by (apply Z.pow_pos_nonneg; lia).
    rewrite Hr.
    destruct M as [|mm|mm]; [| |lia].
    { exists 0%Z. split; [reflexivity | lia]. }
    assert (HE53 : (E < 53)%Z).
    { assert (Hlt : (2 ^ (E - e') < 2 ^ (53 - e'))%Z).
      { replace (53 - e')%Z with (53 + - e')%Z by lia.
        rewrite Z.pow_add_r by (unfold e'; lia). nia. }
      apply Z.pow_lt_mono_r_iff in Hlt; unfold e' in *; lia. }
    destruct (Z.leb_spec E (emax - prec)) as [_|Hbad];
      [|unfold emax, prec in Hbad; lia].
    destruct (Z.leb_spec 0 E) as [HE0|HE0].
    + exists (Z.pos mm * 2 ^ E)%Z. split; [reflexivity|].
      assert (HpE : (0 < 2 ^ E)%Z) by (apply Z.pow_pos_nonneg; lia).
      split; [nia|].
      assert (Hs2 : (2 ^ (E - e') = 2 ^ E * 2 ^ (- e'))%Z).
      { rewrite <- Z.pow_add_r by (unfold e'; lia). f_equal; lia. }
      rewrite Hs2, Z.mul_assoc in Hb'.
      apply Z.mul_le_mono_pos_r in Hb'; assumption.
    + exists (Z.pos mm / 2 ^ (- E))%Z. split; [reflexivity|].
      assert (HpE : (0 < 2 ^ (- E))%Z) by (apply Z.pow_pos_nonneg; lia).
      split; [apply Z.div_pos; lia|].
      apply Z.div_le_upper_bound; [exact HpE|].
      assert (Hs2 : (2 ^ (- e') = 2 ^ (- E) * 2 ^ (E - e'))%Z).
      { rewrite <- Z.pow_add_r by lia. f_equal; lia. }
      rewrite Hs2 in Hb'.
      replace (z * (2 ^ (- E) * 2 ^ (E - e')))%Z
        with (2 ^ (- E) * z * 2 ^ (E - e'))%Z in Hb' by ring.
      apply Z.mul_le_mono_pos_r in Hb'; assumption.
Qed.

(** ** Frames *)

Lemma lookup_upsert_eq name c cs : df_lookup name (upsert name c cs) = Some c.
Proof.
  induction cs as [|[k c0] rest IH]; cbn.
  - rewrite String.eqb_refl. reflexivity.
  - destruct (String.eqb k name) eqn:E; cbn; rewrite E; [reflexivity | exact IH].
Qed.

Lemma lookup_upsert_neq name name' c cs :
  name <> name' -> df_lookup name' (upsert name c cs) = df_lookup name' cs.
Proof.
  intros Hne. induction cs as [|[k c0] rest IH]; cbn.
  - apply String.eqb_neq in Hne. rewrite Hne. reflexivity.
  - destruct (String.eqb k name) eqn:E; cbn.
    + apply String.eqb_eq in E. subst k.
      apply String.eqb_neq in Hne. rewrite Hne. reflexivity.
    + rewrite IH. reflexivity.
Qed.

Lemma upsert_upsert name c c' cs :
  upsert name c' (upsert name c cs) = upsert name c' cs.
Proof.
  induction cs as [|[k c0] rest IH]; cbn.
  - rewrite String.eqb_refl. reflexivity.
  - destruct (String.eqb k name) eqn:E; cbn; rewrite E; [reflexivity|].
    rewrite IH. reflexivity.
Qed.

Lemma with_col_with_col df name c c' :
  with_col (with_col df name c) name c' = with_col df name c'.
Proof. unfold with_col. cbn. rewrite upsert_upsert. reflexivity. Qed.

Lemma lookup_with_col_eq df name c :
  df_lookup name (cols (with_col df name c)) = Some c.
Proof. apply lookup_upsert_eq. Qed.

Lemma lookup_with_col_neq df name name' c :
  name <> name' ->
  df_lookup name' (cols (with_col df name c)) = df_lookup name' (cols df).
Proof. apply lookup_upsert_neq. Qed.

Lemma get_float_ok df name a :
  df_lookup name (cols df) = Some (FloatCol a) -> Pd.get_float df name = Ok a.
Proof. intros H. unfold Pd.get_float, Pd.get_col. rewrite H. reflexivity. Qed.

Lemma loc_float_ok df name a i x :
  df_lookup name (cols df) = Some (FloatCol a) ->
  nth_error a i = Some x ->
  Pd.loc_float df i name = Ok x.
Proof.
  intros H Hi. unfold Pd.loc_float, Pd.loc. rewrite H. cbn. rewrite Hi.
  reflexivity.
Qed.

Lemma loc_int_ok df name l i z :
  df_lookup name (cols df) = Some (IntCol l) ->
  nth_error l i = Some z ->
  Pd.loc df i name = Ok (VInt z).
Proof.
  intros H Hi. unfold Pd.loc. rewrite H. cbn. rewrite Hi. reflexivity.
Qed.

Lemma loc_set_existing df name c i x :
  df_lookup name (cols df) = Some (FloatCol c) ->
  Pd.loc_set df i name x = with_col df name (FloatCol (list_set c i x)).
Proof. intros H. unfold Pd.loc_set. rewrite H. reflexivity. Qed.

Lemma loc_set_with_col df name c i x :
  Pd.loc_set (with_col df name (FloatCol c)) i name x
  = with_col df name (FloatCol (list_set c i x)).
Proof.
  rewrite (loc_set_existing _ _ c) by apply lookup_with_col_eq.
  apply with_col_with_col.
Qed.

Lemma set_col_ok df name c :
  col_len c = nrows df -> Pd.set_col df name c = Ok (with_col df name c).
Proof.
  intros H. unfold Pd.set_col. rewrite H, Nat.eqb_refl. reflexivity.
Qed.

Ltac solve_len :=
  cbn [col_len nrows with_col];
  first [ eassumption | lia
        | unfold Np.vadd, Np.vsub;
          rewrite ?length_map, ?map2_length, ?repeat_length,
            ?list_set_length, ?length_app; lia ].

(** Evaluate reads of a frame whose column names are literals. *)
Ltac frame_eval t :=
  eval cbn [Pd.get_float Pd.get_col Pd.loc Pd.loc_float Pd.index_where_eq
            Pd.set_scalar df_lookup cols nrows with_col upsert
            String.eqb Ascii.eqb Bool.eqb as_float]
  in t.

Ltac frame_cbn :=
  cbn [Pd.get_float Pd.get_col df_lookup cols nrows with_col upsert
       String.eqb Ascii.eqb Bool.eqb as_float].

(** A read at the head of a sequence that evaluates to a value. *)
Ltac step_pure :=
  match goal with
  | |- context [bind (lift ?r) ?k ?s] =>
      let v := frame_eval r in
      match v with
      | Ok ?a =>
          let H := fresh in
          assert (H : r = Ok a) by reflexivity;
          rewrite (bind_ok _ _ _ _ _ (lift_ok _ _ s H)); clear H; cbv beta
      end
  end.

(** A column assignment at the head of a sequence. *)
Ltac step_set :=
  match goal with
  | |- context [bind (lift (Pd.set_col ?df ?name ?c)) ?k ?s] =>
      let H := fresh in
      assert (H : Pd.set_col df name c = Ok (with_col df name c))
        by (apply set_col_ok; solve_len);
      rewrite (bind_ok _ _ _ _ _ (lift_ok _ _ s H)); clear H; cbv beta
  | |- context [lift (Pd.set_col ?df ?name ?c) ?s] =>
      let H := fresh in
      assert (H : Pd.set_col df name c = Ok (with_col df name c))
        by (apply set_col_ok; solve_len);
      rewrite (lift_ok _ _ s H); clear H
  end.

(** ** Draws *)

Section DrawFacts.

Context {R : NumpyRandom}.

Lemma draw_n_length {A} (d : rng_state -> A * rng_state) k s :
  length (fst (draw_n d k s)) = k.
Proof.
  revert s. induction k as [|k IH]; intros s; cbn; [reflexivity|].
  destruct (d s) as [x s1]. specialize (IH s1).
  destruct (draw_n d k s1) as [xs s2]. cbn in *. lia.
Qed.

Lemma draw_n_Forall {A} (d : rng_state -> A * rng_state) (P : A -> Prop) k s :
  (forall s0, P (fst (d s0))) -> Forall P (fst (draw_n d k s)).
Proof.
  intros Hd. revert s. induction k as [|k IH]; intros s; cbn; [constructor|].
  specialize (Hd s). destruct (d s) as [x s1]. specialize (IH s1).
  destruct (draw_n d k s1) as [xs s2]. cbn in *. constructor; assumption.
Qed.

Lemma normal_n_ok loc scale z s :
  (0 <= z)%Z ->
  exists l s', normal_n loc scale z s = Ok (l, s') /\ length l = Z.to_nat z.
Proof.
  intros Hz. unfold normal_n.
  destruct (Z.ltb_spec z 0); [lia|].
  pose proof (draw_n_length (rng_normal loc scale) (Z.to_nat z) s) as Hl.
  destruct (draw_n (rng_normal loc scale) (Z.to_nat z) s) as [l s'].
  exists l, s'. split; [reflexivity | exact Hl].
Qed.

Lemma normal_n_neg loc scale z s :
  (z < 0)%Z -> normal_n loc scale z s = Err ValueError.
Proof.
  intros Hz. unfold normal_n. destruct (Z.ltb_spec z 0); [reflexivity | lia].
Qed.

Lemma take_indices_ok {A} (a : list A) idx :
  Forall (fun i => i < length a) idx ->
  exists xs, take_indices a idx = Ok xs /\ length xs = length idx
             /\ Forall (fun x => In x a) xs.
Proof.
  induction 1 as [|i rest Hi _ IH]; cbn.
  - exists []. auto.
  - destruct (nth_error_some a i Hi) as [x Hx]. rewrite Hx.
    destruct IH as (xs & -> & Hlen & Hin).
    exists (x :: xs). cbn. repeat split; [lia|].
    constructor; [eapply nth_error_In; eassumption | exact Hin].
Qed.

Lemma choice_p_ok {A} (a : list A) z p s :
  (0 <= z)%Z -> p <> [] -> length a = length p ->
  exists xs s', choice_p a z p s = Ok (xs, s') /\ length xs = Z.to_nat z.
Proof.
  intros Hz Hp Hlen. unfold choice_p.
  destruct (Z.ltb_spec z 0); [lia|].
  pose proof (draw_n_length (rng_categorical p) (Z.to_nat z) s) as Hl.
  pose proof (draw_n_Forall (rng_categorical p) (fun i => i < length a)
                (Z.to_nat z) s) as Hall.
  destruct (draw_n (rng_categorical p) (Z.to_nat z) s) as [idx s'].
  cbn in Hl, Hall.
  destruct (take_indices_ok a idx) as (xs & Hxs & Hlx & _).
  { apply Hall. intros s0. rewrite Hlen. apply rng_categorical_lt, Hp. }
  rewrite Hxs. exists xs, s'. split; [reflexivity | lia].
Qed.

Lemma choice_p_neg {A} (a : list A) z p s :
  (z < 0)%Z -> choice_p a z p s = Err ValueError.
Proof.
  intros Hz. unfold choice_p. destruct (Z.ltb_spec z 0); [reflexivity | lia].
Qed.

Lemma choice_no_replace_ok {A} (a : list A) z s :
  (0 <= z <= Z.of_nat (length a))%Z ->
  exists xs s', choice_no_replace a z s = Ok (xs, s')
                /\ length xs = Z.to_nat z /\ Forall (fun x => In x a) xs.
Proof.
  intros Hz. unfold choice_no_replace.
  destruct (Z.ltb_spec z 0); [lia|].
  destruct (Z.ltb_spec (Z.of_nat (length a)) z); [lia|].
  pose proof (rng_permutation_perm (length a) s) as Hperm.
  destruct (rng_permutation (length a) s) as [perm s']. cbn in Hperm.
  destruct (take_indices_ok a (firstn (Z.to_nat z) perm)) as (xs & Hxs & Hlx & Hin).
  { apply Forall_forall. intros i Hi.
    apply In_firstn in Hi.
    apply (Permutation_in _ Hperm) in Hi. apply in_seq in Hi. lia. }
  rewrite Hxs. exists xs, s'. repeat split; [|exact Hin].
  rewrite Hlx, length_firstn.
  apply Permutation_length in Hperm. rewrite length_seq in Hperm. lia.
Qed.

End DrawFacts.

(** ** The blocks of the generator *)

Section BlockFacts.

Context {R : NumpyRandom}.

Lemma zeros_ok z : (0 <= z)%Z -> Np.zeros z = Ok (repeat 0%Z (Z.to_nat z)).
Proof. intros H. unfold Np.zeros. destruct (Z.ltb_spec z 0); [lia | reflexivity]. Qed.

Lemma ones_ok z : (0 <= z)%Z -> Np.ones z = Ok (repeat 1%Z (Z.to_nat z)).
Proof. intros H. unfold Np.ones. destruct (Z.ltb_spec z 0); [lia | reflexivity]. Qed.

(** The frame of the non-cheaters: four columns, all labels zero. *)
Lemma make_non_cheaters_ok z s :
  (0 <= z)%Z ->
  exists a cw ex s',
    make_non_cheaters z s =
      Ok ({| nrows := Z.to_nat z;
             cols := [("ability", FloatCol a);
                      ("cheater", IntCol (repeat 0%Z (Z.to_nat z)));
                      ("coursework_raw", FloatCol cw);
                      ("exam_raw", FloatCol ex)] |}, s')
    /\ length a = Z.to_nat z /\ length cw = Z.to_nat z
    /\ length ex = Z.to_nat z.
Proof.
  intros Hz. unfold make_non_cheaters.
  destruct (normal_n_ok 0 1 z s Hz) as (a & s1 & Ha & La). step_with Ha.
  step_lift (zeros_ok z Hz).
  assert (Hdf : Pd.DataFrame_of
                  [("ability", FloatCol a);
                   ("cheater", IntCol (repeat 0%Z (Z.to_nat z)))]
                = Ok {| nrows := Z.to_nat z;
                        cols := [("ability", FloatCol a);
                                 ("cheater", IntCol (repeat 0%Z (Z.to_nat z)))] |}).
  { unfold Pd.DataFrame_of. cbn [forallb snd col_len].
    rewrite repeat_length, La, Nat.eqb_refl. reflexivity. }
  step_lift Hdf. step_pure.
  destruct (normal_n_ok 0 0.8 z s1 Hz) as (n1 & s2 & Hn1 & L1). step_with Hn1.
  assert (Lcw : length (Np.vadd a n1) = Z.to_nat z).
  { unfold Np.vadd. rewrite map2_length. lia. }
  step_set.
  step_pure.
  destruct (normal_n_ok 0 0.8 z s2 Hz) as (n2 & s3 & Hn2 & L2). step_with Hn2.
  assert (Lex : length (Np.vadd a n2) = Z.to_nat z).
  { unfold Np.vadd. rewrite map2_length. lia. }
  step_set. frame_cbn.
  exists a, (Np.vadd a n1), (Np.vadd a n2), s3. repeat split; assumption.
Qed.

Lemma make_non_cheaters_neg z s :
  (z < 0)%Z -> make_non_cheaters z s = Err ValueError.
Proof.
  intros Hz. unfold make_non_cheaters.
  apply bind_err. apply normal_n_neg, Hz.
Qed.

(** The frame of the cheaters before the patterns are applied: three columns,
    all labels one. *)
Lemma make_cheaters_ok z s :
  (0 <= z)%Z ->
  exists a cw s',
    make_cheaters z s =
      Ok ({| nrows := Z.to_nat z;
             cols := [("ability", FloatCol a);
                      ("cheater", IntCol (repeat 1%Z (Z.to_nat z)));
                      ("coursework_raw", FloatCol cw)] |}, s')
    /\ length a = Z.to_nat z /\ length cw = Z.to_nat z.
Proof.
  intros Hz. unfold make_cheaters.
  destruct (normal_n_ok (-0.5) 1 z s Hz) as (a & s1 & Ha & La). step_with Ha.
  step_lift (ones_ok z Hz).
  assert (Hdf : Pd.DataFrame_of
                  [("ability", FloatCol a);
                   ("cheater", IntCol (repeat 1%Z (Z.to_nat z)))]
                = Ok {| nrows := Z.to_nat z;
                        cols := [("ability", FloatCol a);
                                 ("cheater", IntCol (repeat 1%Z (Z.to_nat z)))] |}).
  { unfold Pd.DataFrame_of. cbn [forallb snd col_len].
    rewrite repeat_length, La, Nat.eqb_refl. reflexivity. }
  step_lift Hdf. step_pure.
  destruct (normal_n_ok 0 0.8 z s1 Hz) as (n1 & s2 & Hn1 & L1). step_with Hn1.
  step_set. frame_cbn.
  exists a, (Np.vadd a n1), s2. repeat split; [assumption|].
  unfold Np.vadd. rewrite map2_length. lia.
Qed.

Lemma make_cheaters_neg z s :
  (z < 0)%Z -> make_cheaters z s = Err ValueError.
Proof.
  intros Hz. unfold make_cheaters.
  apply bind_err. apply normal_n_neg, Hz.
Qed.

(** One pattern applied to a frame that already has both raw columns. *)
Lemma apply_pattern_full k a o cw ex i ty s :
  length a = k -> length cw = k -> length ex = k -> i < k ->
  exists cw' ex' s',
    apply_pattern (i, ty)
      {| nrows := k;
         cols := [("ability", FloatCol a); ("cheater", IntCol o);
                  ("coursework_raw", FloatCol cw);
                  ("exam_raw", FloatCol ex)] |} s
    = Ok ({| nrows := k;
             cols := [("ability", FloatCol a); ("cheater", IntCol o);
                      ("coursework_raw", FloatCol cw');
                      ("exam_raw", FloatCol ex')] |}, s')
    /\ length cw' = k /\ length ex' = k.
Proof.
  intros La Lcw Lex Hi.
  destruct (nth_error_some a i) as [x Hx]; [lia|].
  assert (Hloc : forall c e,
             Pd.loc_float
               {| nrows := k;
                  cols := [("ability", FloatCol a); ("cheater", IntCol o);
                           ("coursework_raw", FloatCol c);
                           ("exam_raw", FloatCol e)] |} i "ability" = Ok x).
  { intros c e. eapply loc_float_ok; [reflexivity | exact Hx]. }
  unfold apply_pattern, uniform, normal.
  destruct (String.eqb ty "coursework_advantage");
    [| destruct (String.eqb ty "exam_advantage")].
  - step_lift (Hloc cw ex). unfold bind at 1.
    destruct (rng_uniform 1 2.5 s) as [u s1].
    unfold Pd.loc_set at 2. frame_cbn. step_lift (Hloc (list_set cw i (x + u)%float) ex).
    unfold bind at 1. destruct (rng_normal 0 0.8 s1) as [g s2].
    unfold Pd.loc_set, ret. frame_cbn.
    eexists _, _, _. split; [reflexivity|].
    rewrite !list_set_length. split; assumption.
  - step_lift (Hloc cw ex). unfold bind at 1.
    destruct (rng_normal 0 0.8 s) as [g s1].
    unfold Pd.loc_set at 2. frame_cbn. step_lift (Hloc (list_set cw i (x + g)%float) ex).
    unfold bind at 1. destruct (rng_uniform 1.5 3 s1) as [u s2].
    unfold Pd.loc_set, ret. frame_cbn.
    eexists _, _, _. split; [reflexivity|].
    rewrite !list_set_length. split; assumption.
  - unfold bind at 1. destruct (rng_uniform 1 2 s) as [b s1].
    step_lift (Hloc cw ex). unfold bind at 1.
    destruct (rng_normal 0 0.2 s1) as [g s2].
    unfold Pd.loc_set at 2. frame_cbn.
    step_lift (Hloc (list_set cw i (x + b + g)%float) ex).
    unfold bind at 1. destruct (rng_normal 0 0.2 s2) as [g' s3].
    unfold Pd.loc_set, ret. frame_cbn.
    eexists _, _, _. split; [reflexivity|].
    rewrite !list_set_length. split; assumption.
Qed.

(** The first pattern creates the [exam_raw] column. *)
Lemma apply_pattern_first k a o cw i ty s :
  length a = k -> length cw = k -> i < k ->
  exists cw' ex' s',
    apply_pattern (i, ty)
      {| nrows := k;
         cols := [("ability", FloatCol a); ("cheater", IntCol o);
                  ("coursework_raw", FloatCol cw)] |} s
    = Ok ({| nrows := k;
             cols := [("ability", FloatCol a); ("cheater", IntCol o);
                      ("coursework_raw", FloatCol cw');
                      ("exam_raw", FloatCol ex')] |}, s')
    /\ length cw' = k /\ length ex' = k.
Proof.
  intros La Lcw Hi.
  destruct (nth_error_some a i) as [x Hx]; [lia|].
  assert (Hloc : forall c,
             Pd.loc_float
               {| nrows := k;
                  cols := [("ability", FloatCol a); ("cheater", IntCol o);
                           ("coursework_raw", FloatCol c)] |} i "ability" = Ok x).
  { intros c. eapply loc_float_ok; [reflexivity | exact Hx]. }
  unfold apply_pattern, uniform, normal.
  destruct (String.eqb ty "coursework_advantage");
    [| destruct (String.eqb ty "exam_advantage")].
  - step_lift (Hloc cw). unfold bind at 1.
    destruct (rng_uniform 1 2.5 s) as [u s1].
    unfold Pd.loc_set at 2. frame_cbn. step_lift (Hloc (list_set cw i (x + u)%float)).
    unfold bind at 1. destruct (rng_normal 0 0.8 s1) as [g s2].
    unfold Pd.loc_set, ret. frame_cbn.
    eexists _, _, _. split; [reflexivity|].
    rewrite !list_set_length, repeat_length. split; [assumption | reflexivity].
  - step_lift (Hloc cw). unfold bind at 1.
    destruct (rng_normal 0 0.8 s) as [g s1].
    unfold Pd.loc_set at 2. frame_cbn. step_lift (Hloc (list_set cw i (x + g)%float)).
    unfold bind at 1. destruct (rng_uniform 1.5 3 s1) as [u s2].
    unfold Pd.loc_set, ret. frame_cbn.
    eexists _, _, _. split; [reflexivity|].
    rewrite !list_set_length, repeat_length. split; [assumption | reflexivity].
  - unfold bind at 1. destruct (rng_uniform 1 2 s) as [b s1].
    step_lift (Hloc cw). unfold bind at 1.
    destruct (rng_normal 0 0.2 s1) as [g s2].
    unfold Pd.loc_set at 2. frame_cbn.
    step_lift (Hloc (list_set cw i (x + b + g)%float)).
    unfold bind at 1. destruct (rng_normal 0 0.2 s2) as [g' s3].
    unfold Pd.loc_set, ret. frame_cbn.
    eexists _, _, _. split; [reflexivity|].
    rewrite !list_set_length, repeat_length. split; [assumption | reflexivity].
Qed.

Lemma patterns_full k a o (l : list (nat * string)) :
  length a = k -> Forall (fun ic => fst ic < k) l ->
  forall cw ex s, length cw = k -> length ex = k ->
  exists cw' ex' s',
    for_each l apply_pattern
      {| nrows := k;
         cols := [("ability", FloatCol a); ("cheater", IntCol o);
                  ("coursework_raw", FloatCol cw);
                  ("exam_raw", FloatCol ex)] |} s
    = Ok ({| nrows := k;
             cols := [("ability", FloatCol a); ("cheater", IntCol o);
                      ("coursework_raw", FloatCol cw');
                      ("exam_raw", FloatCol ex')] |}, s')
    /\ length cw' = k /\ length ex' = k.
Proof.
  intros La Hl. induction Hl as [|[i ty] rest Hi _ IH]; intros cw ex s Lcw Lex.
  - exists cw, ex, s. repeat split; assumption.
  - cbn [for_each]. cbn in Hi.
    destruct (apply_pattern_full k a o cw ex i ty s La Lcw Lex Hi)
      as (cw1 & ex1 & s1 & H1 & Lcw1 & Lex1).
    step_with H1. apply IH; assumption.
Qed.

Lemma enumerate_bound {A} (l : list A) :
  Forall (fun ic => fst ic < length l) (enumerate l).
Proof.
  apply Forall_forall. intros [i x] Hin. cbn.
  apply in_combine_l in Hin. apply in_seq in Hin. lia.
Qed.

(** The loop over the cheater types: with no cheater the frame is returned
    as it is (without an [exam_raw] column), otherwise it has the four
    columns of the non-cheaters' frame. *)
Lemma patterns_ok k a o cw (types : list string) s :
  length a = k -> length cw = k -> length types = k ->
  exists df s',
    for_each (enumerate types) apply_pattern
      {| nrows := k;
         cols := [("ability", FloatCol a); ("cheater", IntCol o);
                  ("coursework_raw", FloatCol cw)] |} s = Ok (df, s')
    /\ ((k = 0 /\ df = {| nrows := k;
                          cols := [("ability", FloatCol a);
                                   ("cheater", IntCol o);
                                   ("coursework_raw", FloatCol cw)] |})
        \/ (0 < k /\ exists cw' ex',
               df = {| nrows := k;
                       cols := [("ability", FloatCol a); ("cheater", IntCol o);
                                ("coursework_raw", FloatCol cw');
                                ("exam_raw", FloatCol ex')] |}
               /\ length cw' = k /\ length ex' = k)).
Proof.
  intros La Lcw Lt.
  pose proof (enumerate_bound types) as Hb. rewrite Lt in Hb.
  destruct (enumerate types) as [|[i ty] rest] eqn:E.
  - exists {| nrows := k;
              cols := [("ability", FloatCol a); ("cheater", IntCol o);
                       ("coursework_raw", FloatCol cw)] |}, s.
    split; [reflexivity|]. left. split; [|reflexivity].
    destruct types; [cbn in Lt; lia | discriminate].
  - apply Forall_cons_iff in Hb as [Hi Hrest]. cbn in Hi. cbn [for_each].
    destruct (apply_pattern_first k a o cw i ty s La Lcw Hi)
      as (cw1 & ex1 & s1 & H1 & Lcw1 & Lex1).
    step_with H1.
    destruct (patterns_full k a o rest La Hrest cw1 ex1 s1 Lcw1 Lex1)
      as (cw2 & ex2 & s2 & H2 & Lcw2 & Lex2).
    exists {| nrows := k;
              cols := [("ability", FloatCol a); ("cheater", IntCol o);
                       ("coursework_raw", FloatCol cw2);
                       ("exam_raw", FloatCol ex2)] |}, s2.
    split; [exact H2|]. right. split; [lia|].
    exists cw2, ex2. repeat split; assumption.
Qed.

(** A loop whose body succeeds and keeps an invariant succeeds and keeps it. *)
Lemma for_each_ok {S A B} (P : A -> Prop) (I : B -> Prop)
  (body : A -> B -> M S B) :
  (forall x acc s, P x -> I acc ->
     exists acc' s', body x acc s = Ok (acc', s') /\ I acc') ->
  forall l, Forall P l -> forall acc s, I acc ->
  exists acc' s', for_each l body acc s = Ok (acc', s') /\ I acc'.
Proof.
  intros Hbody l Hl. induction Hl as [|x rest Hx _ IH]; intros acc s Hacc.
  - exists acc, s. split; [reflexivity | exact Hacc].
  - cbn [for_each].
    destruct (Hbody x acc s Hx Hacc) as (acc1 & s1 & H1 & I1).
    step_with H1. apply IH, I1.
Qed.

Lemma range_bound z : Forall (fun i => i < Z.to_nat z) (Py.range z).
Proof. apply Forall_forall. intros i Hi. apply in_seq in Hi. lia. Qed.

Lemma subject_row_ok data a ch n i scores s :
  df_lookup "ability" (cols data) = Some (FloatCol a) -> length a = n ->
  df_lookup "cheater" (cols data) = Some (IntCol ch) -> length ch = n ->
  i < n -> length scores = n ->
  exists scores' s',
    subject_row data i scores s = Ok (scores', s') /\ length scores' = n.
Proof.
  intros Ha La Hc Lc Hi Ls.
  destruct (nth_error_some a i) as [x Hx]; [lia|].
  destruct (nth_error_some ch i) as [c Hcx]; [lia|].
  unfold subject_row.
  step_lift (loc_float_ok _ _ _ _ _ Ha Hx).
  step_lift (loc_int_ok _ _ _ _ _ Hc Hcx).
  assert (H5 : (0 <= Z.of_nat n_subjects)%Z) by apply Nat2Z.is_nonneg.
  destruct (value_eq_int (VInt c) 0).
  - destruct (normal_n_ok 0 1 _ s H5) as (l & s1 & Hl & _). step_with Hl.
    eexists _, _. split; [reflexivity|]. rewrite list_set_length. exact Ls.
  - unfold random, bind at 1. destruct (rng_random s) as [u s1].
    destruct (u <? 0.7)%float.
    + destruct (normal_n_ok 0 0.4 _ s1 H5) as (l & s2 & Hl & _). step_with Hl.
      eexists _, _. split; [reflexivity|]. rewrite list_set_length. exact Ls.
    + destruct (normal_n_ok 0 1 _ s1 H5) as (l & s2 & Hl & _). step_with Hl.
      eexists _, _. split; [reflexivity|]. rewrite list_set_length. exact Ls.
Qed.

(** The subject-variation block adds one column and changes no other. *)
Lemma subject_variation_block_ok z data a ch s :
  (0 <= z)%Z -> nrows data = Z.to_nat z ->
  df_lookup "ability" (cols data) = Some (FloatCol a) ->
  length a = Z.to_nat z ->
  df_lookup "cheater" (cols data) = Some (IntCol ch) ->
  length ch = Z.to_nat z ->
  exists sv s',
    subject_variation_block z data s
    = Ok (with_col data "subject_variation" (FloatCol sv), s')
    /\ length sv = Z.to_nat z.
Proof.
  intros Hz Hn Ha La Hc Lc. unfold subject_variation_block.
  assert (H0 : Np.zeros2 z n_subjects
               = Ok (repeat (repeat 0%float n_subjects) (Z.to_nat z))).
  { unfold Np.zeros2. destruct (Z.ltb_spec z 0); [lia | reflexivity]. }
  step_lift H0.
  destruct (for_each_ok (fun i => i < Z.to_nat z)
              (fun sc : list (list float) => length sc = Z.to_nat z)
              (subject_row data)) with
    (l := Py.range z) (acc := repeat (repeat 0%float n_subjects) (Z.to_nat z))
    (s := s) as (sc & s1 & Hloop & Lsc).
  { intros i acc s0 Hi Hacc.
    apply (subject_row_ok data a ch (Z.to_nat z)); assumption. }
  { apply range_bound. }
  { apply repeat_length. }
  step_with Hloop.
  assert (Lsv : length (map Np.std sc) = Z.to_nat z)
    by (rewrite length_map; exact Lsc).
  step_set. exists (map Np.std sc), s1. split; [reflexivity | exact Lsv].
Qed.

Lemma worsen_past_ok n idx past s :
  idx < n -> length past = n ->
  exists past' s', worsen_past idx past s = Ok (past', s') /\ length past' = n.
Proof.
  intros Hi Lp. unfold worsen_past, Pd.series_get.
  destruct (nth_error_some past idx) as [x Hx]; [lia|]. rewrite Hx.
  unfold bind, uniform, lift, ret.
  destruct (rng_uniform 0.5 1.5 s) as [u s1].
  eexists _, _. split; [reflexivity|]. rewrite list_set_length. exact Lp.
Qed.

(** The historical-trend block adds one column; the cheaters' rows are the
    positions labelled 1, and the sudden improvers are [size] of them. *)
Lemma historical_trend_block_ok z data a ch cw ex size s :
  (0 <= z)%Z -> nrows data = Z.to_nat z ->
  df_lookup "ability" (cols data) = Some (FloatCol a) ->
  length a = Z.to_nat z ->
  df_lookup "cheater" (cols data) = Some (IntCol ch) ->
  length ch = Z.to_nat z ->
  df_lookup "coursework_raw" (cols data) = Some (FloatCol cw) ->
  length cw = Z.to_nat z ->
  df_lookup "exam_raw" (cols data) = Some (FloatCol ex) ->
  length ex = Z.to_nat z ->
  let idx := positions (fun b : bool => b) 0 (map (fun x => (x =? 1)%Z) ch) in
  Py.int (Py.float_of_nat (length idx) * 0.6)%float = Ok size ->
  (0 <= size <= Z.of_nat (length idx))%Z ->
  exists ht imp s',
    historical_trend_block z data s
    = Ok (with_col data "historical_trend" (FloatCol ht), idx, imp, s')
    /\ length ht = Z.to_nat z /\ length imp = Z.to_nat size.
Proof.
  intros Hz Hn Ha La Hc Lc Hcw Lcw Hex Lex idx Hsize Hrange.
  unfold historical_trend_block.
  step_lift (get_float_ok _ _ _ Ha).
  destruct (normal_n_ok 0 0.5 z s Hz) as (noise & s1 & Hnoise & Ln).
  step_with Hnoise.
  step_lift (get_float_ok _ _ _ Hcw). step_lift (get_float_ok _ _ _ Hex).
  assert (Hidx : Pd.index_where_eq data "cheater" 1 = Ok idx).
  { unfold Pd.index_where_eq, Pd.get_col. rewrite Hc. reflexivity. }
  step_lift Hidx. step_lift Hsize.
  destruct (choice_no_replace_ok idx size s1 Hrange)
    as (imp & s2 & Himp & Limp & Hin).
  step_with Himp.
  assert (Himp_lt : Forall (fun i => i < Z.to_nat z) imp).
  { eapply Forall_impl; [|exact Hin]. cbn. intros i Hi.
    pose proof (positions_bound (fun b : bool => b) 0
                  (map (fun x => (x =? 1)%Z) ch)) as Hb.
    rewrite Forall_forall in Hb. apply Hb in Hi.
    rewrite length_map in Hi. lia. }
  destruct (for_each_ok (fun i => i < Z.to_nat z)
              (fun p : list float => length p = Z.to_nat z) worsen_past)
    with (l := imp) (acc := Np.vadd a noise) (s := s2)
    as (past & s3 & Hloop & Lpast).
  { intros i acc s0 Hi Hacc. apply worsen_past_ok; assumption. }
  { exact Himp_lt. }
  { unfold Np.vadd. rewrite map2_length. lia. }
  step_with Hloop.
  assert (Lht : length (Np.vsub (map (fun x => (x / 2)%float) (Np.vadd cw ex))
                          past) = Z.to_nat z).
  { unfold Np.vsub, Np.vadd. rewrite map2_length, length_map, map2_length. lia. }
  step_set. eexists _, imp, s3. split; [reflexivity|]. split; assumption.
Qed.

Lemma list_set_middle {A} (pre : list A) b t v :
  list_set (pre ++ b :: t) (length pre) v = pre ++ v :: t.
Proof. induction pre as [|h p IH]; cbn; [reflexivity|]. rewrite IH. reflexivity. Qed.

(** One iteration of the exam-time loop on the row after [pre]. *)
Lemma skew_exam_time_eq data pre b t s :
  skew_exam_time (length pre)
    (with_col data "exam_time_std" (FloatCol (pre ++ b :: t))) s
  = match skewed_time b s with
    | Ok (v, s') =>
        Ok (with_col data "exam_time_std" (FloatCol (pre ++ v :: t)), s')
    | Err e => Err e
    end.
Proof.
  unfold skew_exam_time, skewed_time, random, uniform, bind, ret.
  destruct (rng_random s) as [u1 s1].
  destruct (u1 <? 0.4)%float.
  - destruct (rng_uniform 1.5 3 s1) as [v s2].
    rewrite loc_set_with_col, list_set_middle. reflexivity.
  - destruct (rng_random s1) as [u2 s2].
    destruct (u2 <? 0.7)%float; [|reflexivity].
    destruct (rng_uniform 1.5 3 s2) as [v s3].
    rewrite loc_set_with_col, list_set_middle. reflexivity.
Qed.

Lemma exam_time_loop data (mask : list bool) :
  forall pre base s, length base = length mask ->
  for_each (positions (fun b : bool => b) (length pre) mask) skew_exam_time
    (with_col data "exam_time_std" (FloatCol (pre ++ base))) s
  = (col <- exam_times mask base ;;
     ret (with_col data "exam_time_std" (FloatCol (pre ++ col)))) s.
Proof.
  induction mask as [|c mask IH]; intros pre base s Hlen.
  - destruct base; [reflexivity | discriminate].
  - destruct base as [|b base]; [discriminate|]. cbn in Hlen.
    assert (Hstep : forall v s1,
               for_each (positions (fun b0 : bool => b0) (S (length pre)) mask)
                 skew_exam_time
                 (with_col data "exam_time_std" (FloatCol (pre ++ v :: base))) s1
               = (col <- exam_times mask base ;;
                  ret (with_col data "exam_time_std"
                         (FloatCol (pre ++ v :: col)))) s1).
    { intros v s1.
      replace (S (length pre)) with (length (pre ++ [v]))
        by (rewrite length_app; cbn; lia).
      replace (pre ++ v :: base) with ((pre ++ [v]) ++ base)
        by (rewrite <- app_assoc; reflexivity).
      rewrite IH by lia. unfold bind, ret.
      destruct (exam_times mask base s1) as [[col s2]|e]; [|reflexivity].
      rewrite <- app_assoc. reflexivity. }
    unfold exam_times. cbn [positions combine map_m fst snd].
    fold (exam_times mask base).
    destruct c.
    + cbn [for_each]. unfold bind. rewrite skew_exam_time_eq.
      destruct (skewed_time b s) as [[v s1]|e]; [|reflexivity].
      rewrite Hstep. unfold bind, ret.
      destruct (exam_times mask base s1) as [[col s2]|e]; reflexivity.
    + rewrite Hstep. unfold bind, ret.
      destruct (exam_times mask base s) as [[col s2]|e]; reflexivity.
Qed.

Lemma skewed_time_total b s : exists v s', skewed_time b s = Ok (v, s').
Proof.
  unfold skewed_time, random, uniform, bind, ret.
  destruct (rng_random s) as [u1 s1].
  destruct (u1 <? 0.4)%float.
  - destruct (rng_uniform 1.5 3 s1) as [v s2]. eauto.
  - destruct (rng_random s1) as [u2 s2].
    destruct (u2 <? 0.7)%float; [|eauto].
    destruct (rng_uniform 1.5 3 s2) as [v s3]. eauto.
Qed.

Lemma exam_times_total mask :
  forall base s, exists col s',
    exam_times mask base s = Ok (col, s')
    /\ length col = Nat.min (length mask) (length base).
Proof.
  induction mask as [|c mask IH]; intros base s.
  - exists [], s. split; reflexivity.
  - destruct base as [|b base]; [exists [], s; split; reflexivity|].
    unfold exam_times. cbn [combine map_m fst snd]. fold (exam_times mask base).
    assert (Hhead : exists v s1,
               (if c then skewed_time b else ret b) s = Ok (v, s1)).
    { destruct c; [apply skewed_time_total | exists b, s; reflexivity]. }
    destruct Hhead as (v & s1 & Hv). step_with Hv.
    destruct (IH base s1) as (col & s2 & Hcol & Lcol). step_with Hcol.
    exists (v :: col), s2. split; [reflexivity|]. cbn. lia.
Qed.

Lemma exam_time_block_eq z data mask s :
  (0 <= z)%Z -> nrows data = Z.to_nat z -> length mask = Z.to_nat z ->
  exam_time_block z (positions (fun b : bool => b) 0 mask) data s
  = (base <- normal_n 0 1 z ;;
     col <- exam_times mask base ;;
     ret (with_col data "exam_time_std" (FloatCol col))) s.
Proof.
  intros Hz Hn Lm. unfold exam_time_block.
  destruct (normal_n_ok 0 1 z s Hz) as (base & s1 & Hbase & Lb).
  rewrite !(bind_ok _ _ _ _ _ Hbase). step_set.
  apply (exam_time_loop data mask [] base s1). lia.
Qed.

Lemma exam_time_block_ok z data mask s :
  (0 <= z)%Z -> nrows data = Z.to_nat z -> length mask = Z.to_nat z ->
  exists et s',
    exam_time_block z (positions (fun b : bool => b) 0 mask) data s
    = Ok (with_col data "exam_time_std" (FloatCol et), s')
    /\ length et = Z.to_nat z.
Proof.
  intros Hz Hn Lm. rewrite exam_time_block_eq by assumption.
  destruct (normal_n_ok 0 1 z s Hz) as (base & s1 & Hbase & Lb).
  step_with Hbase.
  destruct (exam_times_total mask base s1) as (col & s2 & Hcol & Lcol).
  step_with Hcol. exists col, s2. split; [reflexivity | lia].
Qed.

(** ** Peer comparison *)

Lemma insert_length x l : length (Np.insert x l) = S (length l).
Proof.
  induction l as [|y t IH]; cbn [Np.insert length]; [reflexivity|].
  destruct ((x <=? y)%float || PrimFloat.is_nan y); cbn [length];
    [reflexivity | rewrite IH; reflexivity].
Qed.

Lemma sort_length l : length (Np.sort l) = length l.
Proof.
  unfold Np.sort. induction l as [|x t IH]; cbn [fold_right length];
    [reflexivity|].
  rewrite insert_length, IH. reflexivity.
Qed.

(** A percentage between 0 and 100 of an array that is not empty has a
    percentile. *)
Lemma percentile_ok a q :
  ((0 <=? q / 100)%float && (q / 100 <=? 1)%float) = true ->
  a <> [] -> exists p, Np.percentile a q = Ok p.
Proof.
  intros Hq Ha. unfold Np.percentile. rewrite Hq. cbn [negb].
  pose proof (sort_length a) as Hl.
  destruct (Np.sort a) as [|x0 rest].
  - destruct a; [congruence | discriminate].
  - cbv zeta. destruct (PrimFloat.is_nan _); eexists; reflexivity.
Qed.

Lemma percentile_empty q :
  ((0 <=? q / 100)%float && (q / 100 <=? 1)%float) = true ->
  Np.percentile [] q = Err IndexError.
Proof. intros Hq. unfold Np.percentile. rewrite Hq. reflexivity. Qed.

Lemma digitize_le bins x : Np.digitize bins x <= length bins.
Proof.
  unfold Np.digitize. destruct (PrimFloat.is_nan x); [lia|].
  apply filter_length_le.
Qed.

(** Every row is a member of its own group. *)
Lemma group_members_own groups ex i g e :
  nth_error groups i = Some g -> nth_error ex i = Some e ->
  In e (group_members groups ex g).
Proof.
  unfold group_members. revert ex i.
  induction groups as [|g0 groups IH]; intros ex [|i]; cbn; try discriminate.
  - intros [= ->]. destruct ex as [|e0 ex]; [discriminate|].
    intros [= ->]. cbn. rewrite Nat.eqb_refl. left. reflexivity.
  - intros Hg. destruct ex as [|e0 ex]; [discriminate|]. cbn. intros He.
    destruct (Nat.eqb g g0); [right|]; eapply IH; eassumption.
Qed.

Lemma three_means_get groups ex g :
  g < 3 ->
  dict_get (three_means groups ex) g
  = Ok (Pd.mean (group_members groups ex g)).
Proof.
  intros Hg. destruct g as [|[|[|g]]]; try reflexivity. lia.
Qed.

Lemma peer_loop data groups avg ex n :
  df_lookup "exam_raw" (cols data) = Some (FloatCol ex) ->
  length ex = n -> length groups = n ->
  (forall g, In g groups -> exists m, dict_get avg g = Ok m) ->
  forall len j c s, j + len <= n -> length c = n ->
  exists c',
    for_each (seq j len) (peer_row groups avg)
      (with_col data "peer_comparison" (FloatCol c)) s
    = Ok (with_col data "peer_comparison" (FloatCol c'), s)
    /\ length c' = n
    /\ forall i,
         nth_error c' i =
         if (Nat.leb j i && Nat.ltb i (j + len))%bool
         then nth_error (map2 (fun g e => (e - expected_score avg g)%float)
                           groups ex) i
         else nth_error c i.
Proof.
  intros Hex Lex Lg Havg.
  induction len as [|len IH]; intros j c s Hj Lc.
  - exists c. split; [reflexivity|]. split; [exact Lc|].
    intros i. destruct (Nat.leb_spec j i), (Nat.ltb_spec i (j + 0));
      cbn [andb]; try reflexivity; lia.
  - cbn [seq for_each].
    destruct (nth_error_some groups j) as [g Hg]; [lia|].
    destruct (nth_error_some ex j) as [e He]; [lia|].
    destruct (Havg g) as [m Hm]; [eapply nth_error_In; eassumption|].
    assert (Hbody : peer_row groups avg j
                      (with_col data "peer_comparison" (FloatCol c)) s
                    = Ok (with_col data "peer_comparison"
                            (FloatCol (list_set c j (e - m)%float)), s)).
    { unfold peer_row. rewrite Hg. step_lift (eq_refl (Ok g)).
      step_lift Hm.
      assert (Hloc : Pd.loc_float
                       (with_col data "peer_comparison" (FloatCol c)) j
                       "exam_raw" = Ok e).
      { eapply loc_float_ok; [|exact He].
        rewrite lookup_with_col_neq by discriminate. exact Hex. }
      step_lift Hloc. unfold ret. rewrite loc_set_with_col. reflexivity. }
    step_with Hbody.
    destruct (IH (S j) (list_set c j (e - m)%float) s) as (c' & Hc' & Lc' & Hnth).
    { lia. } { rewrite list_set_length. exact Lc. }
    exists c'. split; [exact Hc'|]. split; [exact Lc'|].
    intros i. rewrite Hnth, nth_error_list_set.
    assert (Htarget : nth_error
                        (map2 (fun g e => (e - expected_score avg g)%float)
                           groups ex) j = Some (e - m)%float).
    { erewrite nth_error_map2 by eassumption.
      unfold expected_score. rewrite Hm. reflexivity. }
    destruct (Nat.eqb_spec j i) as [->|Hne].
    + destruct (Nat.leb_spec (S i) i); [lia|]. cbn [andb].
      destruct (Nat.leb_spec i i); [|lia].
      destruct (Nat.ltb_spec i (i + S len)); [|lia]. cbn [andb].
      destruct (Nat.ltb_spec i (length c)); [|lia].
      symmetry. exact Htarget.
    + destruct (Nat.leb_spec (S j) i), (Nat.leb_spec j i),
        (Nat.ltb_spec i (S j + len)), (Nat.ltb_spec i (j + S len));
        cbn [andb]; try reflexivity; lia.
Qed.

(** The peer-comparison block: the tertile cut points exist, every row falls
    in group 0, 1 or 2, and its value is its exam score minus the mean of its
    group.  The block draws nothing. *)
Lemma peer_comparison_block_ok z data a ex s :
  (1 <= z)%Z -> nrows data = Z.to_nat z ->
  df_lookup "ability" (cols data) = Some (FloatCol a) ->
  length a = Z.to_nat z ->
  df_lookup "exam_raw" (cols data) = Some (FloatCol ex) ->
  length ex = Z.to_nat z ->
  exists p33 p66,
    Np.percentile a 33 = Ok p33 /\ Np.percentile a 66 = Ok p66 /\
    let groups := map (Np.digitize [p33; p66]) a in
    let avg := three_means groups ex in
    peer_comparison_block z data s
    = Ok (with_col data "peer_comparison"
            (FloatCol (map2 (fun g e => (e - expected_score avg g)%float)
                         groups ex)),
          groups, avg, s).
Proof.
  intros Hz Hn Ha La Hex Lex.
  assert (Hne : a <> []) by (destruct a; [cbn in La; lia | discriminate]).
  destruct (percentile_ok a 33 eq_refl Hne) as [p33 H33].
  destruct (percentile_ok a 66 eq_refl Hne) as [p66 H66].
  exists p33, p66. split; [exact H33|]. split; [exact H66|].
  intros groups avg. unfold peer_comparison_block.
  step_lift (get_float_ok _ _ _ Ha). step_lift H33. step_lift H66.
  step_lift (get_float_ok _ _ _ Ha). fold groups.
  assert (Hmeans : map_m (group_mean data groups) (seq 0 3) s = Ok (avg, s)).
  { cbn [seq map_m]. unfold group_mean, bind, lift, ret.
    rewrite (get_float_ok _ _ _ Hex). reflexivity. }
  step_with Hmeans. unfold Pd.set_scalar.
  destruct (peer_loop data groups avg ex (Z.to_nat z) Hex Lex) with
    (len := Z.to_nat z) (j := 0) (c := repeat 0%float (nrows data)) (s := s)
    as (pc & Hloop & Lpc & Hnth).
  { unfold groups. rewrite length_map. exact La. }
  { intros g Hg. unfold groups in Hg. apply in_map_iff in Hg as (x & <- & _).
    eexists. apply three_means_get.
    pose proof (digitize_le [p33; p66] x) as Hle. cbn in Hle. lia. }
  { lia. } { rewrite repeat_length. exact Hn. }
  unfold Py.range. step_with Hloop. unfold ret.
  replace pc with (map2 (fun g e => (e - expected_score avg g)%float) groups ex);
    [reflexivity|].
  apply nth_error_ext. intros i. rewrite Hnth.
  destruct (Nat.ltb_spec i (0 + Z.to_nat z)); cbn [Nat.leb andb]; [reflexivity|].
  transitivity (@None float).
  - apply nth_error_None. rewrite map2_length. lia.
  - symmetry. apply nth_error_None. rewrite repeat_length. lia.
Qed.

(** With no record the percentile has nothing to interpolate. *)
Lemma peer_comparison_block_empty z data s :
  df_lookup "ability" (cols data) = Some (FloatCol []) ->
  peer_comparison_block z data s = Err IndexError.
Proof.
  intros Ha. unfold peer_comparison_block.
  step_lift (get_float_ok _ _ _ Ha). reflexivity.
Qed.

(** The z-score block. *)
Lemma z_score_block_ok data cw ex s :
  df_lookup "coursework_raw" (cols data) = Some (FloatCol cw) ->
  length cw = nrows data ->
  df_lookup "exam_raw" (cols data) = Some (FloatCol ex) ->
  length ex = nrows data ->
  z_score_block data s
  = Ok (with_col
          (with_col (with_col data "coursework_z" (FloatCol (z_scores cw)))
             "exam_z" (FloatCol (z_scores ex)))
          "z_diff" (FloatCol (Np.vsub (z_scores cw) (z_scores ex))), s).
Proof.
  intros Hcw Lcw Hex Lex. unfold z_score_block.
  step_lift (get_float_ok _ _ _ Hcw).
  assert (L1 : length (z_scores cw) = nrows data)
    by (unfold z_scores; rewrite length_map; exact Lcw).
  assert (L2 : length (z_scores ex) = nrows data)
    by (unfold z_scores; rewrite length_map; exact Lex).
  step_set.
  assert (Hex1 : df_lookup "exam_raw"
                   (cols (with_col data "coursework_z" (FloatCol (z_scores cw))))
                 = Some (FloatCol ex)).
  { rewrite lookup_with_col_neq by discriminate. exact Hex. }
  step_lift (get_float_ok _ _ _ Hex1). step_set.
  assert (Hcz : df_lookup "coursework_z"
                  (cols (with_col
                           (with_col data "coursework_z" (FloatCol (z_scores cw)))
                           "exam_z" (FloatCol (z_scores ex))))
                = Some (FloatCol (z_scores cw))).
  { rewrite lookup_with_col_neq by discriminate. apply lookup_with_col_eq. }
  step_lift (get_float_ok _ _ _ Hcz).
  assert (Hez : df_lookup "exam_z"
                  (cols (with_col
                           (with_col data "coursework_z" (FloatCol (z_scores cw)))
                           "exam_z" (FloatCol (z_scores ex))))
                = Some (FloatCol (z_scores ex))) by apply lookup_with_col_eq.
  step_lift (get_float_ok _ _ _ Hez).
  step_set. reflexivity.
Qed.

Lemma score_variance_row_ok data a ch n i acc s :
  df_lookup "ability" (cols data) = Some (FloatCol a) -> length a = n ->
  df_lookup "cheater" (cols data) = Some (IntCol ch) -> length ch = n ->
  df_lookup "score_variance" (cols data) = None ->
  nrows data = n -> i < n ->
  acc = data \/ (exists c, acc = with_col data "score_variance" (FloatCol c)
                           /\ length c = n) ->
  exists c' s',
    score_variance_row i acc s
    = Ok (with_col data "score_variance" (FloatCol c'), s')
    /\ length c' = n.
Proof.
  intros Ha La Hc Lc Hsv Hn Hi Hacc.
  destruct (nth_error_some a i) as [x Hx]; [lia|].
  destruct (nth_error_some ch i) as [l Hl]; [lia|].
  assert (Ha' : df_lookup "ability" (cols acc) = Some (FloatCol a)).
  { destruct Hacc as [->|(c & -> & _)]; [exact Ha|].
    rewrite lookup_with_col_neq by discriminate. exact Ha. }
  assert (Hc' : df_lookup "cheater" (cols acc) = Some (IntCol ch)).
  { destruct Hacc as [->|(c & -> & _)]; [exact Hc|].
    rewrite lookup_with_col_neq by discriminate. exact Hc. }
  assert (Hset : forall v, exists c',
             Pd.loc_set acc i "score_variance" v
             = with_col data "score_variance" (FloatCol c') /\ length c' = n).
  { intros v. destruct Hacc as [->|(c & -> & Lcc)].
    - unfold Pd.loc_set. rewrite Hsv.
      eexists. split; [reflexivity|].
      rewrite list_set_length, repeat_length. exact Hn.
    - rewrite loc_set_with_col. eexists. split; [reflexivity|].
      rewrite list_set_length. exact Lcc. }
  assert (H8 : (0 <= 8)%Z) by lia.
  unfold score_variance_row.
  step_lift (loc_int_ok _ _ _ _ _ Hc' Hl).
  assert (Hdraw : forall loc scale s0, exists v s1,
             (a0 <- lift (Pd.loc_float acc i "ability") ;;
              noise <- normal_n loc scale 8 ;;
              ret (map (fun x0 => (a0 + x0)%float) noise)) s0 = Ok (v, s1)).
  { intros loc scale s0. step_lift (loc_float_ok _ _ _ _ _ Ha' Hx).
    destruct (normal_n_ok loc scale 8 s0 H8) as (noise & s1 & Hnoise & _).
    step_with Hnoise. eexists _, _. reflexivity. }
  assert (Hass : exists v s1,
             (if value_eq_int (VInt l) 1
              then u <- random ;;
                   (if (u <? 0.7)%float
                    then a0 <- lift (Pd.loc_float acc i "ability") ;;
                         noise <- normal_n 1.2 0.3 8 ;;
                         ret (map (fun x0 => (a0 + x0)%float) noise)
                    else a0 <- lift (Pd.loc_float acc i "ability") ;;
                         noise <- normal_n 0 1 8 ;;
                         ret (map (fun x0 => (a0 + x0)%float) noise))
              else a0 <- lift (Pd.loc_float acc i "ability") ;;
                   noise <- normal_n 0 1 8 ;;
                   ret (map (fun x0 => (a0 + x0)%float) noise)) s = Ok (v, s1)).
  { destruct (value_eq_int (VInt l) 1); [|apply Hdraw].
    unfold random, bind at 1. destruct (rng_random s) as [u s0].
    destruct (u <? 0.7)%float; apply Hdraw. }
  destruct Hass as (v & s1 & Hv). step_with Hv.
  destruct (Hset (Np.std v)) as (c' & Hc'' & Lc').
  exists c', s1. unfold ret. rewrite Hc''. split; [reflexivity | exact Lc'].
Qed.

(** The score-variance loop over at least one record adds one column. *)
Lemma score_variance_loop_ok z data a ch s :
  (1 <= z)%Z -> nrows data = Z.to_nat z ->
  df_lookup "ability" (cols data) = Some (FloatCol a) ->
  length a = Z.to_nat z ->
  df_lookup "cheater" (cols data) = Some (IntCol ch) ->
  length ch = Z.to_nat z ->
  df_lookup "score_variance" (cols data) = None ->
  exists sc s',
    for_each (Py.range z) score_variance_row data s
    = Ok (with_col data "score_variance" (FloatCol sc), s')
    /\ length sc = Z.to_nat z.
Proof.
  intros Hz Hn Ha La Hc Lc Hsv.
  pose proof (range_bound z) as Hb. unfold Py.range in *.
  destruct (Z.to_nat z) as [|n] eqn:En; [lia|].
  cbn [seq] in *. apply Forall_cons_iff in Hb as [H0 Hrest]. cbn [for_each].
  destruct (score_variance_row_ok data a ch (S n) 0 data s)
    as (c1 & s1 & H1 & L1); auto.
  step_with H1.
  destruct (for_each_ok (fun i => i < S n)
              (fun acc => exists c, acc = with_col data "score_variance" (FloatCol c)
                                    /\ length c = S n)
              score_variance_row) with
    (l := seq 1 n) (acc := with_col data "score_variance" (FloatCol c1)) (s := s1)
    as (acc & s2 & Hloop & c2 & -> & L2).
  { intros i acc0 s0 Hi Hacc.
    destruct (score_variance_row_ok data a ch (S n) i acc0 s0)
      as (c' & s' & H' & L'); auto.
    exists (with_col data "score_variance" (FloatCol c')), s'.
    split; [exact H'|]. exists c'. split; [reflexivity | exact L']. }
  { exact Hrest. }
  { exists c1. split; [reflexivity | exact L1]. }
  exists c2, s2. split; [exact Hloop | exact L2].
Qed.

(** ** The run up to the outlier detector *)

Lemma concat_full_partial m a0 l0 cw0 ex0 a1 l1 cw1 :
  Pd.concat
    {| nrows := m;
       cols := [("ability", FloatCol a0); ("cheater", IntCol l0);
                ("coursework_raw", FloatCol cw0); ("exam_raw", FloatCol ex0)] |}
    {| nrows := 0;
       cols := [("ability", FloatCol a1); ("cheater", IntCol l1);
                ("coursework_raw", FloatCol cw1)] |}
  = {| nrows := m + 0;
       cols := [("ability", FloatCol (a0 ++ a1)); ("cheater", IntCol (l0 ++ l1));
                ("coursework_raw", FloatCol (cw0 ++ cw1));
                ("exam_raw", FloatCol (ex0 ++ []))] |}.
Proof. reflexivity. Qed.

Lemma concat_full_full m k a0 l0 cw0 ex0 a1 l1 cw1 ex1 :
  Pd.concat
    {| nrows := m;
       cols := [("ability", FloatCol a0); ("cheater", IntCol l0);
                ("coursework_raw", FloatCol cw0); ("exam_raw", FloatCol ex0)] |}
    {| nrows := k;
       cols := [("ability", FloatCol a1); ("cheater", IntCol l1);
                ("coursework_raw", FloatCol cw1); ("exam_raw", FloatCol ex1)] |}
  = {| nrows := m + k;
       cols := [("ability", FloatCol (a0 ++ a1)); ("cheater", IntCol (l0 ++ l1));
                ("coursework_raw", FloatCol (cw0 ++ cw1));
                ("exam_raw", FloatCol (ex0 ++ ex1))] |}.
Proof. reflexivity. Qed.

(** The two frames and their concatenation: four columns, [n] rows, the
    labels of the non-cheaters followed by those of the cheaters. *)
Lemma frames_ok z kz r s nf :
  Py.float_of_int z = Ok nf -> Py.int (nf * r)%float = Ok kz ->
  (0 <= kz <= z)%Z ->
  exists types a cw ex s',
    make_data z r s
    = Ok ((kz, types,
           {| nrows := Z.to_nat z;
              cols := [("ability", FloatCol a);
                       ("cheater",
                        IntCol (labels_of (Z.to_nat z) (Z.to_nat kz)));
                       ("coursework_raw", FloatCol cw);
                       ("exam_raw", FloatCol ex)] |}), s')
    /\ length types = Z.to_nat kz
    /\ length a = Z.to_nat z /\ length cw = Z.to_nat z
    /\ length ex = Z.to_nat z.
Proof.
  intros Hnf Hk Hrange.
  unfold make_data, bind at 1, seed. step_lift Hnf. step_lift Hk.
  destruct (make_non_cheaters_ok (z - kz) (rng_seed 42))
    as (a0 & cw0 & ex0 & s1 & H0 & La0 & Lcw0 & Lex0); [lia|].
  step_with H0.
  destruct (make_cheaters_ok kz s1) as (a1 & cw1 & s2 & H1 & La1 & Lcw1); [lia|].
  step_with H1.
  destruct (choice_p_ok cheater_type_names kz [0.5; 0.3; 0.2]%float s2)
    as (types & s3 & Ht & Lt); [lia | discriminate | reflexivity |].
  step_with Ht.
  destruct (patterns_ok (Z.to_nat kz) a1 (repeat 1%Z (Z.to_nat kz)) cw1 types s3
              La1 Lcw1 Lt) as (df & s4 & Hp & Hdf).
  step_with Hp. unfold ret.
  assert (Hn : Z.to_nat (z - kz) + Z.to_nat kz = Z.to_nat z) by lia.
  assert (Hm : Z.to_nat (z - kz) = Z.to_nat z - Z.to_nat kz) by lia.
  unfold labels_of. rewrite <- Hm, <- Hn.
  destruct Hdf as [[Hk0 ->] | (Hpos & cw2 & ex2 & -> & Lcw2 & Lex2)].
  - rewrite Hk0 in La1, Lcw1 |- *. rewrite concat_full_partial.
    exists types, (a0 ++ a1), (cw0 ++ cw1), (ex0 ++ []), s4.
    repeat split; try reflexivity; rewrite ?length_app; cbn [length]; lia.
  - rewrite concat_full_full.
    exists types, (a0 ++ a1), (cw0 ++ cw2), (ex0 ++ ex2), s4.
    repeat split; try reflexivity; rewrite ?length_app; lia.
Qed.

(** The run up to the detector succeeds on at least one record when the two
    group sizes are not negative and the number of sudden improvers,
    [int(len(cheater_indices) * 0.6)], lies between zero and the number of
    cheaters.  It returns the frame [full_frame] over the labels
    [labels_of]. *)
Lemma prepare_ok z r s nf kz size :
  (1 <= z)%Z ->
  Py.float_of_int z = Ok nf -> Py.int (nf * r)%float = Ok kz ->
  (0 <= kz <= z)%Z ->
  Py.int (Py.float_of_nat (Z.to_nat kz) * 0.6)%float = Ok size ->
  (0 <= size <= kz)%Z ->
  exists types imp a cw ex sv ht et sc p33 p66 s',
    Np.percentile a 33 = Ok p33 /\ Np.percentile a 66 = Ok p66 /\
    let n := Z.to_nat z in
    let k := Z.to_nat kz in
    let groups := map (Np.digitize [p33; p66]) a in
    let avg := three_means groups ex in
    let pc := map2 (fun g e => (e - expected_score avg g)%float) groups ex in
    prepare z r s
    = Ok ((kz, types, seq (n - k) k, imp, groups, avg,
           full_frame n a (labels_of n k) cw ex sv ht et pc sc), s')
    /\ length types = k /\ length imp = Z.to_nat size
    /\ length a = n /\ length cw = n /\ length ex = n /\ length sv = n
    /\ length ht = n /\ length et = n /\ length sc = n.
Proof.
  intros Hz Hnf Hk Hrange Hsize Hsrange.
  destruct (frames_ok z kz r s nf Hnf Hk Hrange)
    as (types & a & cw & ex & s1 & Hd & Lt & La & Lcw & Lex).
  set (n := Z.to_nat z) in *. set (k := Z.to_nat kz) in *.
  assert (Lch : length (labels_of n k) = n).
  { unfold labels_of. rewrite length_app, !repeat_length. lia. }
  assert (Hidx : positions (fun b : bool => b) 0
                   (map (fun x => (x =? 1)%Z) (labels_of n k)) = seq (n - k) k)
    by apply positions_labels.
  assert (Hz0 : (0 <= z)%Z) by lia.
  unfold prepare. step_with Hd. cbv iota beta.
  set (d0 := {| nrows := n;
                cols := [("ability", FloatCol a);
                         ("cheater", IntCol (labels_of n k));
                         ("coursework_raw", FloatCol cw);
                         ("exam_raw", FloatCol ex)] |}).
  destruct (subject_variation_block_ok z d0 a (labels_of n k) s1)
    as (sv & s2 & Hsv & Lsv); try assumption; try reflexivity.
  step_with Hsv.
  destruct (historical_trend_block_ok z
              (with_col d0 "subject_variation" (FloatCol sv))
              a (labels_of n k) cw ex size s2)
    as (ht & imp & s3 & Hht & Lht & Limp); try assumption; try reflexivity.
  { rewrite Hidx, length_seq. exact Hsize. }
  { rewrite Hidx, length_seq. lia. }
  step_with Hht. cbv iota beta.
  destruct (exam_time_block_ok z
              (with_col (with_col d0 "subject_variation" (FloatCol sv))
                 "historical_trend" (FloatCol ht))
              (map (fun x => (x =? 1)%Z) (labels_of n k)) s3)
    as (et & s4 & Het & Let); try assumption; try reflexivity.
  { rewrite length_map. exact Lch. }
  step_with Het.
  destruct (peer_comparison_block_ok z
              (with_col
                 (with_col (with_col d0 "subject_variation" (FloatCol sv))
                    "historical_trend" (FloatCol ht))
                 "exam_time_std" (FloatCol et)) a ex s4)
    as (p33 & p66 & H33 & H66 & Hpc); try assumption; try reflexivity.
  cbv zeta in Hpc. step_with Hpc. cbv iota beta.
  match goal with
  | |- context [bind (z_score_block ?d) _ ?s] =>
      assert (Hzs := z_score_block_ok d cw ex s eq_refl Lcw eq_refl Lex)
  end.
  step_with Hzs.
  match goal with
  | |- context [bind (for_each (Py.range z) score_variance_row ?d) _ ?s] =>
      destruct (score_variance_loop_ok z d a (labels_of n k) s)
        as (sc & s5 & Hsc & Lsc); try assumption; try reflexivity
  end.
  step_with Hsc. unfold ret.
  exists types, imp, a, cw, ex, sv, ht, et, sc, p33, p66, s5.
  split; [exact H33|]. split; [exact H66|]. cbv zeta.
  rewrite Hidx. split; [reflexivity|].
  repeat split; assumption.
Qed.

(** *** The ways the run fails *)

Lemma make_data_float_err z r s e :
  Py.float_of_int z = Err e -> make_data z r s = Err e.
Proof.
  intros H. unfold make_data, bind at 1, seed.
  apply bind_err, lift_err, H.
Qed.

Lemma make_data_int_err z r s nf e :
  Py.float_of_int z = Ok nf -> Py.int (nf * r)%float = Err e ->
  make_data z r s = Err e.
Proof.
  intros Hnf H. unfold make_data, bind at 1, seed. step_lift Hnf.
  apply bind_err, lift_err, H.
Qed.

(** A negative group size makes the first draw of that group raise. *)
Lemma make_data_size_err z r s nf kz :
  Py.float_of_int z = Ok nf -> Py.int (nf * r)%float = Ok kz ->
  (kz < 0 \/ z < kz)%Z ->
  make_data z r s = Err ValueError.
Proof.
  intros Hnf Hk Hbad. unfold make_data, bind at 1, seed.
  step_lift Hnf. step_lift Hk.
  destruct (Z.ltb_spec (z - kz) 0) as [Hneg|Hpos].
  - apply bind_err, make_non_cheaters_neg, Hneg.
  - destruct (make_non_cheaters_ok (z - kz) (rng_seed 42) Hpos)
      as (a0 & cw0 & ex0 & s1 & H0 & _).
    step_with H0. apply bind_err, make_cheaters_neg. lia.
Qed.

Lemma historical_trend_block_size_err z data a ch cw ex s :
  (0 <= z)%Z ->
  df_lookup "ability" (cols data) = Some (FloatCol a) ->
  df_lookup "cheater" (cols data) = Some (IntCol ch) ->
  df_lookup "coursework_raw" (cols data) = Some (FloatCol cw) ->
  df_lookup "exam_raw" (cols data) = Some (FloatCol ex) ->
  let idx := positions (fun b : bool => b) 0 (map (fun x => (x =? 1)%Z) ch) in
  match Py.int (Py.float_of_nat (length idx) * 0.6)%float with
  | Err e => historical_trend_block z data s = Err e
  | Ok size =>
      (size < 0 \/ Z.of_nat (length idx) < size)%Z ->
      historical_trend_block z data s = Err ValueError
  end.
Proof.
  intros Hz Ha Hc Hcw Hex idx.
  assert (Hidx : Pd.index_where_eq data "cheater" 1 = Ok idx).
  { unfold Pd.index_where_eq, Pd.get_col. rewrite Hc. reflexivity. }
  destruct (normal_n_ok 0 0.5 z s Hz) as (noise & s1 & Hnoise & Ln).
  destruct (Py.int (Py.float_of_nat (length idx) * 0.6)%float) as [size|e] eqn:E.
  - intros Hbad. unfold historical_trend_block.
    step_lift (get_float_ok _ _ _ Ha). step_with Hnoise.
    step_lift (get_float_ok _ _ _ Hcw). step_lift (get_float_ok _ _ _ Hex).
    step_lift Hidx. step_lift E.
    apply bind_err. unfold choice_no_replace.
    destruct (Z.ltb_spec size 0); [reflexivity|].
    destruct (Z.ltb_spec (Z.of_nat (length idx)) size); [reflexivity | lia].
  - unfold historical_trend_block.
    step_lift (get_float_ok _ _ _ Ha). step_with Hnoise.
    step_lift (get_float_ok _ _ _ Hcw). step_lift (get_float_ok _ _ _ Hex).
    step_lift Hidx. apply bind_err, lift_err, E.
Qed.

Lemma prepare_make_data_err z r s e :
  make_data z r s = Err e -> prepare z r s = Err e.
Proof. intros H. unfold prepare. apply bind_err, H. Qed.

(** The run fails in the historical-trend block when the number of sudden
    improvers cannot be computed or is out of range. *)
Lemma prepare_size_err z r s nf kz :
  Py.float_of_int z = Ok nf -> Py.int (nf * r)%float = Ok kz ->
  (0 <= kz <= z)%Z ->
  match Py.int (Py.float_of_nat (Z.to_nat kz) * 0.6)%float with
  | Err e => prepare z r s = Err e
  | Ok size => (size < 0 \/ kz < size)%Z -> prepare z r s = Err ValueError
  end.
Proof.
  intros Hnf Hk Hrange.
  destruct (frames_ok z kz r s nf Hnf Hk Hrange)
    as (types & a & cw & ex & s1 & Hd & Lt & La & Lcw & Lex).
  set (n := Z.to_nat z) in *. set (k := Z.to_nat kz) in *.
  assert (Lch : length (labels_of n k) = n).
  { unfold labels_of. rewrite length_app, !repeat_length. lia. }
  assert (Hidx : positions (fun b : bool => b) 0
                   (map (fun x => (x =? 1)%Z) (labels_of n k)) = seq (n - k) k)
    by apply positions_labels.
  assert (Hz0 : (0 <= z)%Z) by lia.
  set (d0 := {| nrows := n;
                cols := [("ability", FloatCol a);
                         ("cheater", IntCol (labels_of n k));
                         ("coursework_raw", FloatCol cw);
                         ("exam_raw", FloatCol ex)] |}).
  destruct (subject_variation_block_ok z d0 a (labels_of n k) s1)
    as (sv & s2 & Hsv & Lsv); try assumption; try reflexivity.
  pose proof (historical_trend_block_size_err z
                (with_col d0 "subject_variation" (FloatCol sv))
                a (labels_of n k) cw ex s2 Hz0 eq_refl eq_refl eq_refl eq_refl)
    as Herr.
  cbv zeta in Herr. rewrite Hidx, length_seq in Herr.
  destruct (Py.int (Py.float_of_nat k * 0.6)%float) as [size|e].
  - intros Hbad. unfold prepare. step_with Hd. cbv iota beta. step_with Hsv.
    apply bind_err, Herr. lia.
  - unfold prepare. step_with Hd. cbv iota beta. step_with Hsv.
    apply bind_err, Herr.
Qed.

(** With no record at all the run fails at the percentiles. *)
Lemma prepare_empty r s nf :
  Py.float_of_int 0 = Ok nf -> Py.int (nf * r)%float = Ok 0%Z ->
  prepare 0 r s = Err IndexError.
Proof.
  intros Hnf Hk.
  destruct (frames_ok 0 0 r s nf Hnf Hk)
    as (types & a & cw & ex & s1 & Hd & Lt & La & Lcw & Lex); [lia|].
  cbn in La, Lcw, Lex, Lt.
  destruct a; [|discriminate]. destruct cw; [|discriminate].
  destruct ex; [|discriminate].
  change (Z.to_nat 0) with 0 in Hd. change (labels_of 0 0) with (@nil Z) in Hd.
  set (d0 := {| nrows := 0;
                cols := [("ability", FloatCol []); ("cheater", IntCol []);
                         ("coursework_raw", FloatCol []);
                         ("exam_raw", FloatCol [])] |}) in *.
  destruct (subject_variation_block_ok 0 d0 [] [] s1)
    as (sv & s2 & Hsv & Lsv); try reflexivity.
  destruct (historical_trend_block_ok 0
              (with_col d0 "subject_variation" (FloatCol sv))
              [] [] [] [] 0 s2)
    as (ht & imp & s3 & Hht & Lht & Limp); try reflexivity; try (cbn; lia).
  destruct (exam_time_block_ok 0
              (with_col (with_col d0 "subject_variation" (FloatCol sv))
                 "historical_trend" (FloatCol ht)) [] s3)
    as (et & s4 & Het & Let); try reflexivity.
  unfold prepare. step_with Hd. cbv iota beta. step_with Hsv.
  step_with Hht. cbv iota beta. cbn [positions map] in Het. step_with Het.
  apply bind_err, peer_comparison_block_empty. reflexivity.
Qed.

(** A run that returns went through every block: at least one record, both
    group sizes in range, and a valid number of sudden improvers. *)
Lemma prepare_inv z r s p s' :
  prepare z r s = Ok (p, s') ->
  (1 <= z)%Z /\
  exists nf kz size,
    Py.float_of_int z = Ok nf /\ Py.int (nf * r)%float = Ok kz /\
    (0 <= kz <= z)%Z /\
    Py.int (Py.float_of_nat (Z.to_nat kz) * 0.6)%float = Ok size /\
    (0 <= size <= kz)%Z.
Proof.
  intros Hrun.
  destruct (Py.float_of_int z) as [nf|e] eqn:Hnf.
  2:{ rewrite (prepare_make_data_err _ _ _ _ (make_data_float_err z r s e Hnf))
        in Hrun. discriminate. }
  destruct (Py.int (nf * r)%float) as [kz|e] eqn:Hk.
  2:{ rewrite (prepare_make_data_err _ _ _ _
                 (make_data_int_err z r s nf e Hnf Hk)) in Hrun. discriminate. }
  destruct (Z.ltb_spec kz 0) as [Hneg|Hk0].
  { rewrite (prepare_make_data_err _ _ _ _
               (make_data_size_err z r s nf kz Hnf Hk (or_introl Hneg)))
      in Hrun. discriminate. }
  destruct (Z.ltb_spec z kz) as [Hbig|Hkz].
  { rewrite (prepare_make_data_err _ _ _ _
               (make_data_size_err z r s nf kz Hnf Hk (or_intror Hbig)))
      in Hrun. discriminate. }
  assert (Hz : (1 <= z)%Z).
  { destruct (Z.ltb_spec z 1) as [Hz|Hz]; [|exact Hz].
    assert (z = 0%Z) by lia. subst z. assert (kz = 0%Z) by lia. subst kz.
    rewrite (prepare_empty r s nf Hnf Hk) in Hrun. discriminate. }
  split; [exact Hz|].
  pose proof (prepare_size_err z r s nf kz Hnf Hk (conj Hk0 Hkz)) as Hsz.
  destruct (Py.int (Py.float_of_nat (Z.to_nat kz) * 0.6)%float) as [size|e] eqn:Es.
  2:{ rewrite Hsz in Hrun. discriminate. }
  exists nf, kz, size. repeat split; try assumption; try lia.
  - destruct (Z.ltb_spec size 0) as [Hs|Hs]; [|exact Hs].
    rewrite Hsz in Hrun by (left; exact Hs). discriminate.
  - destruct (Z.ltb_spec kz size) as [Hs|Hs]; [|exact Hs].
    rewrite Hsz in Hrun by (right; exact Hs). discriminate.
Qed.

End BlockFacts.

(** ** The whole call *)

Section RunFacts.

Context {R : NumpyRandom} {D : OutlierDetector}.

(** From the frame [full_frame] on, the call is the detector, one length
    check and two projections. *)
Lemma finish_full n kz types imp a cw ex sv ht et sc p33 p66 s :
  finish (kz, types, seq (n - Z.to_nat kz) (Z.to_nat kz), imp,
          map (Np.digitize [p33; p66]) a,
          three_means (map (Np.digitize [p33; p66]) a) ex,
          full_frame n a (labels_of n (Z.to_nat kz)) cw ex sv ht et
            (peer_column p33 p66 a ex) sc) s
  = match fit_predict 0.2 42 (features_frame n cw ex sv ht sc) with
    | Ok labels =>
        if Nat.eqb (length labels) n
        then Ok (locals_of n kz types imp a cw ex sv ht et sc p33 p66 labels, s)
        else Err ValueError
    | Err e => Err e
    end.
Proof.
  unfold finish, anomaly_block.
  assert (Hsel : Pd.select
                   (full_frame n a (labels_of n (Z.to_nat kz)) cw ex sv ht et
                      (peer_column p33 p66 a ex) sc) features_for_anomaly
                 = Ok (features_frame n cw ex sv ht sc)) by reflexivity.
  unfold bind, lift. rewrite Hsel.
  destruct (fit_predict 0.2 42 (features_frame n cw ex sv ht sc))
    as [labels|e]; [|reflexivity].
  unfold Pd.set_col. cbn [col_len nrows full_frame].
  destruct (Nat.eqb (length labels) n) eqn:E; [|reflexivity].
  apply Nat.eqb_eq in E.
  unfold Pd.get_col. rewrite lookup_with_col_eq.
  cbn [col_len outlier_flags col_eq_int nrows with_col full_frame].
  rewrite !length_map, E, Nat.eqb_refl. reflexivity.
Qed.

(** The call on valid sizes: everything up to the detector succeeds, and the
    outcome is the detector's. *)
Lemma run_spec z r s nf kz size :
  (1 <= z)%Z ->
  Py.float_of_int z = Ok nf -> Py.int (nf * r)%float = Ok kz ->
  (0 <= kz <= z)%Z ->
  Py.int (Py.float_of_nat (Z.to_nat kz) * 0.6)%float = Ok size ->
  (0 <= size <= kz)%Z ->
  exists types imp a cw ex sv ht et sc p33 p66 s',
    let n := Z.to_nat z in
    Np.percentile a 33 = Ok p33 /\ Np.percentile a 66 = Ok p66
    /\ length types = Z.to_nat kz /\ length imp = Z.to_nat size
    /\ length a = n /\ length cw = n /\ length ex = n /\ length sv = n
    /\ length ht = n /\ length et = n /\ length sc = n
    /\ run z r s
       = match fit_predict 0.2 42 (features_frame n cw ex sv ht sc) with
         | Ok labels =>
             if Nat.eqb (length labels) n
             then Ok (locals_of n kz types imp a cw ex sv ht et sc p33 p66
                        labels, s')
             else Err ValueError
         | Err e => Err e
         end.
Proof.
  intros Hz Hnf Hk Hrange Hsize Hsrange.
  destruct (prepare_ok z r s nf kz size Hz Hnf Hk Hrange Hsize Hsrange)
    as (types & imp & a & cw & ex & sv & ht & et & sc & p33 & p66 & s' & H33
        & H66 & Hp & Lt & Li & La & Lcw & Lex & Lsv & Lht & Let & Lsc).
  cbv zeta in Hp.
  exists types, imp, a, cw, ex, sv, ht, et, sc, p33, p66, s'. cbv zeta.
  repeat (split; [assumption|]).
  unfold run. step_with Hp. apply finish_full.
Qed.

(** A call that returns: its locals are [locals_of] the values drawn and the
    labels the detector gave. *)
Lemma run_inv z r s l s' :
  run z r s = Ok (l, s') ->
  (1 <= z)%Z /\
  exists nf kz size types imp a cw ex sv ht et sc p33 p66 labels,
    let n := Z.to_nat z in
    Py.float_of_int z = Ok nf /\ Py.int (nf * r)%float = Ok kz
    /\ (0 <= kz <= z)%Z
    /\ Py.int (Py.float_of_nat (Z.to_nat kz) * 0.6)%float = Ok size
    /\ (0 <= size <= kz)%Z
    /\ Np.percentile a 33 = Ok p33 /\ Np.percentile a 66 = Ok p66
    /\ length types = Z.to_nat kz /\ length imp = Z.to_nat size
    /\ length a = n /\ length cw = n /\ length ex = n /\ length sv = n
    /\ length ht = n /\ length et = n /\ length sc = n
    /\ fit_predict 0.2 42 (features_frame n cw ex sv ht sc) = Ok labels
    /\ length labels = n
    /\ l = locals_of n kz types imp a cw ex sv ht et sc p33 p66 labels.
Proof.
  intros Hrun.
  assert (Hprep : exists p s1, prepare z r s = Ok (p, s1)).
  { unfold run in Hrun. apply bind_inv in Hrun as (p & s1 & Hp & _). eauto. }
  destruct Hprep as (p & s1 & Hp).
  destruct (prepare_inv z r s p s1 Hp)
    as (Hz & nf & kz & size & Hnf & Hk & Hrange & Hsize & Hsrange).
  split; [exact Hz|].
  destruct (run_spec z r s nf kz size Hz Hnf Hk Hrange Hsize Hsrange)
    as (types & imp & a & cw & ex & sv & ht & et & sc & p33 & p66 & s2 & H33
        & H66 & Lt & Li & La & Lcw & Lex & Lsv & Lht & Let & Lsc & Hspec).
  rewrite Hspec in Hrun.
  destruct (fit_predict 0.2 42 (features_frame (Z.to_nat z) cw ex sv ht sc))
    as [labels|e] eqn:Hfit; [|discriminate].
  destruct (Nat.eqb (length labels) (Z.to_nat z)) eqn:El; [|discriminate].
  apply Nat.eqb_eq in El. injection Hrun as Hl _.
  exists nf, kz, size, types, imp, a, cw, ex, sv, ht, et, sc, p33, p66, labels.
  cbv zeta. repeat (split; [assumption|]). symmetry. exact Hl.
Qed.

Lemma labels_of_length n k : k <= n -> length (labels_of n k) = n.
Proof.
  intros H. unfold labels_of. rewrite length_app, !repeat_length. lia.
Qed.

Lemma peer_column_length p33 p66 a ex :
  length a = length ex -> length (peer_column p33 p66 a ex) = length ex.
Proof.
  intros H. unfold peer_column. rewrite map2_length, length_map. lia.
Qed.

(** A call that returns a table: the table is [final_frame] over the labels
    [labels_of], and every column has one entry per record. *)
Lemma generate_inv z r s t s' :
  generate_realistic_cheating_data z r s = Ok (t, s') ->
  (1 <= z)%Z /\
  exists nf kz cw ex sv ht et pc sc labels,
    let n := Z.to_nat z in
    Py.float_of_int z = Ok nf /\ Py.int (nf * r)%float = Ok kz
    /\ (0 <= kz <= z)%Z
    /\ length cw = n /\ length ex = n /\ length sv = n /\ length ht = n
    /\ length et = n /\ length pc = n /\ length sc = n /\ length labels = n
    /\ t = final_frame n (labels_of n (Z.to_nat kz)) cw ex sv ht et pc sc labels.
Proof.
  intros Hgen. unfold generate_realistic_cheating_data in Hgen.
  apply bind_inv in Hgen as (l & s1 & Hrun & Hret).
  injection Hret as Ht _.
  destruct (run_inv z r s l s1 Hrun)
    as (Hz & nf & kz & size & types & imp & a & cw & ex & sv & ht & et & sc
        & p33 & p66 & labels & Hnf & Hk & Hrange & _ & _ & _ & _ & _ & _ & La
        & Lcw & Lex & Lsv & Lht & Let & Lsc & _ & Ll & Hl).
  split; [exact Hz|].
  exists nf, kz, cw, ex, sv, ht, et, (peer_column p33 p66 a ex), sc, labels.
  cbv zeta. repeat (split; [assumption|]).
  split; [rewrite peer_column_length; congruence|].
  split; [assumption|]. split; [assumption|].
  subst l. symmetry. exact Ht.
Qed.

(** ** The labels *)

Lemma labels_of_nth n k i :
  k <= n ->
  nth_error (labels_of n k) i =
  if Nat.ltb i (n - k) then Some 0%Z
  else if Nat.ltb i n then Some 1%Z else None.
Proof.
  intros Hk. unfold labels_of.
  destruct (Nat.ltb_spec i (n - k)) as [Hlt|Hge].
  - rewrite nth_error_app1 by (rewrite repeat_length; exact Hlt).
    apply nth_error_repeat. exact Hlt.
  - rewrite nth_error_app2 by (rewrite repeat_length; exact Hge).
    rewrite repeat_length.
    destruct (Nat.ltb_spec i n) as [Hin|Hout].
    + apply nth_error_repeat. lia.
    + apply nth_error_None. rewrite repeat_length. lia.
Qed.

Lemma count_ones n k :
  length (filter (fun b : bool => b)
            (map (fun x => (x =? 1)%Z) (labels_of n k))) = k.
Proof.
  unfold labels_of. rewrite map_app, filter_app, length_app, !map_repeat.
  cbn [Z.eqb].
  assert (H0 : forall m, filter (fun b : bool => b) (repeat false m) = []).
  { induction m; cbn; auto. }
  assert (H1 : forall m, filter (fun b : bool => b) (repeat true m)
                         = repeat true m).
  { induction m; cbn; [reflexivity | rewrite IHm; reflexivity]. }
  rewrite H0, H1, repeat_length. reflexivity.
Qed.

Lemma labels_binary n k : Forall (fun x => x = 0%Z \/ x = 1%Z) (labels_of n k).
Proof.
  unfold labels_of. apply Forall_app. split; apply Forall_forall; intros x Hx;
    apply repeat_spec in Hx; auto.
Qed.

Lemma count_zeros n k :
  count_occ Z.eq_dec (labels_of n k) 0%Z = n - k.
Proof.
  unfold labels_of. rewrite count_occ_app.
  rewrite count_occ_repeat_eq by reflexivity.
  rewrite count_occ_repeat_neq by discriminate. lia.
Qed.

(** ** The properties of the specification *)

(** C1.  Determinism: the call installs the seed 42 before anything else, so
    two calls with the same [n_samples] and [cheater_ratio] return the same
    outcome (the same table, or the same exception) whatever the state of the
    global random stream was when each was made.  The seed is the constant 42
    of the source, and the detector is given its own fixed [random_state]. *)
Theorem generate_deterministic z r s1 s2 :
  generate_realistic_cheating_data z r s1
  = generate_realistic_cheating_data z r s2.
Proof.
  unfold generate_realistic_cheating_data, run, prepare, make_data, bind, seed.
  reflexivity.
Qed.

(** C2 (amended).  Whenever the generator returns a table, the number of rows
    with [cheater = 1] is [int(n_samples * cheater_ratio)]: the binary64
    product truncated toward zero, not rounded.  Every other row has
    [cheater = 0]. *)
Theorem cheater_count_truncates z r s t s' :
  generate_realistic_cheating_data z r s = Ok (t, s') ->
  exists nf kz ch,
    Py.float_of_int z = Ok nf /\ Py.int (nf * r)%float = Ok kz
    /\ (0 <= kz <= z)%Z
    /\ Pd.get_col t "cheater" = Ok (IntCol ch)
    /\ length ch = Z.to_nat z
    /\ cheater_count t = Ok (Z.to_nat kz)
    /\ count_occ Z.eq_dec ch 0%Z = Z.to_nat (z - kz)
    /\ Forall (fun x => x = 0%Z \/ x = 1%Z) ch.
Proof.
  intros Hgen.
  destruct (generate_inv z r s t s' Hgen)
    as (Hz & nf & kz & cw & ex & sv & ht & et & pc & sc & labels & Hnf & Hk
        & Hrange & _ & _ & _ & _ & _ & _ & _ & _ & ->).
  exists nf, kz, (labels_of (Z.to_nat z) (Z.to_nat kz)).
  repeat (split; [assumption|]).
  split; [reflexivity|].
  split; [apply labels_of_length; lia|].
  split; [unfold cheater_count; cbn [Pd.get_col final_frame cols df_lookup
                                      String.eqb Ascii.eqb Bool.eqb col_eq_int];
          rewrite count_ones; reflexivity|].
  split; [rewrite count_zeros; lia | apply labels_binary].
Qed.

(** C3.  Whenever the generator returns a table, the table has exactly
    [n_samples] rows and exactly the ten columns [cheater],
    [subject_variation], [historical_trend], [exam_time_std],
    [peer_comparison], [coursework_z], [exam_z], [z_diff], [score_variance],
    [anomaly_score], each with one entry per row; [ability],
    [coursework_raw] and [exam_raw] are not among them. *)
Theorem table_shape z r s t s' :
  generate_realistic_cheating_data z r s = Ok (t, s') ->
  Z.of_nat (nrows t) = z
  /\ column_names t
     = ["cheater"; "subject_variation"; "historical_trend"; "exam_time_std";
        "peer_comparison"; "coursework_z"; "exam_z"; "z_diff";
        "score_variance"; "anomaly_score"]
  /\ Forall (fun kc => col_len (snd kc) = nrows t) (cols t)
  /\ ~ In "ability" (column_names t)
  /\ ~ In "coursework_raw" (column_names t)
  /\ ~ In "exam_raw" (column_names t).
Proof.
  intros Hgen.
  destruct (generate_inv z r s t s' Hgen)
    as (Hz & nf & kz & cw & ex & sv & ht & et & pc & sc & labels & Hnf & Hk
        & Hrange & Lcw & Lex & Lsv & Lht & Let & Lpc & Lsc & Ll & ->).
  assert (Lch : length (labels_of (Z.to_nat z) (Z.to_nat kz)) = Z.to_nat z)
    by (apply labels_of_length; lia).
  split; [cbn [final_frame nrows]; lia|].
  split; [reflexivity|].
  split.
  - unfold final_frame, z_scores, Np.vsub, outlier_flags.
    cbn [cols nrows col_eq_int].
    repeat constructor; cbn [snd col_len];
      rewrite ?length_map, ?map2_length, ?length_map; lia.
  - cbn. intuition discriminate.
Qed.

(** C7.  Whenever the generator returns a table, every row's [z_diff] is that
    row's [coursework_z] minus its [exam_z], as one binary64 subtraction. *)
Theorem z_diff_is_difference z r s t s' :
  generate_realistic_cheating_data z r s = Ok (t, s') ->
  exists cz ez zd,
    Pd.get_col t "coursework_z" = Ok (FloatCol cz)
    /\ Pd.get_col t "exam_z" = Ok (FloatCol ez)
    /\ Pd.get_col t "z_diff" = Ok (FloatCol zd)
    /\ length zd = nrows t
    /\ forall i, i < nrows t ->
         exists c e, nth_error cz i = Some c /\ nth_error ez i = Some e
                     /\ nth_error zd i = Some (c - e)%float.
Proof.
  intros Hgen.
  destruct (generate_inv z r s t s' Hgen)
    as (Hz & nf & kz & cw & ex & sv & ht & et & pc & sc & labels & Hnf & Hk
        & Hrange & Lcw & Lex & Lsv & Lht & Let & Lpc & Lsc & Ll & ->).
  exists (z_scores cw), (z_scores ex), (Np.vsub (z_scores cw) (z_scores ex)).
  assert (L1 : length (z_scores cw) = Z.to_nat z)
    by (unfold z_scores; rewrite length_map; exact Lcw).
  assert (L2 : length (z_scores ex) = Z.to_nat z)
    by (unfold z_scores; rewrite length_map; exact Lex).
  repeat (split; [reflexivity|]).
  split; [unfold Np.vsub; rewrite map2_length; cbn [final_frame nrows]; lia|].
  cbn [final_frame nrows]. intros i Hi.
  destruct (nth_error_some (z_scores cw) i) as [c Hc]; [lia|].
  destruct (nth_error_some (z_scores ex) i) as [e He]; [lia|].
  exists c, e. split; [exact Hc|]. split; [exact He|].
  unfold Np.vsub. apply nth_error_map2; assumption.
Qed.

(** C10.  Whenever the generator returns a table, its rows are grouped by
    label: with [k = int(n_samples * cheater_ratio)], the rows 0 to
    [n_samples - k - 1] have [cheater = 0] and the last [k] rows have
    [cheater = 1]. *)
Theorem labels_grouped z r s t s' :
  generate_realistic_cheating_data z r s = Ok (t, s') ->
  exists nf kz ch,
    Py.float_of_int z = Ok nf /\ Py.int (nf * r)%float = Ok kz
    /\ (0 <= kz <= z)%Z
    /\ nrows t = Z.to_nat z
    /\ Pd.get_col t "cheater" = Ok (IntCol ch)
    /\ forall i,
         (i < Z.to_nat z - Z.to_nat kz -> nth_error ch i = Some 0%Z)
         /\ (Z.to_nat z - Z.to_nat kz <= i < Z.to_nat z ->
             nth_error ch i = Some 1%Z).
Proof.
  intros Hgen.
  destruct (generate_inv z r s t s' Hgen)
    as (Hz & nf & kz & cw & ex & sv & ht & et & pc & sc & labels & Hnf & Hk
        & Hrange & _ & _ & _ & _ & _ & _ & _ & _ & ->).
  exists nf, kz, (labels_of (Z.to_nat z) (Z.to_nat kz)).
  repeat (split; [assumption|]).
  split; [reflexivity|]. split; [reflexivity|].
  intros i. rewrite labels_of_nth by lia. split; intros Hi.
  - destruct (Nat.ltb_spec i (Z.to_nat z - Z.to_nat kz)); [reflexivity | lia].
  - destruct (Nat.ltb_spec i (Z.to_nat z - Z.to_nat kz)); [lia|].
    destruct (Nat.ltb_spec i (Z.to_nat z)); [reflexivity | lia].
Qed.

Lemma generate_prepare_err z r s e :
  prepare z r s = Err e -> generate_realistic_cheating_data z r s = Err e.
Proof.
  intros H. unfold generate_realistic_cheating_data, run.
  apply bind_err, bind_err, H.
Qed.

(** Before the detector, [ValueError] has two sources: a product that is
    NaN, and a truncated product that is negative or exceeds [n_samples]. *)
Lemma prepare_value_error z r s :
  (z < 2 ^ 53)%Z ->
  prepare z r s = Err ValueError
  <-> exists nf,
        Py.float_of_int z = Ok nf
        /\ (Py.int (nf * r)%float = Err ValueError
            \/ exists kz, Py.int (nf * r)%float = Ok kz
                          /\ (kz < 0 \/ z < kz)%Z).
Proof.
  intros Hsmall.
  destruct (Py.float_of_int z) as [nf|e] eqn:Hnf.
  2:{ rewrite (prepare_make_data_err _ _ _ _ (make_data_float_err z r s e Hnf)).
      split; [|intros (nf & [=] & _)].
      intros [= ->]. unfold Py.float_of_int in Hnf.
      destruct (Prim2SF (Py.float_of_Z z)); discriminate. }
  destruct (Py.int (nf * r)%float) as [kz|e] eqn:Hk.
  2:{ rewrite (prepare_make_data_err _ _ _ _
                 (make_data_int_err z r s nf e Hnf Hk)).
      split.
      - intros [= ->]. exists nf. split; [reflexivity|]. left. exact Hk.
      - intros (nf' & [= <-] & [H|(kz & H & _)]); rewrite Hk in H;
          [injection H as ->; reflexivity | discriminate]. }
  destruct (Z.ltb_spec kz 0) as [Hneg|Hk0].
  { rewrite (prepare_make_data_err _ _ _ _
               (make_data_size_err z r s nf kz Hnf Hk (or_introl Hneg))).
    split; [|reflexivity]. intros _. exists nf. split; [reflexivity|].
    right. exists kz. split; [exact Hk | left; exact Hneg]. }
  destruct (Z.ltb_spec z kz) as [Hbig|Hkz].
  { rewrite (prepare_make_data_err _ _ _ _
               (make_data_size_err z r s nf kz Hnf Hk (or_intror Hbig))).
    split; [|reflexivity]. intros _. exists nf. split; [reflexivity|].
    right. exists kz. split; [exact Hk | right; exact Hbig]. }
  assert (Hno : ~ (exists nf0,
                     Ok nf = Ok nf0
                     /\ (Py.int (nf0 * r)%float = Err ValueError
                         \/ exists kz0, Py.int (nf0 * r)%float = Ok kz0
                                        /\ (kz0 < 0 \/ z < kz0)%Z))).
  { intros (nf0 & [= <-] & [H|(kz0 & H & Hbad)]); rewrite Hk in H;
      [discriminate|]. injection H as <-. lia. }
  split; [|intros H; contradiction].
  intros Herr. exfalso.
  destruct (Z.eqb_spec z 0) as [->|Hz].
  { assert (kz = 0%Z) by lia. subst kz.
    rewrite (prepare_empty r s nf Hnf Hk) in Herr. discriminate. }
  destruct (sample_size_ok kz) as (size & Es & Hs); [lia|].
  destruct (prepare_ok z r s nf kz size) as (types & imp & a & cw & ex & sv
    & ht & et & sc & p33 & p66 & s2 & _ & _ & Hp & _);
    try assumption; try lia.
  cbv zeta in Hp. rewrite Hp in Herr. discriminate.
Qed.

(** C4 (amended).  The generator has no validation step; every failure is
    the failure of an operation it calls, and the first one decides.
    - A float [n_samples] always raises: line 43 raises for a product that is
      NaN ([ValueError]) or infinite ([OverflowError]); otherwise the float
      size of the first draw raises [TypeError] on line 49.
    - An integer [n_samples] raises, in this order: at the conversion of
      [n_samples * cheater_ratio] to an integer ([OverflowError] for an
      [n_samples] no binary64 holds or an infinite product, [ValueError] for
      a product that is NaN); at a draw with a negative size, [ValueError],
      when [int(n_samples * cheater_ratio)] is negative or exceeds
      [n_samples]; at the percentile of an empty column, [IndexError], when
      [n_samples = 0]; at the choice of the sudden improvers, which cannot
      fail below [2^53] records; and at the outlier detector.
    So every [n_samples <= 0] raises.  For an integer [n_samples] from 1 up
    to [2^53] and a [cheater_ratio] in [0, 1] nothing raises before the
    detector: the truncated product lies in [0 .. n_samples].  A
    [cheater_ratio] outside [0, 1] raises only when the product is NaN or
    infinite or the truncated product leaves [0 .. n_samples]; before the
    detector, and below [2^53] records, [ValueError] is raised for a NaN
    product and for a truncated product out of range, and for nothing else.
    Otherwise the call fails only if the detector raises or returns a wrong
    number of labels. *)
Theorem error_profile n_samples r s :
  match n_samples with
  | Py.Float x =>
      generate_realistic_cheating_data_of n_samples r s
      = Err match Py.int (x * r)%float with
            | Err e => e
            | Ok _ => TypeError
            end
  | Py.Int z =>
      let call := generate_realistic_cheating_data_of n_samples r s in
      let detector_decides :=
        exists cw ex sv ht sc,
          match fit_predict 0.2 42
                  (features_frame (Z.to_nat z) cw ex sv ht sc)
          with
          | Err e => call = Err e
          | Ok labels =>
              if Nat.eqb (length labels) (Z.to_nat z)
              then is_ok call = true
              else call = Err ValueError
          end in
      (if (z <=? 0)%Z then is_ok call = false else True)
      /\ (if ((1 <=? z)%Z && (z <? 2 ^ 53)%Z
              && (0 <=? r)%float && (r <=? 1)%float)%bool
          then detector_decides else True)
      /\ (if (z <? 2 ^ 53)%Z
          then prepare z r s = Err ValueError
               <-> exists nf,
                     Py.float_of_int z = Ok nf
                     /\ (Py.int (nf * r)%float = Err ValueError
                         \/ exists kz, Py.int (nf * r)%float = Ok kz
                                       /\ (kz < 0 \/ z < kz)%Z)
          else True)
      /\ match Py.float_of_int z with
         | Err e => call = Err e
         | Ok nf =>
             match Py.int (nf * r)%float with
             | Err e => call = Err e
             | Ok kz =>
                 if ((kz <? 0) || (z <? kz))%Z then call = Err ValueError
                 else if (z =? 0)%Z then call = Err IndexError
                 else if (z <? 2 ^ 53)%Z then detector_decides
                 else
                   match Py.int (Py.float_of_nat (Z.to_nat kz) * 0.6)%float
                   with
                   | Err e => call = Err e
                   | Ok size =>
                       if ((size <? 0) || (kz <? size))%Z
                       then call = Err ValueError
                       else detector_decides
                   end
             end
         end
  end.
Proof.
  destruct n_samples as [z|x].
  2:{ cbn [generate_realistic_cheating_data_of]. unfold bind at 1, seed.
      unfold bind at 1, lift at 1.
      destruct (Py.int (x * r)%float) as [k|e]; reflexivity. }
  cbn [generate_realistic_cheating_data_of]. cbv zeta.
  assert (Hdet : forall nf kz size,
             (1 <= z)%Z ->
             Py.float_of_int z = Ok nf -> Py.int (nf * r)%float = Ok kz ->
             (0 <= kz <= z)%Z ->
             Py.int (Py.float_of_nat (Z.to_nat kz) * 0.6)%float = Ok size ->
             (0 <= size <= kz)%Z ->
             exists cw ex sv ht sc,
               match fit_predict 0.2 42
                       (features_frame (Z.to_nat z) cw ex sv ht sc) with
               | Err e => generate_realistic_cheating_data z r s = Err e
               | Ok labels =>
                   if Nat.eqb (length labels) (Z.to_nat z)
                   then is_ok (generate_realistic_cheating_data z r s) = true
                   else generate_realistic_cheating_data z r s
                        = Err ValueError
               end).
  { intros nf kz size Hz Hnf Hk Hrange Es Hs.
    destruct (run_spec z r s nf kz size) as
      (types & imp & a & cw & ex & sv & ht & et & sc & p33 & p66 & s2 & _
       & _ & _ & _ & _ & _ & _ & _ & _ & _ & _ & Hspec);
      try assumption.
    exists cw, ex, sv, ht, sc.
    unfold generate_realistic_cheating_data, bind. rewrite Hspec.
    destruct (fit_predict 0.2 42 (features_frame (Z.to_nat z) cw ex sv ht sc))
      as [labels|e]; [|reflexivity].
    destruct (Nat.eqb (length labels) (Z.to_nat z)); reflexivity. }
  split; [|split; [|split]].
  - destruct (Z.leb_spec z 0) as [Hz|Hz]; [|exact I].
    destruct (generate_realistic_cheating_data z r s) as [[t s']|e] eqn:Hgen;
      [|reflexivity].
    apply generate_inv in Hgen as [Hpos _]. lia.
  - destruct (Z.leb_spec 1 z) as [Hz1|_]; [|exact I].
    destruct (Z.ltb_spec z (2 ^ 53)) as [Hsmall|_]; [|exact I].
    destruct (0 <=? r)%float eqn:H0; [|exact I].
    destruct (r <=? 1)%float eqn:H1; [|exact I].
    cbn [andb].
    destruct (int_mul_ratio z r ltac:(lia) H0 H1) as (kz & Hk & Hrange).
    destruct (sample_size_ok kz) as (size & Es & Hs); [lia|].
    apply (Hdet (Py.float_of_Z z) kz size); try assumption.
    apply float_of_int_small. lia.
  - destruct (Z.ltb_spec z (2 ^ 53)) as [Hsmall|_]; [|exact I].
    apply prepare_value_error, Hsmall.
  - destruct (Py.float_of_int z) as [nf|e] eqn:Hnf.
    2:{ apply generate_prepare_err, prepare_make_data_err,
          make_data_float_err, Hnf. }
    destruct (Py.int (nf * r)%float) as [kz|e] eqn:Hk.
    2:{ eapply generate_prepare_err, prepare_make_data_err,
          make_data_int_err; eassumption. }
    destruct (Z.ltb_spec kz 0) as [Hneg|Hk0]; cbn [orb].
    { eapply generate_prepare_err, prepare_make_data_err,
        make_data_size_err; eauto. }
    destruct (Z.ltb_spec z kz) as [Hbig|Hkz].
    { eapply generate_prepare_err, prepare_make_data_err,
        make_data_size_err; eauto. }
    destruct (Z.eqb_spec z 0) as [->|Hz].
    { assert (kz = 0%Z) by lia. subst kz.
      eapply generate_prepare_err, prepare_empty; eassumption. }
    destruct (Z.ltb_spec z (2 ^ 53)) as [Hsmall|Hlarge].
    { destruct (sample_size_ok kz) as (size & Es & Hs); [lia|].
      apply (Hdet nf kz size); try assumption; try reflexivity; lia. }
    pose proof (prepare_size_err z r s nf kz Hnf Hk (conj Hk0 Hkz)) as Hsz.
    destruct (Py.int (Py.float_of_nat (Z.to_nat kz) * 0.6)%float)
      as [size|e] eqn:Es.
    2:{ apply generate_prepare_err, Hsz. }
    destruct (Z.ltb_spec size 0) as [Hs|Hs0]; cbn [orb].
    { apply generate_prepare_err, Hsz. left. exact Hs. }
    destruct (Z.ltb_spec kz size) as [Hs|Hs1].
    { apply generate_prepare_err, Hsz. right. exact Hs. }
    apply (Hdet nf kz size); try assumption; try reflexivity; lia.
Qed.




(** C6 (amended).  The exam-time step draws a standard-normal value for every
    record and then visits the cheaters in row order: with one uniform draw
    below 0.4 the value is replaced by minus a [uniform(1.5, 3)] draw;
    otherwise, with a second uniform draw below 0.7 (not 0.3), it is replaced
    by a [uniform(1.5, 3)] draw; otherwise it is left as it is.  The other
    rows keep their standard-normal value. *)
Theorem exam_time_step z data (is_cheater : list bool) s :
  (0 <= z)%Z -> nrows data = Z.to_nat z ->
  length is_cheater = Z.to_nat z ->
  exam_time_block z (positions (fun b : bool => b) 0 is_cheater) data s
  = (base <- normal_n 0 1 z ;;
     col <- exam_times is_cheater base ;;
     ret (with_col data "exam_time_std" (FloatCol col))) s
  /\ forall b s0,
       skewed_time b s0 =
       let (u1, s1) := rng_random s0 in
       if (u1 <? 0.4)%float
       then let (v, s2) := rng_uniform 1.5 3 s1 in Ok ((- v)%float, s2)
       else let (u2, s2) := rng_random s1 in
            if (u2 <? 0.7)%float
            then let (v, s3) := rng_uniform 1.5 3 s2 in Ok (v, s3)
            else Ok (b, s2).
Proof.
  intros Hz Hn Lm. split; [apply exam_time_block_eq; assumption|].
  intros b s0. unfold skewed_time, random, uniform, bind, ret.
  destruct (rng_random s0) as [u1 s1].
  destruct (u1 <? 0.4)%float.
  - destruct (rng_uniform 1.5 3 s1) as [v s2]. reflexivity.
  - destruct (rng_random s1) as [u2 s2].
    destruct (u2 <? 0.7)%float; [|reflexivity].
    destruct (rng_uniform 1.5 3 s2) as [v s3]. reflexivity.
Qed.

Lemma peer_column_nth p33 p66 a ex i x e :
  nth_error a i = Some x -> nth_error ex i = Some e ->
  let groups := map (Np.digitize [p33; p66]) a in
  let g := Np.digitize [p33; p66] x in
  nth_error groups i = Some g /\ g < 3
  /\ In e (group_members groups ex g)
  /\ dict_get (three_means groups ex) g = Ok (Pd.mean (group_members groups ex g))
  /\ nth_error (peer_column p33 p66 a ex) i
     = Some (e - Pd.mean (group_members groups ex g))%float.
Proof.
  intros Hx He groups g.
  assert (Hg : nth_error groups i = Some g).
  { unfold groups. rewrite nth_error_map, Hx. reflexivity. }
  assert (Hlt : g < 3).
  { pose proof (digitize_le [p33; p66] x) as H. cbn in H. unfold g. lia. }
  split; [exact Hg|]. split; [exact Hlt|].
  split; [eapply group_members_own; eassumption|].
  split; [apply three_means_get, Hlt|].
  unfold peer_column. fold groups.
  erewrite nth_error_map2 by eassumption.
  unfold expected_score. rewrite three_means_get by exact Hlt. reflexivity.
Qed.

(** C9.  At the boundary [cheater_ratio = 1.0], for every [n_samples] from
    1 up to [2^53] (the integers a binary64 holds exactly), the run up to the
    detector succeeds, every row is a cheater, and the peer comparison has a
    value for every row: the groups are computed from the ability column
    alone, every row falls in group 0, 1 or 2 and is a member of its own
    group, so the mean it is compared with divides by a positive count and
    is found in the dictionary. *)
Theorem all_cheaters_peer_comparison z s :
  (1 <= z < 2 ^ 53)%Z ->
  exists types idx imp groups avg d s' a ex pc p33 p66,
    prepare z 1.0 s = Ok ((z, types, idx, imp, groups, avg, d), s')
    /\ idx = seq 0 (Z.to_nat z)
    /\ nrows d = Z.to_nat z
    /\ Pd.get_col d "cheater" = Ok (IntCol (repeat 1%Z (Z.to_nat z)))
    /\ Pd.get_col d "ability" = Ok (FloatCol a)
    /\ Pd.get_col d "exam_raw" = Ok (FloatCol ex)
    /\ Pd.get_col d "peer_comparison" = Ok (FloatCol pc)
    /\ length pc = Z.to_nat z
    /\ Np.percentile a 33 = Ok p33 /\ Np.percentile a 66 = Ok p66
    /\ groups = map (Np.digitize [p33; p66]) a
    /\ forall i, i < Z.to_nat z ->
         exists g e,
           nth_error groups i = Some g /\ g < 3
           /\ nth_error ex i = Some e
           /\ In e (group_members groups ex g)
           /\ 1 <= length (group_members groups ex g)
           /\ dict_get avg g = Ok (Pd.mean (group_members groups ex g))
           /\ nth_error pc i
              = Some (e - Pd.mean (group_members groups ex g))%float.
Proof.
  intros Hrange.
  assert (Hz : (1 <= z)%Z) by lia.
  assert (Hnf : Py.float_of_int z = Ok (Py.float_of_Z z))
    by (apply float_of_int_small; lia).
  assert (Hk : Py.int (Py.float_of_Z z * 1.0)%float = Ok z)
    by (apply int_mul_one; lia).
  destruct (sample_size_ok z) as (size & Hsize & Hsrange); [lia|].
  destruct (prepare_ok z 1.0 s (Py.float_of_Z z) z size) as
    (types & imp & a & cw & ex & sv & ht & et & sc & p33 & p66 & s' & H33
     & H66 & Hp & Lt & Li & La & Lcw & Lex & Lsv & Lht & Let & Lsc);
    try assumption; try lia.
  cbv zeta in Hp.
  eexists types, _, imp, _, _, _, s', a, ex, (peer_column p33 p66 a ex), p33, p66.
  split; [exact Hp|].
  split; [rewrite Nat.sub_diag; reflexivity|].
  split; [reflexivity|].
  split.
  { unfold labels_of. rewrite Nat.sub_diag. reflexivity. }
  repeat (split; [reflexivity|]).
  split; [rewrite peer_column_length; congruence|].
  split; [exact H33|]. split; [exact H66|]. split; [reflexivity|].
  intros i Hi.
  destruct (nth_error_some a i) as [x Hx]; [lia|].
  destruct (nth_error_some ex i) as [e He]; [lia|].
  destruct (peer_column_nth p33 p66 a ex i x e Hx He)
    as (Hg & Hlt & Hin & Hget & Hpc).
  exists (Np.digitize [p33; p66] x), e.
  repeat (split; [assumption|]).
  split; [|split; assumption].
  destruct (group_members (map (Np.digitize [p33; p66]) a) ex
              (Np.digitize [p33; p66] x)); [contradiction | cbn; lia].
Qed.

End RunFacts.

Lemma Forall_list_set {A} (P : A -> Prop) (l : list A) i x :
  Forall P l -> P x -> Forall P (list_set l i x).
Proof.
  intros Hl Hx. revert i. induction Hl as [|h t Hh Ht IH]; intros [|i];
    cbn [list_set]; constructor; auto.
Qed.

(** ** What a block writes *)

Lemma writes_refl names d : writes names d d.
Proof. split; reflexivity. Qed.

Lemma writes_trans n1 n2 d1 d2 d3 :
  writes n1 d1 d2 -> writes n2 d2 d3 -> writes (n1 ++ n2) d1 d3.
Proof.
  intros [R1 H1] [R2 H2]. split; [congruence|].
  intros c Hc. rewrite H2, H1; [reflexivity| |];
    intros Hin; apply Hc, in_or_app; auto.
Qed.

Lemma writes_weaken n1 n2 d d' :
  incl n1 n2 -> writes n1 d d' -> writes n2 d d'.
Proof.
  intros Hi [R1 H1]. split; [exact R1|]. intros c Hc. apply H1.
  intros Hin. apply Hc, Hi, Hin.
Qed.

Lemma writes_with_col d name c : writes [name] d (with_col d name c).
Proof.
  split; [reflexivity|]. intros c0 Hc. apply lookup_with_col_neq.
  intros ->. apply Hc. left. reflexivity.
Qed.

Lemma writes_loc_set d i name x : writes [name] d (Pd.loc_set d i name x).
Proof. unfold Pd.loc_set. apply writes_with_col. Qed.

Lemma set_col_inv d name c d' :
  Pd.set_col d name c = Ok d' -> d' = with_col d name c /\ col_len c = nrows d.
Proof.
  unfold Pd.set_col. destruct (Nat.eqb_spec (col_len c) (nrows d)); [|discriminate].
  intros [= <-]. auto.
Qed.

Lemma lift_inv {S A} (r : result A) (s : S) a s' :
  lift r s = Ok (a, s') -> r = Ok a /\ s' = s.
Proof. unfold lift. destruct r; [|discriminate]. intros [= -> ->]. auto. Qed.

Lemma bind_lift_inv {S A B} (r : result A) (k : A -> M S B) s b s' :
  bind (lift r) k s = Ok (b, s') -> exists a, r = Ok a /\ k a s = Ok (b, s').
Proof.
  intros H. apply bind_inv in H as (a & s1 & H1 & H2).
  apply lift_inv in H1 as [-> ->]. eauto.
Qed.

Lemma ret_inv {S A} (a b : A) (s s' : S) : ret a s = Ok (b, s') -> b = a /\ s' = s.
Proof. unfold ret. intros [= -> ->]. auto. Qed.

(** A loop keeps what each of its rounds keeps. *)
Lemma for_each_inv {S A B} (I : B -> Prop) (l : list A)
  (body : A -> B -> M S B) :
  (forall x acc s acc' s',
      In x l -> I acc -> body x acc s = Ok (acc', s') -> I acc') ->
  forall acc s acc' s',
    I acc -> for_each l body acc s = Ok (acc', s') -> I acc'.
Proof.
  induction l as [|x rest IH]; intros Hbody acc s acc' s' Hacc Hrun.
  - apply ret_inv in Hrun as [-> _]. exact Hacc.
  - cbn [for_each] in Hrun. apply bind_inv in Hrun as (a1 & s1 & H1 & H2).
    eapply IH; [| |exact H2].
    + intros y a0 s0 a0' s0' Hy. apply Hbody. right. exact Hy.
    + eapply Hbody; [left; reflexivity | exact Hacc | exact H1].
Qed.

(** Peel the head of a sequence of steps in a hypothesis. *)
Ltac peel H :=
  first
    [ let a := fresh "v" in
      let E := fresh "E" in
      apply bind_lift_inv in H as (a & E & H)
    | let a := fresh "v" in
      let s := fresh "s" in
      let E := fresh "E" in
      apply bind_inv in H as (a & s & E & H) ].

Section Discipline.

Context {R : NumpyRandom} {D : OutlierDetector}.

Lemma subject_variation_block_inv z d s d' s' :
  subject_variation_block z d s = Ok (d', s') ->
  exists scores,
    d' = with_col d "subject_variation" (FloatCol (map Np.std scores))
    /\ length scores = nrows d.
Proof.
  intros H. unfold subject_variation_block in H.
  peel H. peel H. apply lift_inv in H as [H _].
  apply set_col_inv in H as [-> Hlen]. exists v0. split; [reflexivity|].
  cbn [col_len] in Hlen. rewrite length_map in Hlen. exact Hlen.
Qed.

Lemma historical_trend_block_writes z d s d' ci si s' :
  historical_trend_block z d s = Ok ((d', ci, si), s') ->
  writes ["historical_trend"] d d'.
Proof.
  intros H. unfold historical_trend_block in H.
  do 8 peel H. apply bind_lift_inv in H as (d1 & Eset & H).
  apply ret_inv in H as [[= -> -> ->] _].
  apply set_col_inv in Eset as [-> _]. apply writes_with_col.
Qed.

Lemma skew_exam_time_writes i d s d' s' :
  skew_exam_time i d s = Ok (d', s') -> writes ["exam_time_std"] d d'.
Proof.
  intros H. unfold skew_exam_time in H. peel H.
  destruct (v <? 0.4)%float.
  - peel H. apply ret_inv in H as [-> _]. apply writes_loc_set.
  - peel H. destruct (v0 <? 0.7)%float.
    + peel H. apply ret_inv in H as [-> _]. apply writes_loc_set.
    + apply ret_inv in H as [-> _]. apply writes_refl.
Qed.

Lemma writes_once name (d0 d d' : DataFrame) :
  writes [name] d0 d -> writes [name] d d' -> writes [name] d0 d'.
Proof.
  intros H1 H2. eapply writes_weaken; [|eapply writes_trans; eassumption].
  intros c [<-|[<-|[]]]; left; reflexivity.
Qed.

Lemma exam_time_block_writes z ci d s d' s' :
  exam_time_block z ci d s = Ok (d', s') -> writes ["exam_time_std"] d d'.
Proof.
  intros H. unfold exam_time_block in H. peel H. peel H.
  apply set_col_inv in E0 as [-> _].
  eapply (for_each_inv (writes ["exam_time_std"] d)); [| |exact H].
  - intros x acc t0 acc' t1 _ Hacc Hb.
    eapply writes_once; [exact Hacc | eapply skew_exam_time_writes, Hb].
  - apply writes_with_col.
Qed.

Lemma peer_row_writes g avg i d s d' s' :
  peer_row g avg i d s = Ok (d', s') -> writes ["peer_comparison"] d d'.
Proof.
  intros H. unfold peer_row in H. do 3 peel H.
  apply ret_inv in H as [-> _]. apply writes_loc_set.
Qed.

Lemma peer_comparison_block_writes z d s d' g avg s' :
  peer_comparison_block z d s = Ok ((d', g, avg), s') ->
  writes ["peer_comparison"] d d'.
Proof.
  intros H. unfold peer_comparison_block in H. do 6 peel H.
  apply ret_inv in H as [[= -> _ _] _].
  eapply (for_each_inv (writes ["peer_comparison"] d)); [| |exact E4].
  - intros x acc t0 acc' t1 _ Hacc Hb.
    eapply writes_once; [exact Hacc | eapply peer_row_writes, Hb].
  - unfold Pd.set_scalar. apply writes_with_col.
Qed.

Lemma z_score_block_writes d s d' s' :
  z_score_block d s = Ok (d', s') ->
  writes ["coursework_z"; "exam_z"; "z_diff"] d d'.
Proof.
  intros H. unfold z_score_block in H. do 6 peel H.
  apply lift_inv in H as [H _].
  apply set_col_inv in E0 as [-> _]. apply set_col_inv in E2 as [-> _].
  apply set_col_inv in H as [-> _].
  eapply (writes_trans ["coursework_z"] ["exam_z"; "z_diff"]);
    [apply writes_with_col|].
  eapply (writes_trans ["exam_z"] ["z_diff"]); apply writes_with_col.
Qed.

Lemma score_variance_row_inv i d s d' s' :
  score_variance_row i d s = Ok (d', s') ->
  exists assessments,
    d' = Pd.loc_set d i "score_variance" (Np.std assessments).
Proof.
  intros H. unfold score_variance_row in H. peel H. peel H.
  apply ret_inv in H as [-> _]. eauto.
Qed.

Lemma score_variance_loop_writes l d s d' s' :
  for_each l score_variance_row d s = Ok (d', s') ->
  writes ["score_variance"] d d'.
Proof.
  intros H.
  eapply (for_each_inv (writes ["score_variance"] d)); [| |exact H].
  - intros x acc t0 acc' t1 _ Hacc Hb.
    apply score_variance_row_inv in Hb as [a ->].
    eapply writes_once; [exact Hacc | apply writes_loc_set].
  - apply writes_refl.
Qed.

End Discipline.

(** ** The stages of a call that returns *)

Section Stages.

Context {R : NumpyRandom} {D : OutlierDetector}.

(** The frame a call is in after the concatenation, and the frame it hands
    to the detector. *)
Lemma prepare_stages z r s p s' :
  prepare z r s = Ok (p, s') ->
  exists k types d0 s0 d1 s1 d2 ci si s2 d3 s3 d4 g avg s4 d5 s5 d6,
    make_data z r s = Ok ((k, types, d0), s0)
    /\ subject_variation_block z d0 s0 = Ok (d1, s1)
    /\ historical_trend_block z d1 s1 = Ok ((d2, ci, si), s2)
    /\ exam_time_block z ci d2 s2 = Ok (d3, s3)
    /\ peer_comparison_block z d3 s3 = Ok ((d4, g, avg), s4)
    /\ z_score_block d4 s4 = Ok (d5, s5)
    /\ for_each (Py.range z) score_variance_row d5 s5 = Ok (d6, s')
    /\ p = (k, types, ci, si, g, avg, d6).
Proof.
  intros H. unfold prepare in H.
  apply bind_inv in H as ([[k types] d0] & s0 & E0 & H).
  apply bind_inv in H as (d1 & s1 & E1 & H).
  apply bind_inv in H as ([[d2 ci] si] & s2 & E2 & H).
  apply bind_inv in H as (d3 & s3 & E3 & H).
  apply bind_inv in H as ([[d4 g] avg] & s4 & E4 & H).
  apply bind_inv in H as (d5 & s5 & E5 & H).
  apply bind_inv in H as (d6 & s6 & E6 & H).
  apply ret_inv in H as [-> ->].
  exists k, types, d0, s0, d1, s1, d2, ci, si, s2, d3, s3, d4, g, avg, s4, d5,
    s5, d6.
  repeat (split; [assumption|]). reflexivity.
Qed.

Lemma anomaly_block_inv d s d' s' :
  anomaly_block d s = Ok (d', s') ->
  exists X labels,
    Pd.select d features_for_anomaly = Ok X
    /\ fit_predict 0.2 42 X = Ok labels
    /\ length labels = nrows d
    /\ d' = with_col d "anomaly_score" (outlier_flags (IntCol labels)).
Proof.
  intros H. unfold anomaly_block in H.
  apply bind_lift_inv in H as (X & EX & H).
  apply bind_lift_inv in H as (labels & El & H).
  apply bind_lift_inv in H as (d1 & E1 & H).
  apply bind_lift_inv in H as (c & Ec & H).
  apply lift_inv in H as [H _].
  apply set_col_inv in E1 as [-> Hlen].
  unfold Pd.get_col in Ec. rewrite lookup_with_col_eq in Ec.
  injection Ec as <-.
  apply set_col_inv in H as [-> _].
  exists X, labels. repeat (split; [assumption|]).
  apply with_col_with_col.
Qed.

Lemma mem_In k names : Pd.mem k names = true <-> In k names.
Proof.
  unfold Pd.mem. rewrite existsb_exists. split.
  - intros (x & Hx & E). apply String.eqb_eq in E. subst. exact Hx.
  - intros H. exists k. split; [exact H | apply String.eqb_refl].
Qed.

Lemma lookup_filter c names cs :
  ~ In c names ->
  df_lookup c (filter (fun kc => negb (Pd.mem (fst kc) names)) cs)
  = df_lookup c cs.
Proof.
  intros Hc. induction cs as [|[k v] rest IH]; [reflexivity|].
  cbn [filter fst df_lookup].
  destruct (Pd.mem k names) eqn:E; cbn [negb].
  - destruct (String.eqb_spec k c) as [->|]; [|exact IH].
    apply mem_In in E. contradiction.
  - cbn [df_lookup]. rewrite IH. reflexivity.
Qed.

Lemma lookup_filter_dropped c names cs :
  In c names ->
  df_lookup c (filter (fun kc => negb (Pd.mem (fst kc) names)) cs) = None.
Proof.
  intros Hc. induction cs as [|[k v] rest IH]; [reflexivity|].
  cbn [filter fst].
  destruct (Pd.mem k names) eqn:E; cbn [negb]; [exact IH|].
  cbn [df_lookup]. destruct (String.eqb_spec k c) as [->|]; [|exact IH].
  apply mem_In in Hc. congruence.
Qed.

Lemma drop_inv d names d' :
  Pd.drop d names = Ok d' ->
  nrows d' = nrows d
  /\ (forall c, ~ In c names -> df_lookup c (cols d') = df_lookup c (cols d))
  /\ (forall c, In c names -> df_lookup c (cols d') = None).
Proof.
  unfold Pd.drop. destruct (forallb _ names); [|discriminate].
  intros [= <-]. cbn [nrows cols]. split; [reflexivity|]. split.
  - intros c Hc. apply lookup_filter, Hc.
  - intros c Hc. apply lookup_filter_dropped, Hc.
Qed.

(** A call that returns went through the stages: the concatenation, the
    feature steps, the detector and the projection. *)
Lemma run_stages z r s l s' :
  run z r s = Ok (l, s') ->
  exists k types ci si g avg d0 s0 d6 X labels,
    make_data z r s = Ok ((k, types, d0), s0)
    /\ prepare z r s = Ok ((k, types, ci, si, g, avg, d6), s')
    /\ (exists d1 s1 d2 s2,
           subject_variation_block z d0 s0 = Ok (d1, s1)
           /\ historical_trend_block z d1 s1 = Ok ((d2, ci, si), s2))
    /\ writes ["subject_variation"; "historical_trend"; "exam_time_std";
               "peer_comparison"; "coursework_z"; "exam_z"; "z_diff";
               "score_variance"] d0 d6
    /\ (exists sv, df_lookup "subject_variation" (cols d6)
                   = Some (FloatCol sv)
                   /\ Forall (fun v => (v <? 0)%float = false) sv)
    /\ (df_lookup "score_variance" (cols d0) = None ->
        forall c, df_lookup "score_variance" (cols d6) = Some c ->
                  Forall (fun v => (v <? 0)%float = false) (as_float c))
    /\ Pd.select d6 features_for_anomaly = Ok X
    /\ fit_predict 0.2 42 X = Ok labels
    /\ length labels = nrows d6
    /\ cheater_indices l = ci /\ sudden_improvers l = si
    /\ data l = with_col d6 "anomaly_score" (outlier_flags (IntCol labels))
    /\ Pd.drop (data l) dropped_columns = Ok (final_data l).
Proof.
  intros Hrun.
  unfold run in Hrun. apply bind_inv in Hrun as (p & s2 & Hp & Hf).
  destruct (prepare_stages z r s p s2 Hp)
    as (k & types & d0 & s0 & d1 & s1' & d2 & ci & si & s2' & d3 & s3 & d4 & g
        & avg & s4 & d5 & s5 & d6 & E0 & E1 & E2 & E3 & E4 & E5 & E6 & ->).
  unfold finish in Hf.
  apply bind_inv in Hf as (d7 & s7 & Ea & Hf).
  apply bind_lift_inv in Hf as (fd & Ed & Hf).
  apply ret_inv in Hf as [-> ->]. cbn [final_data data cheater_indices
                                        sudden_improvers].
  pose proof Ea as Ea'.
  apply anomaly_block_inv in Ea as (X & labels & EX & El & Hl & ->).
  assert (s7 = s2) as ->.
  { unfold anomaly_block in Ea'.
    repeat (apply bind_lift_inv in Ea' as (? & _ & Ea')).
    apply lift_inv in Ea' as [_ ->]. reflexivity. }
  exists k, types, ci, si, g, avg, d0, s0, d6, X, labels.
  split; [exact E0|]. split; [exact Hp|].
  split; [exists d1, s1', d2, s2'; auto|].
  pose proof E1 as E1'.
  apply subject_variation_block_inv in E1 as (scores & -> & _).
  apply historical_trend_block_writes in E2.
  apply exam_time_block_writes in E3.
  apply peer_comparison_block_writes in E4.
  apply z_score_block_writes in E5.
  pose proof E6 as E6'.
  apply score_variance_loop_writes in E6.
  pose proof (writes_with_col d0 "subject_variation"
                (FloatCol (map Np.std scores))) as E1.
  pose proof (writes_trans _ _ _ _ _ E2
                (writes_trans _ _ _ _ _ E3
                   (writes_trans _ _ _ _ _ E4
                      (writes_trans _ _ _ _ _ E5 E6)))) as W26.
  split; [exact (writes_trans _ _ _ _ _ E1 W26)|].
  split.
  { exists (map Np.std scores). split.
    - destruct W26 as [_ W]. rewrite W by (cbn; intuition discriminate).
      apply lookup_with_col_eq.
    - apply Forall_forall. intros v Hv. apply in_map_iff in Hv as (x & <- & _).
      apply sqrt_not_negative. }
  split.
  { intros Habs.
    pose proof (writes_trans _ _ _ _ _ E1
                  (writes_trans _ _ _ _ _ E2
                     (writes_trans _ _ _ _ _ E3
                        (writes_trans _ _ _ _ _ E4 E5)))) as [_ W05].
    assert (Hd5 : df_lookup "score_variance" (cols d5) = None).
    { rewrite W05 by (cbn; intuition discriminate). exact Habs. }
    pose (I := fun d : DataFrame =>
                 forall c, df_lookup "score_variance" (cols d) = Some c ->
                           Forall (fun v => (v <? 0)%float = false)
                             (as_float c)).
    apply (for_each_inv I (Py.range z) score_variance_row) with
      (acc := d5) (s := s5) (s' := s2); [| |exact E6'].
    - intros x acc t0 acc' t1 _ Hacc Hb.
      apply score_variance_row_inv in Hb as [a ->].
      intros c Hc. unfold Pd.loc_set in Hc. rewrite lookup_with_col_eq in Hc.
      injection Hc as <-. cbn [as_float].
      assert (Hold : Forall (fun v => (v <? 0)%float = false)
                       match df_lookup "score_variance" (cols acc) with
                       | Some c => as_float c
                       | None => repeat nan (nrows acc)
                       end).
      { destruct (df_lookup "score_variance" (cols acc)) as [c|] eqn:Ec.
        - apply Hacc. exact Ec.
        - apply Forall_forall. intros v Hv. apply repeat_spec in Hv. subst v.
          reflexivity. }
      revert Hold. generalize (match df_lookup "score_variance" (cols acc) with
                               | Some c => as_float c
                               | None => repeat nan (nrows acc)
                               end).
      intros old Hold. apply Forall_list_set; [exact Hold|].
      unfold Np.std. apply sqrt_not_negative.
    - intros c Hc. unfold I in *. congruence. }
  repeat (split; [assumption|]). auto.
Qed.

End Stages.

(** ** The sudden improvers *)

Lemma positions_NoDup {A} (p : A -> bool) start l : NoDup (positions p start l).
Proof.
  revert start. induction l as [|x t IH]; intros start; cbn; [constructor|].
  destruct (p x); [|apply IH]. constructor; [|apply IH].
  intros Hin. pose proof (positions_bound p (S start) t) as Hb.
  rewrite Forall_forall in Hb. apply Hb in Hin. lia.
Qed.

Lemma firstn_NoDup {A} n (l : list A) : NoDup l -> NoDup (firstn n l).
Proof.
  intros H. revert n. induction H as [|x t Hx _ IH]; intros [|n]; cbn;
    try constructor; [|apply IH].
  intros Hin. apply Hx. eapply In_firstn, Hin.
Qed.

Lemma take_indices_inv {A} (a : list A) idx xs :
  take_indices a idx = Ok xs ->
  Forall2 (fun i x => nth_error a i = Some x) idx xs.
Proof.
  revert xs. induction idx as [|i rest IH]; intros xs; cbn.
  - intros [= <-]. constructor.
  - destruct (nth_error a i) as [x|] eqn:E; [|discriminate].
    destruct (take_indices a rest) as [ys|]; [|discriminate].
    intros [= <-]. constructor; [exact E | apply IH; reflexivity].
Qed.

Lemma Forall2_nth_NoDup {A} (a : list A) idx xs :
  NoDup a -> NoDup idx ->
  Forall2 (fun i x => nth_error a i = Some x) idx xs ->
  NoDup xs /\ incl xs a /\ length xs = length idx.
Proof.
  intros Ha Hidx H. induction H as [|i x idx xs Hix H IH].
  - repeat split; [constructor | intros ? []].
  - inversion Hidx as [|? ? Hni Hnd]; subst.
    destruct (IH Hnd) as (Hxs & Hincl & Hlen).
    split; [|split].
    + constructor; [|exact Hxs]. intros Hin.
      apply Hni. clear - Ha H Hix Hin.
      induction H as [|j y idx xs Hjy H IH]; [contradiction|].
      destruct Hin as [<-|Hin].
      * left. rewrite NoDup_nth_error in Ha. symmetry. apply Ha; [|congruence].
        apply nth_error_Some. congruence.
      * right. apply IH; assumption.
    + intros y [<-|Hy]; [eapply nth_error_In; eassumption | apply Hincl, Hy].
    + cbn. lia.
Qed.

Section Improvers.

Context {R : NumpyRandom}.

(** Without replacement: the chosen elements are distinct elements of the
    array, as many as were asked for. *)
Lemma choice_no_replace_inv {A} (a : list A) size s xs s' :
  choice_no_replace a size s = Ok (xs, s') ->
  NoDup a ->
  NoDup xs /\ incl xs a /\ length xs = Z.to_nat size
  /\ (0 <= size <= Z.of_nat (length a))%Z.
Proof.
  unfold choice_no_replace. intros H Ha.
  destruct (Z.ltb_spec size 0) as [|Hs0]; [discriminate|].
  destruct (Z.ltb_spec (Z.of_nat (length a)) size) as [|Hs1]; [discriminate|].
  pose proof (rng_permutation_perm (length a) s) as Hperm.
  destruct (rng_permutation (length a) s) as [perm s1]. cbn [fst] in Hperm.
  destruct (take_indices a (firstn (Z.to_nat size) perm)) as [ys|] eqn:E;
    [|discriminate].
  injection H as <- <-.
  apply take_indices_inv in E.
  assert (Hnd : NoDup (firstn (Z.to_nat size) perm)).
  { apply firstn_NoDup.
    eapply Permutation_NoDup; [apply Permutation_sym, Hperm | apply seq_NoDup]. }
  destruct (Forall2_nth_NoDup a _ ys Ha Hnd E) as (H1 & H2 & H3).
  repeat (split; [assumption|]). split; [|lia].
  rewrite H3, length_firstn.
  apply Permutation_length in Hperm. rewrite length_seq in Hperm. lia.
Qed.

(** The loop over the sudden improvers lowers the past performance of each
    of them once and leaves every other row as it is. *)
Lemma worsen_loop si : forall past s past' s',
  NoDup si ->
  for_each si worsen_past past s = Ok (past', s') ->
  length past' = length past
  /\ (forall i, ~ In i si -> nth_error past' i = nth_error past i)
  /\ (forall i old, In i si -> nth_error past i = Some old ->
        exists t,
          nth_error past' i = Some (old - fst (rng_uniform 0.5 1.5 t))%float).
Proof.
  induction si as [|idx rest IH]; intros past s past' s' Hnd H.
  - apply ret_inv in H as [-> _].
    split; [reflexivity|]. split; [reflexivity|]. intros i old [].
  - inversion Hnd as [|? ? Hni Hnd']; subst.
    cbn [for_each] in H. apply bind_inv in H as (p1 & s1 & H1 & H2).
    unfold worsen_past in H1.
    apply bind_lift_inv in H1 as (old0 & Eold & H1).
    apply bind_inv in H1 as (u & s0 & Eu & H1).
    apply ret_inv in H1 as [-> ->].
    unfold uniform in Eu. injection Eu as Eu.
    unfold Pd.series_get in Eold.
    destruct (nth_error past idx) as [o|] eqn:Eo; [|discriminate].
    injection Eold as ->.
    destruct (IH _ _ _ _ Hnd' H2) as (Hlen & Hout & Hin).
    rewrite list_set_length in Hlen.
    split; [exact Hlen|]. split.
    + intros i Hi. rewrite Hout by (intros Hr; apply Hi; right; exact Hr).
      rewrite nth_error_list_set.
      destruct (Nat.eqb_spec idx i) as [->|]; [|reflexivity].
      exfalso. apply Hi. left. reflexivity.
    + intros i old [<-|Hi] Hold.
      * exists s. rewrite Eu. cbn [fst].
        rewrite Hout by exact Hni. rewrite nth_error_list_set, Nat.eqb_refl.
        assert (Hlt : idx < length past)
          by (apply nth_error_Some; congruence).
        apply Nat.ltb_lt in Hlt. rewrite Hlt. congruence.
      * apply Hin; [exact Hi|].
        rewrite nth_error_list_set.
        destruct (Nat.eqb_spec idx i) as [->|]; [contradiction | exact Hold].
Qed.

End Improvers.

Section TrendFacts.

Context {R : NumpyRandom} {D : OutlierDetector}.

(** The steps of the historical-trend block, and the choice it makes. *)
Lemma historical_trend_block_steps z d s d' ci si s' :
  historical_trend_block z d s = Ok ((d', ci, si), s') ->
  exists a cw ex noise s1 size s2 past,
    Pd.get_float d "ability" = Ok a
    /\ Pd.get_float d "coursework_raw" = Ok cw
    /\ Pd.get_float d "exam_raw" = Ok ex
    /\ normal_n 0 0.5 z s = Ok (noise, s1)
    /\ Pd.index_where_eq d "cheater" 1 = Ok ci
    /\ Py.int (Py.float_of_nat (length ci) * 0.6)%float = Ok size
    /\ length si = Z.to_nat size
    /\ NoDup si /\ incl si ci
    /\ for_each si worsen_past (Np.vadd a noise) s2 = Ok (past, s')
    /\ Pd.set_col d "historical_trend"
         (FloatCol (Np.vsub (map (fun v => (v / 2)%float) (Np.vadd cw ex))
                      past)) = Ok d'.
Proof.
  intros H. unfold historical_trend_block in H.
  apply bind_lift_inv in H as (a & Ea & H).
  apply bind_inv in H as (noise & s1 & En & H).
  apply bind_lift_inv in H as (cw & Ecw & H).
  apply bind_lift_inv in H as (ex & Eex & H).
  apply bind_lift_inv in H as (ci0 & Eci & H).
  apply bind_lift_inv in H as (size & Esize & H).
  apply bind_inv in H as (si0 & s2 & Esi & H).
  apply bind_inv in H as (past & s3 & Epast & H).
  apply bind_lift_inv in H as (d1 & Eset & H).
  apply ret_inv in H as [[= <- <- <-] ->].
  exists a, cw, ex, noise, s1, size, s2, past.
  assert (Hci : NoDup ci).
  { unfold Pd.index_where_eq in Eci.
    destruct (Pd.get_col d "cheater"); [|discriminate].
    injection Eci as <-. apply positions_NoDup. }
  destruct (choice_no_replace_inv ci size s1 si s2 Esi Hci)
    as (Hnd & Hincl & Hlen & _).
  repeat (split; [assumption|]). exact Eset.
Qed.

(** X9.  The historical trend of a row is its current performance, the mean
    of its two raw scores, minus its past performance, ability plus noise.
    The sudden improvers are distinct rows chosen among the cheaters; the
    past performance of each is lowered once by a [uniform(0.5, 1.5)] draw,
    and no other row is touched. *)
Theorem historical_trend_penalty z d s d' ci si s' :
  historical_trend_block z d s = Ok ((d', ci, si), s') ->
  exists a cw ex noise s1 size ht,
    Pd.get_float d "ability" = Ok a
    /\ Pd.get_float d "coursework_raw" = Ok cw
    /\ Pd.get_float d "exam_raw" = Ok ex
    /\ normal_n 0 0.5 z s = Ok (noise, s1)
    /\ Pd.index_where_eq d "cheater" 1 = Ok ci
    /\ Py.int (Py.float_of_nat (length ci) * 0.6)%float = Ok size
    /\ length si = Z.to_nat size
    /\ NoDup si /\ incl si ci
    /\ Pd.get_col d' "historical_trend" = Ok (FloatCol ht)
    /\ length ht = nrows d
    /\ forall i x c e g,
         nth_error a i = Some x -> nth_error cw i = Some c ->
         nth_error ex i = Some e -> nth_error noise i = Some g ->
         (~ In i si ->
          nth_error ht i = Some ((c + e) / 2 - (x + g))%float)
         /\ (In i si ->
             exists t,
               nth_error ht i
               = Some ((c + e) / 2
                       - (x + g - fst (rng_uniform 0.5 1.5 t)))%float).
Proof.
  intros H.
  destruct (historical_trend_block_steps z d s d' ci si s' H)
    as (a & cw & ex & noise & s1 & size & s2 & past & Ea & Ecw & Eex & En
        & Eci & Esize & Hlen & Hnd & Hincl & Epast & Eset).
  destruct (worsen_loop si _ _ _ _ Hnd Epast) as (Lp & Hout & Hin).
  apply set_col_inv in Eset as [-> Hcl].
  exists a, cw, ex, noise, s1, size. eexists.
  repeat (split; [assumption|]).
  split; [unfold Pd.get_col; rewrite lookup_with_col_eq; reflexivity|].
  split; [exact Hcl|].
  intros i x c e g Hx Hc He Hg.
  assert (Hcur : nth_error (map (fun v => (v / 2)%float) (Np.vadd cw ex)) i
                 = Some ((c + e) / 2)%float).
  { rewrite nth_error_map. unfold Np.vadd.
    rewrite (nth_error_map2 _ _ _ _ _ _ Hc He). reflexivity. }
  assert (Hp0 : nth_error (Np.vadd a noise) i = Some (x + g)%float).
  { unfold Np.vadd. apply nth_error_map2; assumption. }
  split.
  - intros Hni. unfold Np.vsub. apply nth_error_map2; [exact Hcur|].
    rewrite Hout by exact Hni. exact Hp0.
  - intros Hi. destruct (Hin i _ Hi Hp0) as (t & Ht). exists t.
    unfold Np.vsub. apply nth_error_map2; assumption.
Qed.

(** X8.  In a call that returns, the sudden improvers are distinct rows, all
    of them cheaters, and there are [int(len(cheater_indices) * 0.6)] of
    them. *)
Theorem sudden_improvers_are_distinct_cheaters z r s l s' :
  run z r s = Ok (l, s') ->
  exists size,
    Py.int (Py.float_of_nat (length (cheater_indices l)) * 0.6)%float = Ok size
    /\ length (sudden_improvers l) = Z.to_nat size
    /\ (0 <= size <= n_cheaters l)%Z
    /\ NoDup (sudden_improvers l)
    /\ incl (sudden_improvers l) (cheater_indices l)
    /\ forall i, In i (sudden_improvers l) ->
         Pd.loc (final_data l) i "cheater" = Ok (VInt 1).
Proof.
  intros Hrun.
  destruct (run_stages z r s l s' Hrun)
    as (k & types & ci & si & g & avg & d0 & s0 & d6 & X & labels & _ & _
        & (d1 & s1 & d2 & s2 & _ & Eht) & _ & _ & _ & _ & _ & _ & Hci & Hsi
        & _ & _).
  destruct (historical_trend_block_steps z d1 s1 d2 ci si s2 Eht)
    as (a & cw & ex & noise & s3 & size & s4 & past & _ & _ & _ & _ & _
        & Esize & Hlen & Hnd & Hincl & _).
  destruct (run_inv z r s l s' Hrun)
    as (Hz & nf & kz & size' & types' & imp & a' & cw' & ex' & sv & ht' & et
        & sc & p33 & p66 & labels' & Hnf & Hk & Hrange & Hsize' & Hsr & _ & _
        & _ & _ & _ & _ & _ & _ & _ & _ & _ & _ & _ & Hl).
  exists size. rewrite Hci, Hsi.
  split; [exact Esize|]. split; [exact Hlen|].
  assert (Eci : ci = seq (Z.to_nat z - Z.to_nat kz) (Z.to_nat kz)).
  { rewrite <- Hci, Hl. reflexivity. }
  assert (Esz : size = size').
  { rewrite Eci, length_seq in Esize. congruence. }
  split; [subst l; cbn [n_cheaters locals_of]; lia|].
  split; [exact Hnd|]. split; [exact Hincl|].
  intros i Hi. apply Hincl in Hi. rewrite Eci in Hi. apply in_seq in Hi.
  rewrite Hl. cbn [final_data locals_of].
  eapply loc_int_ok; [reflexivity|].
  rewrite labels_of_nth by lia.
  destruct (Nat.ltb_spec i (Z.to_nat z - Z.to_nat kz)); [lia|].
  destruct (Nat.ltb_spec i (Z.to_nat z)); [reflexivity | lia].
Qed.

End TrendFacts.

Section TableFacts.

Context {R : NumpyRandom} {D : OutlierDetector}.

(** X1.  The anomaly score of a returned table is the flag of the detector:
    the detector is run, with contamination 0.2 and its own seed 42, on the
    six feature columns of the table in the listed order, and a row's score
    is 1.0 when its label is -1 and 0.0 otherwise. *)
Theorem anomaly_score_is_outlier_flag z r s t s' :
  generate_realistic_cheating_data z r s = Ok (t, s') ->
  exists X labels an,
    Pd.select t features_for_anomaly = Ok X
    /\ fit_predict 0.2 42 X = Ok labels
    /\ length labels = nrows t
    /\ Pd.get_col t "anomaly_score" = Ok (FloatCol an)
    /\ an = map (fun l => if (l =? -1)%Z then 1%float else 0%float) labels
    /\ Forall (fun v => v = 0%float \/ v = 1%float) an.
Proof.
  intros Hgen. unfold generate_realistic_cheating_data in Hgen.
  apply bind_inv in Hgen as (l & s1 & Hrun & Hret).
  apply ret_inv in Hret as [-> _].
  destruct (run_inv z r s l s1 Hrun)
    as (Hz & nf & kz & size & types & imp & a & cw & ex & sv & ht & et & sc
        & p33 & p66 & labels & _ & _ & _ & _ & _ & _ & _ & _ & _ & _ & _ & _
        & _ & _ & _ & _ & Hfit & Ll & ->).
  exists (features_frame (Z.to_nat z) cw ex sv ht sc), labels,
    (map (fun l => if (l =? -1)%Z then 1%float else 0%float) labels).
  split; [reflexivity|]. split; [exact Hfit|]. split; [exact Ll|].
  split.
  { cbn [final_data locals_of]. unfold Pd.get_col, final_frame, outlier_flags.
    cbn [cols df_lookup String.eqb Ascii.eqb Bool.eqb col_eq_int].
    rewrite map_map. reflexivity. }
  split; [reflexivity|].
  apply Forall_forall. intros v Hv. apply in_map_iff in Hv as (x & <- & _).
  destruct (x =? -1)%Z; auto.
Qed.

(** X3.  The selection of the features and of the label that the script makes
    on the generated table never fails: [X] has the nine feature columns in
    the order asked for, one float per record, and does not hold the label;
    [y] is the label column.  The three dropped columns cannot be read from
    the table any more. *)
Theorem features_and_label_are_selectable z r s t s' :
  generate_realistic_cheating_data z r s = Ok (t, s') ->
  exists Xf ch,
    Preprocessing.X t = Ok Xf
    /\ nrows Xf = nrows t
    /\ column_names Xf = Preprocessing.feature_names
    /\ Forall (fun kc => exists v, snd kc = FloatCol v /\ length v = nrows t)
         (cols Xf)
    /\ ~ In "cheater" (column_names Xf)
    /\ Preprocessing.y t = Ok (IntCol ch)
    /\ length ch = nrows t
    /\ forall c, In c dropped_columns ->
         Pd.get_col t c = Err KeyError /\ Pd.select t [c] = Err KeyError.
Proof.
  intros Hgen.
  destruct (generate_inv z r s t s' Hgen)
    as (Hz & nf & kz & cw & ex & sv & ht & et & pc & sc & labels & Hnf & Hk
        & Hrange & Lcw & Lex & Lsv & Lht & Let & Lpc & Lsc & Ll & ->).
  eexists _, (labels_of (Z.to_nat z) (Z.to_nat kz)).
  split; [reflexivity|]. split; [reflexivity|]. split; [reflexivity|].
  split.
  { unfold z_scores, Np.vsub, outlier_flags. cbn [cols nrows col_eq_int final_frame].
    repeat (apply Forall_cons;
            [cbn [snd]; eexists; split; [reflexivity|];
             rewrite ?length_map, ?map2_length, ?length_map; lia|]).
    apply Forall_nil. }
  split; [cbn; intuition discriminate|].
  split; [reflexivity|].
  split; [cbn [nrows final_frame]; apply labels_of_length; lia|].
  intros c [<-|[<-|[<-|[]]]]; split; reflexivity.
Qed.

Lemma make_data_frame z r s p s' k types d0 s0 :
  prepare z r s = Ok (p, s') ->
  make_data z r s = Ok ((k, types, d0), s0) ->
  column_names d0 = ["ability"; "cheater"; "coursework_raw"; "exam_raw"]
  /\ nrows d0 = Z.to_nat z.
Proof.
  intros Hp Hm.
  destruct (prepare_inv z r s p s' Hp)
    as (Hz & nf & kz & size & Hnf & Hk & Hrange & _ & _).
  destruct (frames_ok z kz r s nf Hnf Hk Hrange)
    as (types' & a & cw & ex & s1 & Hd & _).
  rewrite Hd in Hm. injection Hm as _ _ <- _. split; reflexivity.
Qed.

Lemma lookup_names c cs :
  ~ In c (map fst cs) -> df_lookup c cs = None.
Proof.
  induction cs as [|[k v] rest IH]; [reflexivity|]. cbn [map fst df_lookup].
  intros Hn. destruct (String.eqb_spec k c) as [->|];
    [exfalso; apply Hn; left; reflexivity|].
  apply IH. intros Hin. apply Hn. right. exact Hin.
Qed.

(** X4.  The two spread features of a returned table, [subject_variation] and
    [score_variance], are standard deviations: no entry is negative (an entry
    is a number that is not below zero, or NaN). *)
Theorem spread_features_are_not_negative z r s t s' :
  generate_realistic_cheating_data z r s = Ok (t, s') ->
  exists sv sc,
    Pd.get_col t "subject_variation" = Ok (FloatCol sv)
    /\ Pd.get_col t "score_variance" = Ok (FloatCol sc)
    /\ length sv = nrows t /\ length sc = nrows t
    /\ Forall (fun v => (v <? 0)%float = false) sv
    /\ Forall (fun v => (v <? 0)%float = false) sc.
Proof.
  intros Hgen. pose proof Hgen as Hgen'.
  unfold generate_realistic_cheating_data in Hgen.
  apply bind_inv in Hgen as (l & s1 & Hrun & Hret).
  apply ret_inv in Hret as [-> _].
  destruct (generate_inv z r s _ _ Hgen')
    as (Hz & nf & kz & cw & ex & sv & ht & et & pc & sc & labels & _ & _
        & _ & _ & _ & Lsv & _ & _ & _ & Lsc & _ & Ht).
  destruct (run_stages z r s l s1 Hrun)
    as (k & types & ci & si & g & avg & d0 & s0 & d6 & X & lab & Hm & Hp & _
        & _ & (sv' & Hsv & Fsv) & Hsc & _ & _ & _ & _ & _ & Hdata & Hdrop).
  destruct (drop_inv _ _ _ Hdrop) as (_ & Hkeep & _).
  assert (Hthru : forall c, c <> "anomaly_score" -> ~ In c dropped_columns ->
            df_lookup c (cols (final_data l)) = df_lookup c (cols d6)).
  { intros c Hc Hd. rewrite Hkeep by exact Hd. rewrite Hdata.
    apply lookup_with_col_neq. congruence. }
  exists sv, sc. rewrite Ht at 1 2 3 4.
  split; [reflexivity|]. split; [reflexivity|].
  split; [exact Lsv|]. split; [exact Lsc|].
  split.
  - assert (E : df_lookup "subject_variation" (cols (final_data l))
                = Some (FloatCol sv)) by (rewrite Ht; reflexivity).
    rewrite Hthru, Hsv in E by (cbn; intuition discriminate).
    injection E as <-. exact Fsv.
  - assert (E : df_lookup "score_variance" (cols (final_data l))
                = Some (FloatCol sc)) by (rewrite Ht; reflexivity).
    rewrite Hthru in E by (cbn; intuition discriminate).
    destruct (make_data_frame z r s _ _ k types d0 s0 Hp Hm) as [Hn _].
    assert (Habs : df_lookup "score_variance" (cols d0) = None).
    { apply lookup_names. unfold column_names in Hn. rewrite Hn. cbn.
      intuition discriminate. }
    exact (Hsc Habs _ E).
Qed.

(** X5.  After the concatenation no step changes the number of rows or the
    columns [ability], [cheater], [coursework_raw] and [exam_raw]: each
    feature step writes its own column and nothing else, and the projection
    only removes the three dropped columns. *)
Theorem steps_write_their_own_columns z r s l s' :
  run z r s = Ok (l, s') ->
  exists k types d0 s0,
    make_data z r s = Ok ((k, types, d0), s0)
    /\ column_names d0 = ["ability"; "cheater"; "coursework_raw"; "exam_raw"]
    /\ nrows d0 = Z.to_nat z
    /\ writes ["subject_variation"; "historical_trend"; "exam_time_std";
               "peer_comparison"; "coursework_z"; "exam_z"; "z_diff";
               "score_variance"; "anomaly_score"] d0 (data l)
    /\ nrows (final_data l) = nrows (data l)
    /\ (forall c, ~ In c dropped_columns ->
          Pd.get_col (final_data l) c = Pd.get_col (data l) c)
    /\ Pd.get_col (final_data l) "cheater" = Pd.get_col d0 "cheater".
Proof.
  intros Hrun.
  destruct (run_stages z r s l s' Hrun)
    as (k & types & ci & si & g & avg & d0 & s0 & d6 & X & lab & Hm & Hp & _
        & W & _ & _ & _ & _ & _ & _ & _ & Hdata & Hdrop).
  destruct (drop_inv _ _ _ Hdrop) as (Hrows & Hkeep & _).
  destruct (make_data_frame z r s _ _ k types d0 s0 Hp Hm) as [Hn Hr].
  assert (W' : writes ["subject_variation"; "historical_trend"; "exam_time_std";
                       "peer_comparison"; "coursework_z"; "exam_z"; "z_diff";
                       "score_variance"; "anomaly_score"] d0 (data l)).
  { rewrite Hdata.
    apply (writes_trans _ ["anomaly_score"] _ _ _ W (writes_with_col _ _ _)). }
  exists k, types, d0, s0.
  repeat (split; [assumption|]).
  split; [intros c Hc; unfold Pd.get_col; rewrite Hkeep by exact Hc; reflexivity|].
  unfold Pd.get_col. rewrite Hkeep by (cbn; intuition discriminate).
  destruct W' as [_ W']. rewrite W' by (cbn; intuition discriminate).
  reflexivity.
Qed.

(** X6.  With a single record the sample standard deviation is NaN, so the
    three standardised columns of a returned table hold NaN. *)
Theorem single_record_has_no_z_score r s t s' :
  generate_realistic_cheating_data 1 r s = Ok (t, s') ->
  Pd.get_col t "coursework_z" = Ok (FloatCol [nan])
  /\ Pd.get_col t "exam_z" = Ok (FloatCol [nan])
  /\ Pd.get_col t "z_diff" = Ok (FloatCol [nan]).
Proof.
  intros Hgen.
  destruct (generate_inv 1 r s t s' Hgen)
    as (Hz & nf & kz & cw & ex & sv & ht & et & pc & sc & labels & _ & _
        & _ & Lcw & Lex & _ & _ & _ & _ & _ & _ & ->).
  destruct cw as [|c [|]]; try discriminate.
  destruct ex as [|e [|]]; try discriminate.
  assert (Hs1 : forall x, Pd.std [x] = nan).
  { intros x. unfold Pd.std, Pd.count. cbn [filter].
    destruct (PrimFloat.is_nan x); reflexivity. }
  assert (Hz1 : forall x, z_scores [x] = [nan]).
  { intros x. unfold z_scores. cbn [map]. rewrite Hs1, div_nan. reflexivity. }
  unfold Pd.get_col, final_frame.
  cbn [cols df_lookup String.eqb Ascii.eqb Bool.eqb].
  rewrite !Hz1. repeat split; reflexivity.
Qed.

End TableFacts.

(** The members of a group are the exam scores of the records whose ability
    is placed in it, in row order. *)
Lemma group_members_filter bins a g : forall ex,
  group_members (map (Np.digitize bins) a) ex g
  = map snd (filter (fun xe => Nat.eqb (Np.digitize bins (fst xe)) g)
               (combine a ex)).
Proof.
  unfold group_members.
  induction a as [|x a IH]; intros [|e ex]; try reflexivity.
  cbn [map mask_select combine filter fst]. rewrite (Nat.eqb_sym g).
  destruct (Nat.eqb (Np.digitize bins x) g); cbn [map snd]; rewrite IH;
    reflexivity.
Qed.

Section PeerFacts.
Context {R : NumpyRandom} {D : OutlierDetector}.

(** X19.  For every input on which the call returns, whatever the ratio, the
    peer comparison is computed for every record: the groups are the
    positions of the abilities among their 33rd and 66th percentiles, every
    record falls in group 0, 1 or 2, its peers are the exam scores of the
    records whose ability falls in the same group (its own score among
    them), the dictionary holds [Series.mean()] of the peers, and the
    record's [peer_comparison] is its exam score minus this mean. *)
Theorem peer_comparison_uses_the_own_group z r s l s' :
  run z r s = Ok (l, s') ->
  exists a ex pc p33 p66,
    Pd.get_col (data l) "ability" = Ok (FloatCol a)
    /\ Pd.get_col (data l) "exam_raw" = Ok (FloatCol ex)
    /\ Pd.get_col (final_data l) "peer_comparison" = Ok (FloatCol pc)
    /\ Np.percentile a 33 = Ok p33 /\ Np.percentile a 66 = Ok p66
    /\ ability_groups l = map (Np.digitize [p33; p66]) a
    /\ length a = Z.to_nat z /\ length ex = Z.to_nat z
    /\ length pc = Z.to_nat z
    /\ forall i, i < Z.to_nat z ->
         exists x e,
           nth_error a i = Some x /\ nth_error ex i = Some e
           /\ let g := Np.digitize [p33; p66] x in
              let peers :=
                map snd
                  (filter (fun xe =>
                             Nat.eqb (Np.digitize [p33; p66] (fst xe)) g)
                     (combine a ex)) in
              nth_error (ability_groups l) i = Some g /\ g < 3
              /\ In e peers
              /\ dict_get (avg_group_exam l) g = Ok (Pd.mean peers)
              /\ nth_error pc i = Some (e - Pd.mean peers)%float.
Proof.
  intros Hrun.
  destruct (run_inv z r s l s' Hrun)
    as (Hz & nf & kz & size & types & imp & a & cw & ex & sv & ht & et & sc
        & p33 & p66 & labels & _ & _ & _ & _ & _ & H33 & H66 & _ & _ & La
        & _ & Lex & _ & _ & _ & _ & _ & _ & ->).
  exists a, ex, (peer_column p33 p66 a ex), p33, p66.
  repeat (split; [reflexivity || assumption|]).
  split; [rewrite peer_column_length; congruence|].
  intros i Hi.
  destruct (nth_error_some a i) as [x Hx]; [lia|].
  destruct (nth_error_some ex i) as [e He]; [lia|].
  destruct (peer_column_nth p33 p66 a ex i x e Hx He)
    as (Hg & Hlt & Hin & Hget & Hpc).
  exists x, e. split; [exact Hx|]. split; [exact He|]. cbv zeta.
  rewrite <- group_members_filter.
  cbn [ability_groups avg_group_exam locals_of].
  repeat (split; [assumption|]). exact Hpc.
Qed.
End PeerFacts.

Section Detector.

Context {R : NumpyRandom} {D : OutlierDetector}.

(** X2.  A failure of the outlier detector is not swallowed.  Once the steps
    before the detector have returned, the detector is given the six feature
    columns, one row per record; if it raises, the call raises the same
    exception; if it returns a number of labels that is not the number of
    records, the assignment of the column raises [ValueError]; otherwise the
    call returns a table, and the random stream is left as the last feature
    step left it. *)
Theorem detector_failure_is_not_swallowed z r s p s1 :
  prepare z r s = Ok (p, s1) ->
  let d := snd p in
  exists X,
    Pd.select d features_for_anomaly = Ok X
    /\ column_names X = features_for_anomaly
    /\ nrows X = Z.to_nat z
    /\ match fit_predict 0.2 42 X with
       | Err e => generate_realistic_cheating_data z r s = Err e
       | Ok labels =>
           if Nat.eqb (length labels) (Z.to_nat z)
           then exists t,
                  generate_realistic_cheating_data z r s = Ok (t, s1)
                  /\ Pd.get_col t "anomaly_score"
                     = Ok (outlier_flags (IntCol labels))
           else generate_realistic_cheating_data z r s = Err ValueError
       end.
Proof.
  intros Hp.
  destruct (prepare_inv z r s p s1 Hp)
    as (Hz & nf & kz & size & Hnf & Hk & Hrange & Hsize & Hsr).
  destruct (prepare_ok z r s nf kz size Hz Hnf Hk Hrange Hsize Hsr)
    as (types & imp & a & cw & ex & sv & ht & et & sc & p33 & p66 & s' & H33
        & H66 & Hp' & _).
  cbv zeta in Hp'. rewrite Hp' in Hp. injection Hp as <- <-.
  cbn [snd]. exists (features_frame (Z.to_nat z) cw ex sv ht sc).
  split; [reflexivity|]. split; [reflexivity|]. split; [reflexivity|].
  pose proof (finish_full (Z.to_nat z) kz types imp a cw ex sv ht et sc p33
                p66 s') as Hf.
  unfold peer_column in Hf. cbv zeta in Hf.
  assert (Hrun : run z r s = finish _ s') by (apply bind_ok, Hp').
  rewrite Hf in Hrun. unfold generate_realistic_cheating_data.
  destruct (fit_predict 0.2 42 (features_frame (Z.to_nat z) cw ex sv ht sc))
    as [labels|e].
  - destruct (Nat.eqb (length labels) (Z.to_nat z)).
    + eexists. rewrite (bind_ok _ _ _ _ _ Hrun). split; reflexivity.
    + apply bind_err. exact Hrun.
  - apply bind_err. exact Hrun.
Qed.

End Detector.

Section Patterns.

Context {R : NumpyRandom}.

Lemma apply_pattern_scores k a o cw ex i ty s x :
  nth_error a i = Some x ->
  apply_pattern (i, ty) (cheaters_frame k a o cw ex) s
  = let '(c, e, s') := pattern_scores x ty s in
    Ok (cheaters_frame k a o (list_set cw i c) (list_set ex i e), s').
Proof.
  intros Hx.
  assert (Hloc : forall c e,
             Pd.loc_float (cheaters_frame k a o c e) i "ability" = Ok x).
  { intros c e. eapply loc_float_ok; [reflexivity | exact Hx]. }
  unfold apply_pattern, pattern_scores, uniform, normal.
  destruct (String.eqb ty "coursework_advantage");
    [| destruct (String.eqb ty "exam_advantage")].
  - step_lift (Hloc cw ex). unfold bind at 1.
    destruct (rng_uniform 1 2.5 s) as [u s1].
    unfold Pd.loc_set at 2, cheaters_frame. frame_cbn.
    step_lift (Hloc (list_set cw i (x + u)%float) ex).
    unfold bind at 1. destruct (rng_normal 0 0.8 s1) as [g s2].
    reflexivity.
  - step_lift (Hloc cw ex). unfold bind at 1.
    destruct (rng_normal 0 0.8 s) as [g s1].
    unfold Pd.loc_set at 2, cheaters_frame. frame_cbn.
    step_lift (Hloc (list_set cw i (x + g)%float) ex).
    unfold bind at 1. destruct (rng_uniform 1.5 3 s1) as [u s2].
    reflexivity.
  - unfold bind at 1. destruct (rng_uniform 1 2 s) as [b s1].
    step_lift (Hloc cw ex). unfold bind at 1.
    destruct (rng_normal 0 0.2 s1) as [g s2].
    unfold Pd.loc_set at 2, cheaters_frame. frame_cbn.
    step_lift (Hloc (list_set cw i (x + b + g)%float) ex).
    unfold bind at 1. destruct (rng_normal 0 0.2 s2) as [g' s3].
    reflexivity.
Qed.

(** The first pattern finds no [exam_raw] column: the column is created,
    filled with NaN, before the cell is written. *)
Lemma apply_pattern_creates k a o cw i ty s x :
  nth_error a i = Some x ->
  apply_pattern (i, ty)
    {| nrows := k;
       cols := [("ability", FloatCol a); ("cheater", IntCol o);
                ("coursework_raw", FloatCol cw)] |} s
  = let '(c, e, s') := pattern_scores x ty s in
    Ok (cheaters_frame k a o (list_set cw i c) (list_set (repeat nan k) i e),
        s').
Proof.
  intros Hx.
  assert (Hloc : forall c,
             Pd.loc_float
               {| nrows := k;
                  cols := [("ability", FloatCol a); ("cheater", IntCol o);
                           ("coursework_raw", FloatCol c)] |} i "ability"
             = Ok x).
  { intros c. eapply loc_float_ok; [reflexivity | exact Hx]. }
  unfold apply_pattern, pattern_scores, uniform, normal.
  destruct (String.eqb ty "coursework_advantage");
    [| destruct (String.eqb ty "exam_advantage")].
  - step_lift (Hloc cw). unfold bind at 1.
    destruct (rng_uniform 1 2.5 s) as [u s1].
    unfold Pd.loc_set at 2. frame_cbn.
    step_lift (Hloc (list_set cw i (x + u)%float)).
    unfold bind at 1. destruct (rng_normal 0 0.8 s1) as [g s2].
    reflexivity.
  - step_lift (Hloc cw). unfold bind at 1.
    destruct (rng_normal 0 0.8 s) as [g s1].
    unfold Pd.loc_set at 2. frame_cbn.
    step_lift (Hloc (list_set cw i (x + g)%float)).
    unfold bind at 1. destruct (rng_uniform 1.5 3 s1) as [u s2].
    reflexivity.
  - unfold bind at 1. destruct (rng_uniform 1 2 s) as [b s1].
    step_lift (Hloc cw). unfold bind at 1.
    destruct (rng_normal 0 0.2 s1) as [g s2].
    unfold Pd.loc_set at 2. frame_cbn.
    step_lift (Hloc (list_set cw i (x + b + g)%float)).
    unfold bind at 1. destruct (rng_normal 0 0.2 s2) as [g' s3].
    reflexivity.
Qed.

Lemma pattern_loop_from o (types : list string) :
  forall j a1 a2 c1 c2 e1 e2 s,
    length a1 = j -> length c1 = j -> length e1 = j ->
    length a2 = length types -> length c2 = length types ->
    length e2 = length types ->
    for_each (combine (seq j (length types)) types) apply_pattern
      (cheaters_frame (j + length types) (a1 ++ a2) o (c1 ++ c2) (e1 ++ e2)) s
    = let '(cs, es, s') := pattern_rows a2 types s in
      Ok (cheaters_frame (j + length types) (a1 ++ a2) o (c1 ++ cs)
            (e1 ++ es), s').
Proof.
  induction types as [|ty types IH]; intros j a1 a2 c1 c2 e1 e2 s La1 Lc1 Le1
    La2 Lc2 Le2.
  - destruct a2, c2, e2; try discriminate. reflexivity.
  - destruct a2 as [|x a2], c2 as [|c c2], e2 as [|e e2]; try discriminate.
    cbn [length seq combine for_each pattern_rows].
    assert (Hx : nth_error (a1 ++ x :: a2) j = Some x).
    { rewrite nth_error_app2 by lia. rewrite La1, Nat.sub_diag. reflexivity. }
    pose proof (apply_pattern_scores (j + S (length types)) (a1 ++ x :: a2) o
                  (c1 ++ c :: c2) (e1 ++ e :: e2) j ty s x Hx) as H1.
    destruct (pattern_scores x ty s) as [[cv ev] s1].
    rewrite (bind_ok _ _ _ _ _ H1).
    replace (list_set (c1 ++ c :: c2) j cv) with (c1 ++ cv :: c2)
      by (rewrite <- Lc1; symmetry; apply list_set_middle).
    replace (list_set (e1 ++ e :: e2) j ev) with (e1 ++ ev :: e2)
      by (rewrite <- Le1; symmetry; apply list_set_middle).
    specialize (IH (S j) (a1 ++ [x]) a2 (c1 ++ [cv]) c2 (e1 ++ [ev]) e2 s1).
    rewrite <- !app_assoc in IH. cbn [app] in IH.
    rewrite <- plus_n_Sm. cbn [Nat.add] in IH.
    rewrite IH by (rewrite ?length_app; cbn [length] in *; lia).
    destruct (pattern_rows a2 types s1) as [[cs es] s2].
    rewrite <- !app_assoc. reflexivity.
Qed.

(** X7.  With at least one cheater, the loop over the cheater types writes
    both raw scores of every cheater, in row order and from the one stream:
    the scores of a row depend on its ability and its type alone.  So the
    coursework scores drawn before the loop never reach the table, and none
    of the NaN that fill the new [exam_raw] column remains. *)
Theorem pattern_loop_rewrites_both_scores a o cw (types : list string) s :
  types <> [] -> length a = length types -> length cw = length types ->
  for_each (enumerate types) apply_pattern
    {| nrows := length types;
       cols := [("ability", FloatCol a); ("cheater", IntCol o);
                ("coursework_raw", FloatCol cw)] |} s
  = let '(cs, es, s') := pattern_rows a types s in
    Ok ({| nrows := length types;
           cols := [("ability", FloatCol a); ("cheater", IntCol o);
                    ("coursework_raw", FloatCol cs);
                    ("exam_raw", FloatCol es)] |}, s').
Proof.
  intros Hne La Lcw. unfold enumerate.
  destruct types as [|ty types]; [congruence|].
  destruct a as [|x a]; [discriminate|]. destruct cw as [|c cw]; [discriminate|].
  cbn [length seq combine for_each pattern_rows].
  pose proof (apply_pattern_creates (S (length types)) (x :: a) o (c :: cw) 0
                ty s x eq_refl) as H1.
  destruct (pattern_scores x ty s) as [[cv ev] s1].
  rewrite (bind_ok _ _ _ _ _ H1). cbn [list_set repeat].
  pose proof (pattern_loop_from o types 1 [x] a [cv] cw [ev]
                (repeat nan (length types)) s1) as H2.
  cbn [app Nat.add] in H2. rewrite H2
    by (rewrite ?repeat_length; cbn [length] in *; lia).
  destruct (pattern_rows a types s1) as [[cs es] s2]. reflexivity.
Qed.

End Patterns.

(** ** Steps that may raise *)

Lemma and_then_inv {A B} (r : result A) (k : A -> result B) b :
  and_then r k = Ok b -> exists a, r = Ok a /\ k a = Ok b.
Proof. destruct r as [a|e]; [|discriminate]. cbn. eauto. Qed.

Lemma item_inv {A} (l : list A) i x : item l i = Ok x -> nth_error l i = Some x.
Proof. unfold item. destruct (nth_error l i); [|discriminate]. congruence. Qed.

(** ** The threshold sweep *)

Section Sweep.

Context {C : Classifier} {K : Metrics}.

Lemma y_pred_length probs t : length (Training.y_pred probs t) = length probs.
Proof. apply length_map. Qed.

Lemma sweep_from y_test y_probs ths : forall b0 f0 bt bf,
  PrimFloat.is_nan f0 = false ->
  for_r ths (Training.try_threshold y_test y_probs) (b0, f0) = Ok (bt, bf) ->
  (f0 <=? bf)%float = true
  /\ (forall t, In t ths ->
        exists f, fbeta_score y_test (Training.y_pred y_probs t) 1 = Ok f
                  /\ (bf <? f)%float = false)
  /\ ((bt = b0 /\ bf = f0
       /\ forall t f, In t ths ->
            fbeta_score y_test (Training.y_pred y_probs t) 1 = Ok f ->
            (f0 <? f)%float = false)
      \/ exists pre post,
           ths = pre ++ bt :: post
           /\ fbeta_score y_test (Training.y_pred y_probs bt) 1 = Ok bf
           /\ (f0 <? bf)%float = true
           /\ forall t f, In t pre ->
                fbeta_score y_test (Training.y_pred y_probs t) 1 = Ok f ->
                (bf <=? f)%float = false).
Proof.
  induction ths as [|t rest IH]; intros b0 f0 bt bf Hnan H.
  - injection H as <- <-. split.
    + apply leb_total; [assumption..|apply ltb_irrefl].
    + split; [intros t []|]. left. repeat split. intros t f [].
  - cbn [for_r] in H. apply and_then_inv in H as ([b1 f1] & Hstep & H).
    unfold Training.try_threshold in Hstep.
    apply and_then_inv in Hstep as (f & Hf & Hstep).
    destruct (f0 <? f)%float eqn:Hlt; injection Hstep as <- <-.
    + destruct (ltb_not_nan _ _ Hlt) as [_ Hfn].
      destruct (IH _ _ _ _ Hfn H) as (Hle & Hall & Hcase).
      assert (Hlt' : (f0 <? bf)%float = true)
        by (eapply ltb_leb_trans; eassumption).
      split; [apply ltb_leb, Hlt'|]. split.
      * intros t' [<-|Hin]; [|apply Hall, Hin].
        exists f. split; [exact Hf | apply leb_ltb_false, Hle].
      * right. destruct Hcase as [(-> & -> & Hnone)
                                 | (pre & post & -> & Hbt & Hfb & Hpre)].
        -- exists [], rest. repeat split; try assumption. intros t' f' [].
        -- exists (t :: pre), post. repeat split; try assumption.
           intros t' f' [<-|Hin] Hf'; [|eapply Hpre; eassumption].
           rewrite Hf in Hf'. injection Hf' as <-.
           destruct (bf <=? f)%float eqn:E; [|reflexivity].
           pose proof (ltb_leb_trans _ _ _ Hfb E) as Hc.
           rewrite ltb_irrefl in Hc. discriminate.
    + destruct (IH _ _ _ _ Hnan H) as (Hle & Hall & Hcase).
      split; [exact Hle|]. split.
      * intros t' [<-|Hin]; [|apply Hall, Hin].
        exists f. split; [exact Hf|].
        destruct (bf <? f)%float eqn:E; [|reflexivity].
        pose proof (leb_ltb_trans _ _ _ Hle E). congruence.
      * destruct Hcase as [(-> & -> & Hnone)
                          | (pre & post & -> & Hbt & Hfb & Hpre)].
        -- left. repeat split. intros t' f' [<-|Hin] Hf';
             [congruence | eapply Hnone; eassumption].
        -- right. exists (t :: pre), post. repeat split; try assumption.
           intros t' f' [<-|Hin] Hf'; [|eapply Hpre; eassumption].
           rewrite Hf in Hf'. injection Hf' as <-.
           destruct (bf <=? f)%float eqn:E; [|reflexivity].
           pose proof (ltb_leb_trans _ _ _ Hfb E). congruence.
Qed.


Lemma thresholds_grid :
  exists ths,
    Training.thresholds = Ok ths /\ length ths = 100
    /\ forallb (fun t => (0 <=? t)%float && (t <=? 1)%float
                         && negb (t =? 0.5)%float) ths = true.
Proof.
  let v := eval vm_compute in Training.thresholds in
  match v with Ok ?l => exists l end.
  repeat split; vm_compute; reflexivity.
Qed.

(** X10.  The sweep over the hundred thresholds keeps the first threshold with
    the best F1: no candidate scores above the score it returns, and every
    candidate before the returned one scores strictly less (or NaN).  When no
    candidate scores above zero it returns the initial 0.5, which is not one
    of the candidates. *)
Theorem best_threshold_is_the_first_best y_test y_probs bt bf :
  Training.best_threshold y_test y_probs = Ok (bt, bf) ->
  exists ths,
    Training.thresholds = Ok ths /\ length ths = 100
    /\ Forall (fun t => (0 <=? t)%float = true /\ (t <=? 1)%float = true) ths
    /\ (forall t, In t ths ->
          exists f, fbeta_score y_test (Training.y_pred y_probs t) 1 = Ok f
                    /\ (bf <? f)%float = false)
    /\ ((bt = 0.5%float /\ bf = 0%float /\ ~ In bt ths
         /\ forall t f, In t ths ->
              fbeta_score y_test (Training.y_pred y_probs t) 1 = Ok f ->
              (0 <? f)%float = false)
        \/ exists pre post,
             ths = pre ++ bt :: post
             /\ fbeta_score y_test (Training.y_pred y_probs bt) 1 = Ok bf
             /\ (0 <? bf)%float = true
             /\ forall t f, In t pre ->
                  fbeta_score y_test (Training.y_pred y_probs t) 1 = Ok f ->
                  (bf <=? f)%float = false).
Proof.
  intros H. unfold Training.best_threshold in H.
  destruct thresholds_grid as (ths & Hths & Hlen & Hgrid).
  rewrite Hths in H. cbn [and_then] in H. unfold Training.sweep in H.
  destruct (sweep_from y_test y_probs ths 0.5%float 0%float bt bf eq_refl H)
    as (_ & Hall & Hcase).
  rewrite forallb_forall in Hgrid.
  exists ths. split; [exact Hths|]. split; [exact Hlen|].
  split.
  { apply Forall_forall. intros t Ht. apply Hgrid in Ht.
    apply andb_prop in Ht as [Ht _]. apply andb_prop in Ht as [H0 H1]. auto. }
  split; [exact Hall|].
  destruct Hcase as [(-> & -> & Hnone) | Hfound]; [left | right; exact Hfound].
  repeat split; [|exact Hnone].
  intros Hin. apply Hgrid in Hin. apply andb_prop in Hin as [_ Hin].
  vm_compute in Hin. discriminate.
Qed.

(** X11.  Thresholding is monotone: the students flagged at a threshold are
    flagged at every lower threshold, so raising the threshold never adds a
    predicted cheater.  A probability that is NaN is never flagged. *)
Theorem raising_the_threshold_flags_fewer y_probs t1 t2 :
  (t1 <=? t2)%float = true ->
  length (Training.y_pred y_probs t1) = length y_probs
  /\ length (Training.y_pred y_probs t2) = length y_probs
  /\ forall i p,
       nth_error y_probs i = Some p ->
       exists b1 b2,
         nth_error (Training.y_pred y_probs t1) i = Some b1
         /\ nth_error (Training.y_pred y_probs t2) i = Some b2
         /\ (b1 = 0 \/ b1 = 1)%Z /\ (b2 <= b1)%Z
         /\ (PrimFloat.is_nan p = true -> b1 = 0%Z).
Proof.
  intros Hle. split; [apply y_pred_length|]. split; [apply y_pred_length|].
  intros i p Hp. unfold Training.y_pred. rewrite !nth_error_map, Hp. cbn.
  eexists _, _. split; [reflexivity|]. split; [reflexivity|].
  destruct (t2 <? p)%float eqn:E2.
  - rewrite (leb_ltb_trans _ _ _ Hle E2). repeat split; auto; try lia.
    intros Hnan. destruct (ltb_not_nan _ _ E2). congruence.
  - destruct (t1 <? p)%float eqn:E1; repeat split; auto; try lia.
    intros Hnan. destruct (ltb_not_nan _ _ E1). congruence.
Qed.

End Sweep.

(** ** The position of the largest value *)

(** The scan returns the position it was given when no later value is
    larger; otherwise the position of a later value that is NaN, or that is
    strictly above the value it was given and above every value before it. *)
Lemma argmax_from_spec l : forall mp max_ind i,
  PrimFloat.is_nan mp = false -> max_ind < i ->
  let r := Np.argmax_from mp max_ind i l in
  (r = max_ind /\ Forall (fun y => (y <=? mp)%float = true) l)
  \/ exists k x,
       r = i + k /\ nth_error l k = Some x
       /\ (PrimFloat.is_nan x = true
           \/ ((mp <? x)%float = true
               /\ forall j y, j < k -> nth_error l j = Some y ->
                    (y <? x)%float = true)).
Proof.
  induction l as [|y t IH]; intros mp max_ind i Hnan Hlt; cbn zeta.
  - left. split; [reflexivity | constructor].
  - cbn [Np.argmax_from]. destruct (y <=? mp)%float eqn:Hle.
    + destruct (IH mp max_ind (S i) Hnan ltac:(lia))
        as [[Hr Hall] | (k & x & Hr & Hx & Hcase)].
      * left. split; [exact Hr | constructor; assumption].
      * right. exists (S k), x. split; [lia|]. split; [exact Hx|].
        destruct Hcase as [Hn | [Hmx Hbefore]]; [left; exact Hn | right].
        split; [exact Hmx|]. intros [|j] y0 Hj Hy0.
        -- injection Hy0 as <-. eapply leb_ltb_trans; eassumption.
        -- eapply Hbefore; [|exact Hy0]. lia.
    + destruct (PrimFloat.is_nan y) eqn:Hny.
      * right. exists 0, y. split; [lia|]. split; [reflexivity|]. left.
        exact Hny.
      * assert (Hmy : (mp <? y)%float = true).
        { destruct (mp <? y)%float eqn:E; [reflexivity|].
          rewrite (leb_total _ _ Hnan Hny E) in Hle. discriminate. }
        destruct (IH y i (S i) Hny ltac:(lia))
          as [[Hr Hall] | (k & x & Hr & Hx & Hcase)].
        -- right. exists 0, y. split; [lia|]. split; [reflexivity|]. right.
           split; [exact Hmy|]. intros j y0 Hj. lia.
        -- right. exists (S k), x. split; [lia|]. split; [exact Hx|].
           destruct Hcase as [Hn | [Hyx Hbefore]]; [left; exact Hn | right].
           split; [eapply ltb_trans; eassumption|]. intros [|j] y0 Hj Hy0.
           ++ injection Hy0 as <-. exact Hyx.
           ++ eapply Hbefore; [|exact Hy0]. lia.
Qed.

Lemma argmax_spec l i :
  Np.argmax l = Ok i ->
  exists x,
    nth_error l i = Some x
    /\ (PrimFloat.is_nan x = true
        \/ forall j y, j < i -> nth_error l j = Some y -> (y <? x)%float = true).
Proof.
  destruct l as [|x0 t]; [discriminate|]. cbn [Np.argmax].
  destruct (PrimFloat.is_nan x0) eqn:Hn; intros [= <-].
  - exists x0. split; [reflexivity | left; exact Hn].
  - destruct (argmax_from_spec t x0 0 1 Hn ltac:(lia))
      as [[-> _] | (k & x & -> & Hx & Hcase)].
    + exists x0. split; [reflexivity|]. right. intros j y Hj. lia.
    + exists x. split; [exact Hx|].
      destruct Hcase as [Hnx | [Hx0 Hbefore]]; [left; exact Hnx | right].
      intros [|j] y Hj Hy.
      * injection Hy as <-. exact Hx0.
      * eapply Hbefore; [|exact Hy]. lia.
Qed.

Lemma argmax_lt l i : Np.argmax l = Ok i -> i < length l.
Proof.
  intros H. destruct (argmax_spec l i H) as (x & Hx & _).
  apply nth_error_Some. congruence.
Qed.

Section Optimal.

Context {C : Classifier} {K : Metrics} {F : Formatter}.

(** X12.  The precision-recall curve has one point more than it has
    thresholds.  The threshold is read at the position of the largest sum of
    precision and recall, so the read succeeds unless that position is the
    final point, and then it raises [IndexError].  It cannot be the final
    point when some earlier point has a sum that is at least the final
    one. *)
Theorem optimal_threshold_reads_inside_the_curve y_test y_probs precisions
  recalls thresholds :
  precision_recall_curve y_test y_probs = Ok (precisions, recalls, thresholds) ->
  length precisions = S (length thresholds) ->
  length recalls = S (length thresholds) ->
  exists best_idx,
    Np.argmax (map2 PrimFloat.add precisions recalls) = Ok best_idx
    /\ best_idx <= length thresholds
    /\ Likely.optimal_threshold y_test y_probs
       = match nth_error thresholds best_idx with
         | Some t => Ok t
         | None => Err IndexError
         end
    /\ (best_idx = length thresholds <->
        Likely.optimal_threshold y_test y_probs = Err IndexError)
    /\ forall j p q p' q',
         j < length thresholds ->
         nth_error precisions j = Some p -> nth_error recalls j = Some q ->
         nth_error precisions (length thresholds) = Some p' ->
         nth_error recalls (length thresholds) = Some q' ->
         (p' + q' <=? p + q)%float = true ->
         best_idx < length thresholds.
Proof.
  intros Hc Lp Lr.
  assert (Ls : length (map2 PrimFloat.add precisions recalls)
               = S (length thresholds)) by (rewrite map2_length; lia).
  destruct (Np.argmax (map2 PrimFloat.add precisions recalls)) as [i|e] eqn:Ha.
  2:{ destruct (map2 PrimFloat.add precisions recalls); discriminate. }
  pose proof (argmax_lt _ _ Ha) as Hi. rewrite Ls in Hi.
  assert (Hopt : Likely.optimal_threshold y_test y_probs
                 = match nth_error thresholds i with
                   | Some t => Ok t
                   | None => Err IndexError
                   end).
  { unfold Likely.optimal_threshold. rewrite Hc. cbn [and_then].
    unfold Np.add, Np.broadcast. rewrite Lp, Lr, Nat.eqb_refl.
    cbn [and_then]. rewrite Ha. reflexivity. }
  exists i. split; [reflexivity|]. split; [lia|]. split; [exact Hopt|].
  split.
  - rewrite Hopt. split.
    + intros ->. rewrite (proj2 (nth_error_None _ _)) by lia. reflexivity.
    + destruct (nth_error thresholds i) eqn:E; [discriminate|].
      intros _. apply nth_error_None in E. lia.
  - intros j p q p' q' Hj Hp Hq Hp' Hq' Hle.
    destruct (Nat.eq_dec i (length thresholds)) as [->|]; [|lia].
    destruct (argmax_spec _ _ Ha) as (x & Hx & Hcase).
    rewrite (nth_error_map2 _ _ _ _ _ _ Hp' Hq') in Hx. injection Hx as <-.
    destruct (leb_not_nan _ _ Hle) as [Hn _].
    destruct Hcase as [Hnan | Hbefore]; [congruence|].
    pose proof (Hbefore j (p + q)%float Hj
                  (nth_error_map2 _ _ _ _ _ _ Hp Hq)) as Hlt.
    rewrite (leb_ltb_false _ _ Hle) in Hlt. discriminate.
Qed.

End Optimal.

(** ** The analysis of one student *)

Lemma linspace_length start stop n endpoint :
  exists l, Np.linspace start stop (Z.of_nat n) endpoint = Ok l /\ length l = n.
Proof.
  unfold Np.linspace. destruct (Z.ltb_spec (Z.of_nat n) 0); [lia|].
  eexists. split; [reflexivity|].
  assert (H0 : forall y : list float, length y = n ->
             length (if endpoint && (1 <? Z.of_nat n)%Z
                     then list_set y (Z.to_nat (Z.of_nat n) - 1) stop
                     else y) = n).
  { intros y Hy. destruct (endpoint && _); [rewrite list_set_length|]; exact Hy. }
  apply H0. rewrite length_map.
  destruct (0 <? _)%Z; [destruct (_ =? 0)%float|];
    rewrite !length_map, length_seq; lia.
Qed.

Lemma removelast_snoc {A} (l : list A) x : removelast (l ++ [x]) = l.
Proof. apply removelast_last. Qed.

Section Student.

Context {C : Classifier} {K : Metrics} {F : Formatter}.

(** The chart is drawn exactly when there is one value per category and at
    least one value; the first value and the first angle are repeated at the
    end. *)
Lemma radar_chart_spec categories values :
  Analysis.radar_chart categories values
  = match values with
    | [] => Err IndexError
    | v0 :: _ =>
        if Nat.eqb (length values) (length categories)
        then
          match Np.linspace 0 (2 * Np.pi) (Z.of_nat (length categories)) false
          with
          | Ok angles =>
              Ok {| Plt.line_x := angles ++ firstn 1 angles;
                    Plt.line_y := values ++ [v0];
                    Plt.xticks := angles;
                    Plt.xticklabels := categories |}
          | Err e => Err e
          end
        else Err ValueError
    end.
Proof.
  unfold Analysis.radar_chart.
  destruct (linspace_length 0 (2 * Np.pi) (length categories) false)
    as (angles & -> & Hlen).
  cbn [and_then]. destruct values as [|v0 values]; [reflexivity|].
  cbn [item nth_error and_then]. unfold Plt.plot, Np.append.
  rewrite !length_app, length_firstn, Hlen. cbn [length].
  destruct (Nat.eqb_spec (S (length values)) (length categories)) as [E|E].
  - destruct angles as [|a0 angles]; [cbn in Hlen; lia|].
    cbn [firstn]. replace (Nat.min 1 (length categories)) with 1 by lia.
    replace (length categories + 1) with (S (length values) + 1) by lia.
    rewrite Nat.eqb_refl. cbn [and_then fst snd].
    rewrite removelast_snoc. unfold Plt.set_xticklabels.
    rewrite Hlen, Nat.eqb_refl. reflexivity.
  - destruct (Nat.eqb_spec (length categories + Nat.min 1 (length categories))
                (S (length values) + 1)) as [E'|E']; [lia|]. reflexivity.
Qed.


(** X13.  The radar chart is drawn exactly when the student has at least one
    value and one value per category: an empty student raises [IndexError],
    any other mismatch [ValueError].  The polygon that is drawn is closed:
    the first value and the first angle are repeated at the end, and the
    ticks are the angles of the categories. *)
Theorem radar_chart_closes_the_polygon categories values :
  match Analysis.radar_chart categories values with
  | Ok fig =>
      exists angles v0 a0,
        Np.linspace 0 (2 * Np.pi) (Z.of_nat (length categories)) false
        = Ok angles
        /\ length angles = length categories
        /\ length values = length categories
        /\ nth_error values 0 = Some v0 /\ nth_error angles 0 = Some a0
        /\ Plt.line_x fig = angles ++ [a0]
        /\ Plt.line_y fig = values ++ [v0]
        /\ Plt.xticks fig = angles
        /\ Plt.xticklabels fig = categories
  | Err e =>
      (values = [] /\ e = IndexError)
      \/ (values <> [] /\ length values <> length categories
          /\ e = ValueError)
  end.
Proof.
  rewrite radar_chart_spec.
  destruct values as [|v0 values]; [left; auto|].
  destruct (Nat.eqb_spec (length (v0 :: values)) (length categories)) as [E|E].
  - destruct (linspace_length 0 (2 * Np.pi) (length categories) false)
      as (angles & -> & Hlen).
    destruct angles as [|a0 angles]; [cbn in *; lia|].
    exists (a0 :: angles), v0, a0. repeat split; auto.
  - right. repeat split; [discriminate | exact E].
Qed.

Lemma DataFrame_row_inv row names df :
  Pd.DataFrame_row row names = Ok df -> length row = length names.
Proof.
  unfold Pd.DataFrame_row.
  destruct (Nat.eqb_spec (length row) (length names)); [auto | discriminate].
Qed.

Lemma predict_inv data names thr p prob :
  Analysis.predict data names thr = Ok (p, prob) ->
  length data = length names
  /\ p = (if (thr <? prob)%float then 1%Z else 0%Z).
Proof.
  unfold Analysis.predict. intros H.
  apply and_then_inv in H as (df & Hdf & H).
  apply and_then_inv in H as (proba & _ & H).
  apply and_then_inv in H as (pos & _ & H).
  apply and_then_inv in H as (pr & _ & H).
  injection H as <- <-. split; [|reflexivity].
  eapply DataFrame_row_inv, Hdf.
Qed.

(** X14.  The definitions of the analysis agree.  Whenever the last definition
    of [analyze_student] returns for a student with at least one value, the
    definition with the chart and the dashboard return too, with the same
    prediction and probability; the chart cannot fail.  The prediction is 1
    exactly when the probability is above the threshold, and the student has
    one value per feature name. *)
Theorem analysis_definitions_agree student_id student_data feature_names
  threshold prediction prob contributions :
  Summary.analyze_student student_id student_data feature_names threshold
  = Ok (prediction, prob, contributions) ->
  student_data <> [] ->
  exists radar_fig,
    Analysis.radar_chart feature_names student_data = Ok radar_fig
    /\ Likely.analyze_student student_id student_data feature_names threshold
       = Ok (prediction, prob, contributions, radar_fig)
    /\ Analysis.analyze_student_with_dashboard student_id student_data
         feature_names threshold
       = Ok (prediction, Analysis.report student_id prob prediction,
             [("radar_chart", radar_fig)])
    /\ length student_data = length feature_names
    /\ prediction = (if (threshold <? prob)%float then 1%Z else 0%Z).
Proof.
  intros H Hne. unfold Summary.analyze_student in H.
  apply and_then_inv in H as ([p pr] & Hp & H).
  apply and_then_inv in H as (w & Hw & H).
  injection H as <- <- <-.
  destruct (predict_inv _ _ _ _ _ Hp) as [Hlen Hpred].
  pose proof (radar_chart_spec feature_names student_data) as Hr.
  destruct student_data as [|v0 rest]; [congruence|].
  rewrite Hlen, Nat.eqb_refl in Hr.
  destruct (linspace_length 0 (2 * Np.pi) (length feature_names) false)
    as (angles & Ha & _).
  rewrite Ha in Hr.
  eexists. split; [exact Hr|].
  unfold Likely.analyze_student, Analysis.analyze_student_with_dashboard.
  rewrite Hp. cbn [and_then]. rewrite Hw, Hr. cbn [and_then].
  repeat split; assumption.
Qed.

(** ** The contributions of the features *)

Lemma dict_set_fresh {V} k (v : V) d :
  ~ In k (map fst d) -> dict_set k v d = d ++ [(k, v)].
Proof.
  induction d as [|[k0 v0] rest IH]; [reflexivity|]. cbn [map fst dict_set app].
  intros Hn. destruct (String.eqb_spec k0 k) as [->|];
    [exfalso; apply Hn; left; reflexivity|].
  rewrite IH; [reflexivity|]. intros Hin. apply Hn. right. exact Hin.
Qed.

Lemma dict_distinct {V} (pairs : list (string * V)) :
  NoDup (map fst pairs) -> dict pairs = pairs.
Proof.
  unfold dict. intros Hnd.
  assert (H : forall d, NoDup (map fst (d ++ pairs)) ->
            fold_left (fun d kv => dict_set (fst kv) (snd kv) d) pairs d
            = d ++ pairs).
  { clear Hnd. induction pairs as [|[k v] rest IH]; intros d Hnd; cbn.
    - rewrite app_nil_r. reflexivity.
    - rewrite dict_set_fresh.
      + rewrite IH; rewrite <- app_assoc; [reflexivity | exact Hnd].
      + rewrite map_app in Hnd. cbn in Hnd.
        apply NoDup_remove_2 in Hnd. intros Hin. apply Hnd, in_or_app.
        left. exact Hin. }
  apply (H []). exact Hnd.
Qed.

Lemma dict_lookup_combine {V} (names : list string) (vals : list V) i k v :
  NoDup names ->
  nth_error names i = Some k -> nth_error vals i = Some v ->
  dict_lookup k (combine names vals) = Some v.
Proof.
  intros Hnd. revert vals i.
  induction Hnd as [|n names Hn Hnd IH]; intros vals i Hk Hv.
  - destruct i; discriminate.
  - destruct vals as [|v0 vals]; [destruct i; discriminate|].
    cbn [combine dict_lookup]. destruct i as [|i]; cbn in Hk, Hv.
    + injection Hk as ->. injection Hv as ->. rewrite String.eqb_refl.
      reflexivity.
    + destruct (String.eqb_spec n k) as [->|].
      * exfalso. apply Hn. eapply nth_error_In, Hk.
      * eapply IH; eassumption.
Qed.

Lemma map_fst_combine {A B} (l1 : list A) (l2 : list B) :
  length l1 = length l2 -> map fst (combine l1 l2) = l1.
Proof.
  revert l2. induction l1 as [|a l1 IH]; intros [|b l2]; cbn; try discriminate;
    auto.
  intros [= H]. rewrite IH by exact H. reflexivity.
Qed.

(** X15.  With distinct feature names and one importance per feature, the
    dictionary of the contributions has one entry per feature, in the order
    of the names, and the entry of a feature is its importance times the
    student's value. *)
Theorem feature_contributions_by_name student_id student_data feature_names
  threshold prediction prob contributions :
  Summary.analyze_student student_id student_data feature_names threshold
  = Ok (prediction, prob, contributions) ->
  NoDup feature_names ->
  length feature_importances_ = length student_data ->
  map fst contributions = feature_names
  /\ forall i name w x,
       nth_error feature_names i = Some name ->
       nth_error feature_importances_ i = Some w ->
       nth_error student_data i = Some x ->
       dict_lookup name contributions = Some (w * x)%float.
Proof.
  intros H Hnd Hlen. unfold Summary.analyze_student in H.
  apply and_then_inv in H as ([p pr] & Hp & H).
  apply and_then_inv in H as (w & Hw & H).
  injection H as <- <- <-.
  destruct (predict_inv _ _ _ _ _ Hp) as [Hln _].
  unfold Np.multiply, Np.broadcast in Hw.
  rewrite Hlen, Nat.eqb_refl in Hw. injection Hw as <-.
  assert (Lw : length (map2 PrimFloat.mul feature_importances_ student_data)
               = length feature_names)
    by (rewrite map2_length; lia).
  rewrite dict_distinct by (rewrite map_fst_combine by lia; exact Hnd).
  split; [apply map_fst_combine; lia|].
  intros i name w x Hn Hwi Hx.
  eapply dict_lookup_combine; [exact Hnd | exact Hn|].
  apply nth_error_map2; assumption.
Qed.

End Student.

(** ** The lists of students *)

Section Lists.

Context {C : Classifier} {K : Metrics} {F : Formatter}.

Lemma likely_analyze_inv id data names thr p prob fc fig :
  Likely.analyze_student id data names thr = Ok (p, prob, fc, fig) ->
  Analysis.predict data names thr = Ok (p, prob).
Proof.
  unfold Likely.analyze_student. intros H.
  apply and_then_inv in H as ([p0 pr0] & Hp & H).
  apply and_then_inv in H as (w & _ & H).
  apply and_then_inv in H as (f & _ & H).
  injection H as <- <- _ _. exact Hp.
Qed.

Lemma summary_analyze_inv id data names thr p prob fc :
  Summary.analyze_student id data names thr = Ok (p, prob, fc) ->
  Analysis.predict data names thr = Ok (p, prob).
Proof.
  unfold Summary.analyze_student. intros H.
  apply and_then_inv in H as ([p0 pr0] & Hp & H).
  apply and_then_inv in H as (w & _ & H).
  injection H as <- <- _. exact Hp.
Qed.

Lemma likely_loop X names thr : forall m j acc rows,
  for_r (seq j m) (Likely.visit X names thr) acc = Ok rows ->
  exists new,
    rows = acc ++ new
    /\ map (fun r => (Likely.student_id r, Likely.predicted_probability r))
         new
       = map (fun i => (Z.of_nat i, probability X names thr i))
           (filter (flagged X names thr) (seq j m))
    /\ Forall (fun r =>
                 exists i data p fc,
                   Likely.student_id r = Z.of_nat i
                   /\ nth_error X i = Some data
                   /\ Likely.analyze_student (Z.of_nat i) data names thr
                      = Ok (p, Likely.predicted_probability r, fc,
                            Likely.radar_chart r)
                   /\ Likely.feature_contributions r = fc) new.
Proof.
  induction m as [|m IH]; intros j acc rows H.
  - injection H as <-. exists []. rewrite app_nil_r. repeat split. constructor.
  - cbn [seq for_r] in H. apply and_then_inv in H as (acc1 & Hv & H).
    unfold Likely.visit in Hv.
    apply and_then_inv in Hv as (data & Hd & Hv). apply item_inv in Hd.
    apply and_then_inv in Hv as ([[[p prob] fc] fig] & Ha & Hv).
    pose proof (likely_analyze_inv _ _ _ _ _ _ _ _ Ha) as Hp.
    destruct (IH _ _ _ H) as (new & -> & Hids & Hall).
    cbn [seq filter]. unfold flagged at 1. rewrite Hd, Hp.
    destruct (p =? 1)%Z; injection Hv as <-.
    + eexists (_ :: new). rewrite <- app_assoc. split; [reflexivity|].
      split.
      { cbn [map Likely.student_id Likely.predicted_probability].
        rewrite Hids. unfold probability at 2. rewrite Hd, Hp. reflexivity. }
      constructor; [|exact Hall].
      exists j, data, p, fc. cbn. auto.
    + exists new. auto.
Qed.

Lemma students_loop X names thr : forall m j acc rows,
  for_r (seq j m) (Summary.visit X names thr) acc = Ok rows ->
  exists new,
    rows = acc ++ new
    /\ map (fun r => (Summary.student_id r, Summary.predicted_probability r))
         new
       = map (fun i => (Z.of_nat i, probability X names thr i)) (seq j m)
    /\ map Summary.cheater new
       = map (fun i => if flagged X names thr i then "Yes" else "No")
           (seq j m)
    /\ Forall (fun r =>
                 exists i data p fc,
                   Summary.student_id r = Z.of_nat i
                   /\ nth_error X i = Some data
                   /\ Summary.analyze_student (Z.of_nat i) data names thr
                      = Ok (p, Summary.predicted_probability r, fc)) new.
Proof.
  induction m as [|m IH]; intros j acc rows H.
  - injection H as <-. exists []. rewrite app_nil_r. repeat split. constructor.
  - cbn [seq for_r] in H. apply and_then_inv in H as (acc1 & Hv & H).
    unfold Summary.visit in Hv.
    apply and_then_inv in Hv as (data & Hd & Hv). apply item_inv in Hd.
    apply and_then_inv in Hv as ([[p prob] fc] & Ha & Hv).
    pose proof (summary_analyze_inv _ _ _ _ _ _ _ Ha) as Hp.
    destruct (IH _ _ _ H) as (new & -> & Hids & Hch & Hall).
    injection Hv as <-.
    eexists (_ :: new). rewrite <- app_assoc. split; [reflexivity|].
    cbn [map seq Summary.student_id Summary.cheater
         Summary.predicted_probability].
    split.
    { rewrite Hids. unfold probability at 2. rewrite Hd, Hp. reflexivity. }
    split.
    { rewrite Hch. unfold flagged at 2. rewrite Hd, Hp. reflexivity. }
    constructor; [|exact Hall].
    exists j, data, p, fc. cbn. auto.
Qed.


Lemma filter_yes {A} (f : nat -> A) (g : nat -> bool) (l : list nat)
  (all : list Summary.Row) (proj : Summary.Row -> A) :
  map proj all = map f l ->
  map Summary.cheater all = map (fun i => if g i then "Yes" else "No") l ->
  map proj (filter (fun r => String.eqb (Summary.cheater r) "Yes") all)
  = map f (filter g l).
Proof.
  revert all. induction l as [|i l IH]; intros [|r all]; cbn; try discriminate;
    [reflexivity|].
  intros [= H1 H2] [= H3 H4]. rewrite H3.
  destruct (g i); cbn; [rewrite H1|]; rewrite (IH all) by assumption;
    reflexivity.
Qed.

(** X16.  The two lists of students agree.  The full list has one row per
    student, in order; the list of likely cheaters holds exactly the students
    that the full list marks Yes, in the same order and with the same
    probabilities. *)
Theorem likely_cheaters_are_the_rows_marked_yes X_test_scaled feature_names
  threshold likely all :
  Likely.likely_cheaters X_test_scaled feature_names threshold = Ok likely ->
  Summary.students_list X_test_scaled feature_names threshold = Ok all ->
  length all = length X_test_scaled
  /\ map Summary.student_id all
     = map Z.of_nat (seq 0 (length X_test_scaled))
  /\ Forall (fun r => Summary.cheater r = "Yes" \/ Summary.cheater r = "No")
       all
  /\ map (fun r => (Likely.student_id r, Likely.predicted_probability r))
       likely
     = map (fun r => (Summary.student_id r, Summary.predicted_probability r))
         (filter (fun r => String.eqb (Summary.cheater r) "Yes") all).
Proof.
  unfold Likely.likely_cheaters, Summary.students_list, Py.range.
  rewrite Nat2Z.id. intros Hl Ha.
  apply likely_loop in Hl as (new1 & -> & Hid1 & _).
  apply students_loop in Ha as (new2 & -> & Hid2 & Hch & _).
  cbn [app].
  assert (Hlen : length new2 = length X_test_scaled).
  { apply (f_equal (@length _)) in Hid2.
    rewrite !length_map, length_seq in Hid2. exact Hid2. }
  split; [exact Hlen|].
  split.
  { apply (f_equal (map fst)) in Hid2. rewrite !map_map in Hid2. exact Hid2. }
  split.
  { apply Forall_forall. intros r0 Hr.
    assert (Hin : In (Summary.cheater r0) (map Summary.cheater new2))
      by (apply in_map, Hr).
    rewrite Hch in Hin. apply in_map_iff in Hin as (i & <- & _).
    destruct (flagged _ _ _ i); auto. }
  rewrite Hid1. symmetry. apply filter_yes; assumption.
Qed.

(** X17.  The summary table of the likely cheaters selects its two columns
    from a frame built from the list; a frame built from an empty list has no
    column.  So when the model flags no student the selection raises
    [KeyError]; otherwise the table holds the flagged students. *)
Theorem summary_table_needs_a_likely_cheater X_test_scaled feature_names
  threshold likely :
  Likely.likely_cheaters X_test_scaled feature_names threshold = Ok likely ->
  match Likely.summary_table likely with
  | Ok table =>
      likely <> []
      /\ table = map (fun r => (Likely.student_id r,
                                Likely.predicted_probability r)) likely
      /\ exists i student_data prob,
           nth_error X_test_scaled i = Some student_data
           /\ Analysis.predict student_data feature_names threshold
              = Ok (1%Z, prob)
  | Err e =>
      e = KeyError /\ likely = []
      /\ forall i student_data,
           nth_error X_test_scaled i = Some student_data ->
           exists prob,
             Analysis.predict student_data feature_names threshold
             = Ok (0%Z, prob)
  end.
Proof.
  unfold Likely.likely_cheaters, Py.range. rewrite Nat2Z.id. intros Hl.
  pose proof Hl as Hl'.
  apply likely_loop in Hl as (new & -> & Hid & Hall). cbn [app] in *.
  destruct new as [|r0 rest].
  - cbn. repeat split. intros i data Hd.
    assert (Hi : i < length X_test_scaled)
      by (apply nth_error_Some; congruence).
    assert (Hf : flagged X_test_scaled feature_names threshold i = false).
    { destruct (flagged X_test_scaled feature_names threshold i) eqn:E;
        [|reflexivity].
      assert (Hin : In i (filter (flagged X_test_scaled feature_names threshold)
                            (seq 0 (length X_test_scaled)))).
      { apply filter_In. split; [apply in_seq; lia | exact E]. }
      cbn [map] in Hid. symmetry in Hid. apply map_eq_nil in Hid.
      rewrite Hid in Hin. destruct Hin. }
    (* the loop analysed every student *)
    assert (Hok : forall m j acc rows,
              for_r (seq j m) (Likely.visit X_test_scaled feature_names threshold)
                acc = Ok rows ->
              forall i d, j <= i < j + m -> nth_error X_test_scaled i = Some d ->
                exists p prob,
                  Analysis.predict d feature_names threshold = Ok (p, prob)).
    { clear. induction m as [|m IH]; intros j acc rows H i d Hi Hd; [lia|].
      cbn [seq for_r] in H. apply and_then_inv in H as (acc1 & Hv & H).
      destruct (Nat.eq_dec i j) as [->|Hne].
      - unfold Likely.visit in Hv.
        apply and_then_inv in Hv as (data & Hd' & Hv). apply item_inv in Hd'.
        apply and_then_inv in Hv as ([[[p prob] fc] fig] & Ha & _).
        apply likely_analyze_inv in Ha. exists p, prob. congruence.
      - eapply (IH _ _ _ H i d); [lia | exact Hd]. }
    destruct (Hok _ _ _ _ Hl' i data ltac:(lia) Hd) as (p & prob & Hp).
    exists prob. unfold flagged in Hf. rewrite Hd, Hp in Hf.
    destruct (predict_inv _ _ _ _ _ Hp) as [_ ->].
    destruct (threshold <? prob)%float; [discriminate | exact Hp].
  - cbn. split; [discriminate|]. split; [reflexivity|].
    inversion Hall as [|? ? (i & data & p & fc & Hi & Hd & Ha & _) _]; subst.
    assert (Hin : In (Likely.student_id r0)
                    (map fst (map (fun i => (Z.of_nat i,
                                    probability X_test_scaled feature_names
                                      threshold i))
                       (filter (flagged X_test_scaled feature_names threshold)
                          (seq 0 (length X_test_scaled)))))).
    { rewrite <- Hid. left. reflexivity. }
    rewrite map_map in Hin. cbn [fst] in Hin.
    apply in_map_iff in Hin as (i' & Hi' & Hfl). apply filter_In in Hfl as [_ Hfl].
    rewrite Hi in Hi'. apply Nat2Z.inj in Hi'. subst i'.
    apply likely_analyze_inv in Ha.
    unfold flagged in Hfl. rewrite Hd, Ha in Hfl.
    apply Z.eqb_eq in Hfl. subst p. eauto.
Qed.

End Lists.

Section Highlight.

Context {C : Classifier} {K : Metrics} {F : Formatter}.

Lemma students_loop_nth X names thr : forall m j acc rows,
  for_r (seq j m) (Summary.visit X names thr) acc = Ok rows ->
  exists new,
    rows = acc ++ new /\ length new = m
    /\ forall k, k < m ->
         exists data p prob fc,
           nth_error X (j + k) = Some data
           /\ Summary.analyze_student (Z.of_nat (j + k)) data names thr
              = Ok (p, prob, fc)
           /\ nth_error new k
              = Some {| Summary.student_id := Z.of_nat (j + k);
                        Summary.predicted_probability := prob;
                        Summary.cheater :=
                          if (p =? 1)%Z then "Yes" else "No" |}.
Proof.
  induction m as [|m IH]; intros j acc rows H.
  - injection H as <-. exists []. rewrite app_nil_r. repeat split. lia.
  - cbn [seq for_r] in H. apply and_then_inv in H as (acc1 & Hv & H).
    unfold Summary.visit in Hv.
    apply and_then_inv in Hv as (data & Hd & Hv). apply item_inv in Hd.
    apply and_then_inv in Hv as ([[p prob] fc] & Ha & Hv).
    injection Hv as <-.
    destruct (IH _ _ _ H) as (new & -> & Hlen & Hnth).
    eexists (_ :: new). rewrite <- app_assoc. split; [reflexivity|].
    split; [cbn; lia|].
    intros [|k] Hk.
    + rewrite Nat.add_0_r. exists data, p, prob, fc. auto.
    + destruct (Hnth k ltac:(lia)) as (d' & p' & pr' & fc' & H1 & H2 & H3).
      rewrite <- plus_n_Sm. exists d', p', pr', fc'. auto.
Qed.

(** X18.  The full table of the students is selected from a frame built from
    the list, so it raises [KeyError] exactly when there is no student.
    Otherwise the table has one row per student, and the style of a row
    paints its three cells blue exactly when the student's prediction is 1;
    the cells of every other row get no style. *)
Theorem highlighted_rows_are_the_predicted_cheaters X_test_scaled
  feature_names threshold all :
  Summary.students_list X_test_scaled feature_names threshold = Ok all ->
  match Summary.summary_table all with
  | Ok table =>
      X_test_scaled <> [] /\ table = all
      /\ length (Summary.highlighted_table table) = length X_test_scaled
      /\ forall i student_data,
           nth_error X_test_scaled i = Some student_data ->
           exists prediction prob,
             Analysis.predict student_data feature_names threshold
             = Ok (prediction, prob)
             /\ nth_error (Summary.highlighted_table table) i
                = Some (repeat (if (prediction =? 1)%Z
                                then "background-color: blue" else "") 3)
  | Err e => e = KeyError /\ X_test_scaled = []
  end.
Proof.
  unfold Summary.students_list, Py.range. rewrite Nat2Z.id. intros H.
  apply students_loop_nth in H as (new & -> & Hlen & Hnth). cbn [app].
  destruct new as [|r0 rest].
  - cbn. split; [reflexivity|]. destruct X_test_scaled; [reflexivity|].
    discriminate.
  - cbn [Summary.summary_table Likely.frame_columns forallb Pd.mem existsb
         Summary.columns String.eqb Ascii.eqb Bool.eqb orb andb].
    split; [destruct X_test_scaled; [discriminate | discriminate]|].
    split; [reflexivity|].
    split; [unfold Summary.highlighted_table; rewrite length_map; exact Hlen|].
    intros i data Hd.
    assert (Hi : i < length X_test_scaled)
      by (apply nth_error_Some; congruence).
    destruct (Hnth i Hi) as (d' & p & prob & fc & H1 & H2 & H3).
    cbn [Nat.add] in H1, H2, H3. rewrite Hd in H1. injection H1 as <-.
    exists p, prob. split; [eapply summary_analyze_inv, H2|].
    unfold Summary.highlighted_table. rewrite nth_error_map, H3.
    cbn [option_map Summary.highlight Summary.cheater Summary.columns map].
    destruct (p =? 1)%Z; reflexivity.
Qed.

End Highlight.

Lemma bind_ext {S A B} (c : M S A) (k1 k2 : A -> M S B) s :
  (forall a s', c s = Ok (a, s') -> k1 a s' = k2 a s') ->
  bind c k1 s = bind c k2 s.
Proof.
  intros H. unfold bind. destruct (c s) as [[a s']|e]; [|reflexivity].
  apply H. reflexivity.
Qed.

Lemma for_each_ext {S A B} (I : B -> Prop) (f g : A -> B -> M S B) l :
  (forall x acc s, In x l -> I acc -> f x acc s = g x acc s) ->
  (forall x acc s acc' s',
      In x l -> I acc -> g x acc s = Ok (acc', s') -> I acc') ->
  forall acc s, I acc -> for_each l f acc s = for_each l g acc s.
Proof.
  induction l as [|x t IH]; intros Hfg Hinv acc s HI; [reflexivity|].
  cbn [for_each]. unfold bind. rewrite Hfg by (cbn; auto).
  destruct (g x acc s) as [[acc' s']|e] eqn:E; [|reflexivity].
  apply IH.
  - intros y a0 s0 Hy. apply Hfg. right. exact Hy.
  - intros y a0 s0 a1 s1 Hy. apply Hinv. right. exact Hy.
  - eapply Hinv; [left; reflexivity | exact HI | exact E].
Qed.

(** ** The degenerate case without cheaters *)

Section NoCheaters.

Context {R : NumpyRandom} {D : OutlierDetector}.

Lemma In_range i z : In i (Py.range z) -> i < Z.to_nat z.
Proof. unfold Py.range. rewrite in_seq. lia. Qed.

Lemma loc_no_cheater d n i :
  df_lookup "cheater" (cols d) = Some (IntCol (repeat 0%Z n)) -> i < n ->
  Pd.loc d i "cheater" = Ok (VInt 0).
Proof.
  intros Hc Hi. eapply loc_int_ok; [exact Hc|]. apply nth_error_repeat, Hi.
Qed.

Lemma bind_cong {S A B} (c1 c2 : M S A) (k1 k2 : A -> M S B) s :
  c1 s = c2 s ->
  (forall a s', c2 s = Ok (a, s') -> k1 a s' = k2 a s') ->
  bind c1 k1 s = bind c2 k2 s.
Proof.
  intros Hc H. unfold bind. rewrite Hc.
  destruct (c2 s) as [[a s']|e]; [|reflexivity]. apply H. reflexivity.
Qed.

Lemma subject_variation_block_honest z d s :
  df_lookup "cheater" (cols d) = Some (IntCol (repeat 0%Z (Z.to_nat z))) ->
  subject_variation_block z d s = Honest.subject_variation_block z d s.
Proof.
  intros Hc. unfold subject_variation_block, Honest.subject_variation_block.
  apply bind_ext. intros scores s0 _.
  apply bind_cong; [|reflexivity].
  apply (for_each_ext (fun _ => True)); [|auto|exact I].
  intros i acc s1 Hi _. apply In_range in Hi.
  unfold subject_row, Honest.subject_row. apply bind_ext. intros b s2 _.
  step_lift (loc_no_cheater d _ i Hc Hi). reflexivity.
Qed.

Lemma historical_trend_block_honest z d s :
  df_lookup "cheater" (cols d) = Some (IntCol (repeat 0%Z (Z.to_nat z))) ->
  historical_trend_block z d s
  = match Honest.historical_trend_block z d s with
    | Ok (d', s') => Ok ((d', [], []), s')
    | Err e => Err e
    end.
Proof.
  intros Hc.
  assert (Hidx : Pd.index_where_eq d "cheater" 1 = Ok []).
  { unfold Pd.index_where_eq, Pd.get_col. rewrite Hc. cbn [col_eq_int].
    rewrite positions_none; [reflexivity|].
    rewrite map_repeat. apply forallb_repeat. reflexivity. }
  unfold historical_trend_block, Honest.historical_trend_block.
  rewrite Hidx. unfold bind.
  destruct (lift (Pd.get_float d "ability") s) as [[a s1]|e]; [|reflexivity].
  destruct (normal_n 0 0.5 z s1) as [[noise s2]|e]; [|reflexivity].
  destruct (lift (Pd.get_float d "coursework_raw") s2) as [[cw s3]|e];
    [|reflexivity].
  destruct (lift (Pd.get_float d "exam_raw") s3) as [[ex s4]|e];
    [|reflexivity].
  unfold lift at 1.
  change (Py.int (Py.float_of_nat (length (@nil nat)) * 0.6)%float)
    with (@Ok Z 0%Z).
  unfold lift at 1.
  destruct (choice_no_replace [] 0 s4) as [[si s5]|e] eqn:Ech; [|reflexivity].
  assert (si = []).
  { unfold choice_no_replace in Ech. cbn [Z.ltb Z.compare length Z.of_nat] in Ech.
    destruct (rng_permutation 0 s4) as [perm s6]. cbn in Ech.
    injection Ech as <- _. reflexivity. }
  subst si. cbn [for_each]. unfold ret at 1.
  destruct (lift _ s5) as [[d' s6]|e]; reflexivity.
Qed.

Lemma exam_time_block_honest z d s :
  exam_time_block z [] d s = Honest.exam_time_block z d s.
Proof.
  unfold exam_time_block, Honest.exam_time_block.
  apply bind_ext. intros base s1 _. unfold bind.
  destruct (lift _ s1) as [[d' s2]|e]; reflexivity.
Qed.

Lemma score_variance_row_honest i d s n :
  df_lookup "cheater" (cols d) = Some (IntCol (repeat 0%Z n)) -> i < n ->
  score_variance_row i d s = Honest.score_variance_row i d s.
Proof.
  intros Hc Hi. unfold score_variance_row, Honest.score_variance_row.
  step_lift (loc_no_cheater d _ i Hc Hi). cbn [value_eq_int Z.eqb].
  unfold bind.
  destruct (lift (Pd.loc_float d i "ability") s) as [[a s1]|e]; [|reflexivity].
  destruct (normal_n 0 1 8 s1) as [[noise s2]|e]; reflexivity.
Qed.

Lemma score_variance_loop_honest z d s :
  df_lookup "cheater" (cols d) = Some (IntCol (repeat 0%Z (Z.to_nat z))) ->
  for_each (Py.range z) score_variance_row d s
  = for_each (Py.range z) Honest.score_variance_row d s.
Proof.
  intros Hc.
  apply (for_each_ext
           (fun acc => df_lookup "cheater" (cols acc)
                       = Some (IntCol (repeat 0%Z (Z.to_nat z))))).
  - intros i acc s1 Hi Hacc. apply In_range in Hi.
    eapply score_variance_row_honest; eassumption.
  - intros i acc s1 acc' s' Hi Hacc Hrow.
    unfold Honest.score_variance_row in Hrow.
    apply bind_lift_inv in Hrow as (a & _ & Hrow).
    apply bind_inv in Hrow as (noise & s2 & _ & Hrow).
    injection Hrow as <- _.
    unfold Pd.loc_set, with_col. cbn [cols].
    rewrite lookup_upsert_neq by discriminate. exact Hacc.
  - exact Hc.
Qed.

Lemma make_data_no_cheaters z r s nf :
  (0 <= z)%Z ->
  Py.float_of_int z = Ok nf -> Py.int (nf * r)%float = Ok 0%Z ->
  exists a cw ex s1,
    let d0 := {| nrows := Z.to_nat z;
                 cols := [("ability", FloatCol a);
                          ("cheater", IntCol (repeat 0%Z (Z.to_nat z)));
                          ("coursework_raw", FloatCol cw);
                          ("exam_raw", FloatCol ex)] |} in
    make_non_cheaters z (rng_seed 42) = Ok (d0, s1)
    /\ make_data z r s = Ok ((0%Z, [], d0), s1)
    /\ length a = Z.to_nat z /\ length cw = Z.to_nat z
    /\ length ex = Z.to_nat z.
Proof.
  intros Hz Hnf Hk.
  destruct (make_non_cheaters_ok z (rng_seed 42) Hz)
    as (a & cw & ex & s1 & Hnc & La & Lcw & Lex).
  exists a, cw, ex, s1. cbv zeta. split; [exact Hnc|].
  split; [|repeat split; assumption].
  unfold make_data, bind at 1, seed. step_lift Hnf. step_lift Hk.
  rewrite Z.sub_0_r. step_with Hnc.
  assert (Hch : make_cheaters 0 s1
                = Ok ({| nrows := 0;
                         cols := [("ability", FloatCol []);
                                  ("cheater", IntCol []);
                                  ("coursework_raw", FloatCol [])] |}, s1))
    by reflexivity.
  step_with Hch.
  assert (Hty : choice_p cheater_type_names 0 [0.5; 0.3; 0.2]%float s1
                = Ok ([], s1)) by reflexivity.
  step_with Hty. cbn [enumerate length seq combine for_each].
  unfold bind, ret. rewrite concat_full_partial, !app_nil_r, Nat.add_0_r.
  reflexivity.
Qed.

(** With no cheater, the run up to the detector is the run of the generator
    without the cheater-only logic: the same frame, the same groups and the
    same state of the random stream. *)
Lemma prepare_no_cheaters z r s nf :
  (1 <= z)%Z ->
  Py.float_of_int z = Ok nf -> Py.int (nf * r)%float = Ok 0%Z ->
  exists groups avg d s',
    Honest.prepare z s = Ok ((groups, avg, d), s')
    /\ prepare z r s = Ok ((0%Z, [], [], [], groups, avg, d), s').
Proof.
  intros Hz Hnf Hk.
  assert (Hz0 : (0 <= z)%Z) by lia.
  destruct (make_data_no_cheaters z r s nf Hz0 Hnf Hk)
    as (a & cw & ex & s1 & Hnc & Hmd & La & Lcw & Lex).
  cbv zeta in Hnc, Hmd.
  set (n := Z.to_nat z) in *.
  set (d0 := {| nrows := n;
                cols := [("ability", FloatCol a);
                         ("cheater", IntCol (repeat 0%Z n));
                         ("coursework_raw", FloatCol cw);
                         ("exam_raw", FloatCol ex)] |}) in *.
  assert (Lch : length (repeat 0%Z n) = n) by apply repeat_length.
  destruct (subject_variation_block_ok z d0 a (repeat 0%Z n) s1)
    as (sv & s2 & Hsv & Lsv); try assumption; try reflexivity.
  set (d1 := with_col d0 "subject_variation" (FloatCol sv)) in *.
  assert (Hidx : positions (fun b : bool => b) 0
                   (map (fun x => (x =? 1)%Z) (repeat 0%Z n)) = []).
  { apply positions_none. rewrite map_repeat. apply forallb_repeat.
    reflexivity. }
  destruct (historical_trend_block_ok z d1 a (repeat 0%Z n) cw ex 0 s2)
    as (ht & imp & s3 & Hht & Lht & Limp); try assumption; try reflexivity;
    try (rewrite Hidx; cbn; lia).
  { rewrite Hidx. reflexivity. }
  rewrite Hidx in Hht.
  pose proof (historical_trend_block_honest z d1 s2 eq_refl) as Hh.
  rewrite Hht in Hh.
  destruct (Honest.historical_trend_block z d1 s2) as [[d2 s3']|e] eqn:Hht';
    [|discriminate].
  injection Hh as Hd2 Himp Hs3. subst d2 imp s3'.
  set (d2 := with_col d1 "historical_trend" (FloatCol ht)) in *.
  destruct (normal_n_ok 0 1 z s3 Hz0) as (et & s4 & Hbase & Let).
  assert (Het : Honest.exam_time_block z d2 s3
                = Ok (with_col d2 "exam_time_std" (FloatCol et), s4)).
  { unfold Honest.exam_time_block. step_with Hbase.
    unfold lift. rewrite set_col_ok by (cbn; exact Let). reflexivity. }
  set (d3 := with_col d2 "exam_time_std" (FloatCol et)) in *.
  destruct (peer_comparison_block_ok z d3 a ex s4)
    as (p33 & p66 & H33 & H66 & Hpc); try assumption; try reflexivity.
  cbv zeta in Hpc.
  match type of Hpc with
  | _ = Ok (?d, _, _, _) => set (d4 := d) in *
  end.
  assert (Hzs := z_score_block_ok d4 cw ex s4 eq_refl Lcw eq_refl Lex).
  match type of Hzs with
  | _ = Ok (?d, _) => set (d5 := d) in *
  end.
  destruct (score_variance_loop_ok z d5 a (repeat 0%Z n) s4)
    as (sc & s5 & Hsc & Lsc); try assumption; try reflexivity.
  eexists _, _, _, s5. split.
  - assert (Hsv' := Hsv).
    rewrite subject_variation_block_honest in Hsv' by reflexivity.
    assert (Hsc' := Hsc).
    rewrite score_variance_loop_honest in Hsc' by reflexivity.
    unfold Honest.prepare, bind at 1, seed. step_with Hnc.
    step_with Hsv'. step_with Hht'. step_with Het. step_with Hpc.
    cbv iota beta. step_with Hzs. step_with Hsc'. reflexivity.
  - unfold prepare. step_with Hmd. cbv iota beta. step_with Hsv.
    step_with Hht. cbv iota beta.
    assert (Het' := Het). rewrite <- exam_time_block_honest in Het'.
    step_with Het'. step_with Hpc.
    cbv iota beta. step_with Hzs. step_with Hsc. reflexivity.
Qed.

(** C8.  When [int(n_samples * cheater_ratio)] is 0 and there is at least
    one record, the run up to the outlier detector succeeds and is the run of
    the generator without the cheater-only logic ([Honest.prepare]: no
    cheating pattern, no sudden-improvement penalty, no exam-time skew, no
    cheater branch): it builds the same frame from the same draws and leaves
    the random stream in the same state.  Every row has [cheater = 0], and
    the outcome of the call is the detector's: when it returns one label per
    row the call returns the table, with no row labelled a cheater. *)
Theorem no_cheaters z r s nf :
  (1 <= z)%Z ->
  Py.float_of_int z = Ok nf -> Py.int (nf * r)%float = Ok 0%Z ->
  exists groups avg d s1 X,
    Honest.prepare z s = Ok ((groups, avg, d), s1)
    /\ prepare z r s = Ok ((0%Z, [], [], [], groups, avg, d), s1)
    /\ nrows d = Z.to_nat z
    /\ Pd.get_col d "cheater" = Ok (IntCol (repeat 0%Z (Z.to_nat z)))
    /\ Pd.select d features_for_anomaly = Ok X
    /\ match fit_predict 0.2 42 X with
       | Err e => run z r s = Err e
       | Ok labels =>
           if Nat.eqb (length labels) (Z.to_nat z)
           then exists l,
               run z r s = Ok (l, s1)
               /\ generate_realistic_cheating_data z r s
                  = Ok (final_data l, s1)
               /\ n_cheaters l = 0%Z
               /\ cheater_types l = []
               /\ cheater_indices l = []
               /\ sudden_improvers l = []
               /\ data l = with_col d "anomaly_score"
                             (outlier_flags (IntCol labels))
               /\ Pd.drop (data l) dropped_columns = Ok (final_data l)
               /\ nrows (final_data l) = Z.to_nat z
               /\ Pd.get_col (final_data l) "cheater"
                  = Ok (IntCol (repeat 0%Z (Z.to_nat z)))
               /\ cheater_count (final_data l) = Ok 0
           else run z r s = Err ValueError
       end.
Proof.
  intros Hz Hnf Hk.
  destruct (prepare_no_cheaters z r s nf Hz Hnf Hk)
    as (groups & avg & d & s1 & Hh & Hp).
  destruct (prepare_ok z r s nf 0 0) as
    (types & imp & a & cw & ex & sv & ht & et & sc & p33 & p66 & s2 & H33
     & H66 & Hp' & Lt & Li & La & Lcw & Lex & Lsv & Lht & Let & Lsc);
    try assumption; try reflexivity; try lia.
  cbv zeta in Hp'. rewrite Hp in Hp'.
  assert (Hlab : labels_of (Z.to_nat z) 0 = repeat 0%Z (Z.to_nat z)).
  { unfold labels_of. cbn [repeat]. rewrite app_nil_r, Nat.sub_0_r. reflexivity. }
  change (Z.to_nat 0) with 0 in Hp'. rewrite Hlab in Hp'.
  injection Hp' as Ht Himp Hg Havg Hd Hs. subst types imp groups avg d s2.
  eexists _, _, _, s1, (features_frame (Z.to_nat z) cw ex sv ht sc).
  split; [exact Hh|]. split; [exact Hp|].
  split; [reflexivity|]. split; [reflexivity|]. split; [reflexivity|].
  assert (Hrun : run z r s
                 = match fit_predict 0.2 42
                           (features_frame (Z.to_nat z) cw ex sv ht sc) with
                   | Ok labels =>
                       if Nat.eqb (length labels) (Z.to_nat z)
                       then Ok (locals_of (Z.to_nat z) 0 [] [] a cw ex sv ht et
                                  sc p33 p66 labels, s1)
                       else Err ValueError
                   | Err e => Err e
                   end).
  { unfold run. step_with Hp. rewrite <- Hlab.
    apply (finish_full (Z.to_nat z) 0 [] [] a cw ex sv ht et sc p33 p66 s1). }
  rewrite Hrun.
  destruct (fit_predict 0.2 42 (features_frame (Z.to_nat z) cw ex sv ht sc))
    as [labels|e]; [|reflexivity].
  destruct (Nat.eqb (length labels) (Z.to_nat z)); [|reflexivity].
  eexists. split; [reflexivity|].
  split; [unfold generate_realistic_cheating_data, bind; rewrite Hrun;
          reflexivity|].
  cbn [locals_of n_cheaters cheater_types cheater_indices sudden_improvers
         final_data data Z.to_nat seq].
  repeat (split; [reflexivity|]).
  rewrite Hlab. repeat (split; [reflexivity|]).
  unfold cheater_count.
  cbn [Pd.get_col final_frame cols df_lookup String.eqb Ascii.eqb Bool.eqb
         col_eq_int].
  rewrite <- Hlab, count_ones. reflexivity.
Qed.

End NoCheaters.

(** * Concrete runs

    The runs below use the replay generator and its detector, from the
    random state 0. *)

Module Runs.

Import Replay.

(** C2, as stated, fails: for 4 records and the ratio 0.4375 the product is
    1.75; the returned table has one cheater, and rounding gives two. *)
Lemma count_is_not_rounded :
  exists t s',
    generate_realistic_cheating_data 4 0.4375%float 0 = Ok (t, s')
    /\ cheater_count t = Ok 1
    /\ Py.round (Py.float_of_Z 4 * 0.4375)%float = Ok 2%Z.
Proof.
  eexists. eexists. split; [vm_compute; reflexivity|].
  split; vm_compute; reflexivity.
Qed.

(** C4, as stated, fails: the ratios -0.0625 and 1.0625 lie outside [0, 1],
    and with 10 records the generator returns a table for both. *)
Lemma ratio_outside_unit_interval_accepted :
  (-0.0625 <? 0)%float = true /\ (1 <? 1.0625)%float = true
  /\ is_ok (generate_realistic_cheating_data 10 (-0.0625)%float 0) = true
  /\ is_ok (generate_realistic_cheating_data 10 1.0625%float 0) = true.
Proof. repeat split; vm_compute; reflexivity. Qed.


(** C6, as stated, fails: from the random state 2 the cheater's two uniform
    draws are 0.625 and 0.375.  The source replaces the exam time (0.375 is
    below 0.7); the step with the probability 0.3 of the specification
    leaves the standard-normal value. *)
Lemma second_threshold_is_not_0_3 :
  exists d_source d_spec s1 s2,
    exam_time_block 2 [1] two_records 2 = Ok (d_source, s1)
    /\ exam_time_block_spec 2 [1] two_records 2 = Ok (d_spec, s2)
    /\ Pd.get_float d_source "exam_time_std" = Ok [0.25; 2.8125]%float
    /\ Pd.get_float d_spec "exam_time_std" = Ok [0.25; -0.5]%float
    /\ differ [0.25; 2.8125]%float [0.25; -0.5]%float = true.
Proof.
  eexists. eexists. eexists. eexists.
  split; [vm_compute; reflexivity|].
  split; [vm_compute; reflexivity|].
  repeat split; vm_compute; reflexivity.
Qed.

(** *** The theorems at concrete inputs *)

Lemma cheater_count_truncates_run :
  exists t s',
    generate_realistic_cheating_data 4 0.4375%float 0 = Ok (t, s')
    /\ exists nf kz ch,
         Py.float_of_int 4 = Ok nf /\ Py.int (nf * 0.4375)%float = Ok kz
         /\ (0 <= kz <= 4)%Z
         /\ Pd.get_col t "cheater" = Ok (IntCol ch)
         /\ length ch = Z.to_nat 4
         /\ cheater_count t = Ok (Z.to_nat kz)
         /\ count_occ Z.eq_dec ch 0%Z = Z.to_nat (4 - kz)
         /\ Forall (fun x => x = 0%Z \/ x = 1%Z) ch.
Proof.
  eexists. eexists. split; [vm_compute; reflexivity|].
  refine (cheater_count_truncates 4 0.4375%float 0 _ _ _).
  vm_compute. reflexivity.
Defined.

Lemma table_shape_run :
  exists t s',
    generate_realistic_cheating_data 4 0.4375%float 0 = Ok (t, s')
    /\ Z.of_nat (nrows t) = 4%Z
    /\ column_names t
       = ["cheater"; "subject_variation"; "historical_trend"; "exam_time_std";
          "peer_comparison"; "coursework_z"; "exam_z"; "z_diff";
          "score_variance"; "anomaly_score"]
    /\ Forall (fun kc => col_len (snd kc) = nrows t) (cols t)
    /\ ~ In "ability" (column_names t)
    /\ ~ In "coursework_raw" (column_names t)
    /\ ~ In "exam_raw" (column_names t).
Proof.
  eexists. eexists. split; [vm_compute; reflexivity|].
  refine (table_shape 4 0.4375%float 0 _ _ _).
  vm_compute. reflexivity.
Defined.

Lemma z_diff_is_difference_run :
  exists t s',
    generate_realistic_cheating_data 4 0.4375%float 0 = Ok (t, s')
    /\ exists cz ez zd,
         Pd.get_col t "coursework_z" = Ok (FloatCol cz)
         /\ Pd.get_col t "exam_z" = Ok (FloatCol ez)
         /\ Pd.get_col t "z_diff" = Ok (FloatCol zd)
         /\ length zd = nrows t
         /\ forall i, i < nrows t ->
              exists c e, nth_error cz i = Some c /\ nth_error ez i = Some e
                          /\ nth_error zd i = Some (c - e)%float.
Proof.
  eexists. eexists. split; [vm_compute; reflexivity|].
  refine (z_diff_is_difference 4 0.4375%float 0 _ _ _).
  vm_compute. reflexivity.
Defined.

Lemma labels_grouped_run :
  exists t s',
    generate_realistic_cheating_data 10 0.25%float 0 = Ok (t, s')
    /\ exists nf kz ch,
         Py.float_of_int 10 = Ok nf /\ Py.int (nf * 0.25)%float = Ok kz
         /\ (0 <= kz <= 10)%Z
         /\ nrows t = Z.to_nat 10
         /\ Pd.get_col t "cheater" = Ok (IntCol ch)
         /\ forall i,
              (i < Z.to_nat 10 - Z.to_nat kz -> nth_error ch i = Some 0%Z)
              /\ (Z.to_nat 10 - Z.to_nat kz <= i < Z.to_nat 10 ->
                  nth_error ch i = Some 1%Z).
Proof.
  eexists. eexists. split; [vm_compute; reflexivity|].
  refine (labels_grouped 10 0.25%float 0 _ _ _).
  vm_compute. reflexivity.
Defined.


Lemma exam_time_step_run :
  (0 <= 2)%Z /\ nrows two_records = Z.to_nat 2
  /\ length [false; true] = Z.to_nat 2
  /\ exam_time_block 2 (positions (fun b : bool => b) 0 [false; true])
       two_records 2
     = (base <- normal_n 0 1 2 ;;
        col <- exam_times [false; true] base ;;
        ret (with_col two_records "exam_time_std" (FloatCol col))) 2
  /\ forall b s0,
       skewed_time b s0 =
       let (u1, s1) := rng_random s0 in
       if (u1 <? 0.4)%float
       then let (v, s2) := rng_uniform 1.5 3 s1 in Ok ((- v)%float, s2)
       else let (u2, s2) := rng_random s1 in
            if (u2 <? 0.7)%float
            then let (v, s3) := rng_uniform 1.5 3 s2 in Ok (v, s3)
            else Ok (b, s2).
Proof.
  assert (H0 : (0 <= 2)%Z) by lia.
  assert (H1 : nrows two_records = Z.to_nat 2) by reflexivity.
  assert (H2 : length [false; true] = Z.to_nat 2) by reflexivity.
  split; [exact H0|]. split; [exact H1|]. split; [exact H2|].
  exact (exam_time_step 2 two_records [false; true] 2 H0 H1 H2).
Defined.

Lemma no_cheaters_run :
  (1 <= 10)%Z /\ Py.float_of_int 10 = Ok 10%float
  /\ Py.int (10 * 0)%float = Ok 0%Z
  /\ exists groups avg d s1 X,
       Honest.prepare 10 0 = Ok ((groups, avg, d), s1)
       /\ prepare 10 0%float 0 = Ok ((0%Z, [], [], [], groups, avg, d), s1)
       /\ nrows d = Z.to_nat 10
       /\ Pd.get_col d "cheater" = Ok (IntCol (repeat 0%Z (Z.to_nat 10)))
       /\ Pd.select d features_for_anomaly = Ok X
       /\ match fit_predict 0.2 42 X with
          | Err e => run 10 0%float 0 = Err e
          | Ok labels =>
              if Nat.eqb (length labels) (Z.to_nat 10)
              then exists l,
                  run 10 0%float 0 = Ok (l, s1)
                  /\ generate_realistic_cheating_data 10 0%float 0
                     = Ok (final_data l, s1)
                  /\ n_cheaters l = 0%Z
                  /\ cheater_types l = []
                  /\ cheater_indices l = []
                  /\ sudden_improvers l = []
                  /\ data l = with_col d "anomaly_score"
                                (outlier_flags (IntCol labels))
                  /\ Pd.drop (data l) dropped_columns = Ok (final_data l)
                  /\ nrows (final_data l) = Z.to_nat 10
                  /\ Pd.get_col (final_data l) "cheater"
                     = Ok (IntCol (repeat 0%Z (Z.to_nat 10)))
                  /\ cheater_count (final_data l) = Ok 0
              else run 10 0%float 0 = Err ValueError
          end.
Proof.
  assert (H0 : (1 <= 10)%Z) by lia.
  assert (H1 : Py.float_of_int 10 = Ok 10%float) by (vm_compute; reflexivity).
  assert (H2 : Py.int (10 * 0)%float = Ok 0%Z) by (vm_compute; reflexivity).
  split; [exact H0|]. split; [exact H1|]. split; [exact H2|].
  exact (no_cheaters 10 0%float 0 10%float H0 H1 H2).
Defined.

Lemma all_cheaters_peer_comparison_run :
  (1 <= 10 < 2 ^ 53)%Z
  /\ exists types idx imp groups avg d s' a ex pc p33 p66,
       prepare 10 1.0%float 0 = Ok ((10%Z, types, idx, imp, groups, avg, d), s')
       /\ idx = seq 0 (Z.to_nat 10)
       /\ nrows d = Z.to_nat 10
       /\ Pd.get_col d "cheater" = Ok (IntCol (repeat 1%Z (Z.to_nat 10)))
       /\ Pd.get_col d "ability" = Ok (FloatCol a)
       /\ Pd.get_col d "exam_raw" = Ok (FloatCol ex)
       /\ Pd.get_col d "peer_comparison" = Ok (FloatCol pc)
       /\ length pc = Z.to_nat 10
       /\ Np.percentile a 33 = Ok p33 /\ Np.percentile a 66 = Ok p66
       /\ groups = map (Np.digitize [p33; p66]) a
       /\ forall i, i < Z.to_nat 10 ->
            exists g e,
              nth_error groups i = Some g /\ g < 3
              /\ nth_error ex i = Some e
              /\ In e (group_members groups ex g)
              /\ 1 <= length (group_members groups ex g)
              /\ dict_get avg g = Ok (Pd.mean (group_members groups ex g))
              /\ nth_error pc i
                 = Some (e - Pd.mean (group_members groups ex g))%float.
Proof.
  assert (H0 : (1 <= 10 < 2 ^ 53)%Z) by (cbn; lia).
  split; [exact H0|].
  exact (all_cheaters_peer_comparison 10 0 H0).
Defined.

(** *** Further properties at concrete inputs *)

Lemma anomaly_score_is_outlier_flag_run :
  exists t s',
    generate_realistic_cheating_data 4 0.4375%float 0 = Ok (t, s')
    /\ exists X labels an,
         Pd.select t features_for_anomaly = Ok X
         /\ fit_predict 0.2 42 X = Ok labels
         /\ length labels = nrows t
         /\ Pd.get_col t "anomaly_score" = Ok (FloatCol an)
         /\ an = map (fun l => if (l =? -1)%Z then 1%float else 0%float) labels
         /\ Forall (fun v => v = 0%float \/ v = 1%float) an.
Proof.
  eexists. eexists. split; [vm_compute; reflexivity|].
  refine (anomaly_score_is_outlier_flag 4 0.4375%float 0 _ _ _).
  vm_compute. reflexivity.
Defined.

Lemma detector_failure_is_not_swallowed_run :
  exists p s1,
    prepare 4 0.4375%float 0 = Ok (p, s1)
    /\ let d := snd p in
       exists X,
         Pd.select d features_for_anomaly = Ok X
         /\ column_names X = features_for_anomaly
         /\ nrows X = Z.to_nat 4
         /\ match fit_predict 0.2 42 X with
            | Err e => generate_realistic_cheating_data 4 0.4375%float 0 = Err e
            | Ok labels =>
                if Nat.eqb (length labels) (Z.to_nat 4)
                then exists t,
                       generate_realistic_cheating_data 4 0.4375%float 0
                       = Ok (t, s1)
                       /\ Pd.get_col t "anomaly_score"
                          = Ok (outlier_flags (IntCol labels))
                else generate_realistic_cheating_data 4 0.4375%float 0
                     = Err ValueError
            end.
Proof.
  eexists. eexists. split; [vm_compute; reflexivity|].
  refine (detector_failure_is_not_swallowed 4 0.4375%float 0 _ _ _).
  vm_compute. reflexivity.
Defined.

Lemma features_and_label_are_selectable_run :
  exists t s',
    generate_realistic_cheating_data 4 0.4375%float 0 = Ok (t, s')
    /\ exists Xf ch,
         Preprocessing.X t = Ok Xf
         /\ nrows Xf = nrows t
         /\ column_names Xf = Preprocessing.feature_names
         /\ Forall (fun kc => exists v, snd kc = FloatCol v
                                        /\ length v = nrows t) (cols Xf)
         /\ ~ In "cheater" (column_names Xf)
         /\ Preprocessing.y t = Ok (IntCol ch)
         /\ length ch = nrows t
         /\ forall c, In c dropped_columns ->
              Pd.get_col t c = Err KeyError /\ Pd.select t [c] = Err KeyError.
Proof.
  eexists. eexists. split; [vm_compute; reflexivity|].
  refine (features_and_label_are_selectable 4 0.4375%float 0 _ _ _).
  vm_compute. reflexivity.
Defined.

Lemma spread_features_are_not_negative_run :
  exists t s',
    generate_realistic_cheating_data 4 0.4375%float 0 = Ok (t, s')
    /\ exists sv sc,
         Pd.get_col t "subject_variation" = Ok (FloatCol sv)
         /\ Pd.get_col t "score_variance" = Ok (FloatCol sc)
         /\ length sv = nrows t /\ length sc = nrows t
         /\ Forall (fun v => (v <? 0)%float = false) sv
         /\ Forall (fun v => (v <? 0)%float = false) sc.
Proof.
  eexists. eexists. split; [vm_compute; reflexivity|].
  refine (spread_features_are_not_negative 4 0.4375%float 0 _ _ _).
  vm_compute. reflexivity.
Defined.

Lemma steps_write_their_own_columns_run :
  exists l s',
    run 4 0.25%float 0 = Ok (l, s')
    /\ exists k types d0 s0,
         make_data 4 0.25%float 0 = Ok ((k, types, d0), s0)
         /\ column_names d0
            = ["ability"; "cheater"; "coursework_raw"; "exam_raw"]
         /\ nrows d0 = Z.to_nat 4
         /\ writes ["subject_variation"; "historical_trend"; "exam_time_std";
                    "peer_comparison"; "coursework_z"; "exam_z"; "z_diff";
                    "score_variance"; "anomaly_score"] d0 (data l)
         /\ nrows (final_data l) = nrows (data l)
         /\ (forall c, ~ In c dropped_columns ->
               Pd.get_col (final_data l) c = Pd.get_col (data l) c)
         /\ Pd.get_col (final_data l) "cheater" = Pd.get_col d0 "cheater".
Proof.
  eexists. eexists. split; [vm_compute; reflexivity|].
  refine (steps_write_their_own_columns 4 0.25%float 0 _ _ _).
  vm_compute. reflexivity.
Defined.

Lemma single_record_has_no_z_score_run :
  exists t s',
    @generate_realistic_cheating_data rng lenient 1 0%float 0 = Ok (t, s')
    /\ Pd.get_col t "coursework_z" = Ok (FloatCol [nan])
    /\ Pd.get_col t "exam_z" = Ok (FloatCol [nan])
    /\ Pd.get_col t "z_diff" = Ok (FloatCol [nan]).
Proof.
  eexists. eexists. split; [vm_compute; reflexivity|].
  refine (@single_record_has_no_z_score rng lenient 0%float 0 _ _ _).
  vm_compute. reflexivity.
Defined.

Lemma pattern_loop_rewrites_both_scores_run :
  ["consistent"; "exam_advantage"] <> []
  /\ for_each (enumerate ["consistent"; "exam_advantage"]) apply_pattern
       {| nrows := 2;
          cols := [("ability", FloatCol [0.5; -0.25]%float);
                   ("cheater", IntCol [1; 1]%Z);
                   ("coursework_raw", FloatCol [8; 9]%float)] |} 0
     = let '(cs, es, s') :=
         pattern_rows [0.5; -0.25]%float ["consistent"; "exam_advantage"] 0 in
       Ok ({| nrows := 2;
              cols := [("ability", FloatCol [0.5; -0.25]%float);
                       ("cheater", IntCol [1; 1]%Z);
                       ("coursework_raw", FloatCol cs);
                       ("exam_raw", FloatCol es)] |}, s').
Proof.
  split; [discriminate|].
  refine (pattern_loop_rewrites_both_scores [0.5; -0.25]%float [1; 1]%Z
            [8; 9]%float ["consistent"; "exam_advantage"] 0 _ _ _);
    [discriminate | reflexivity | reflexivity].
Defined.

Lemma sudden_improvers_are_distinct_cheaters_run :
  exists l s',
    run 10 0.25%float 0 = Ok (l, s')
    /\ exists size,
         Py.int (Py.float_of_nat (length (cheater_indices l)) * 0.6)%float
         = Ok size
         /\ length (sudden_improvers l) = Z.to_nat size
         /\ (0 <= size <= n_cheaters l)%Z
         /\ NoDup (sudden_improvers l)
         /\ incl (sudden_improvers l) (cheater_indices l)
         /\ forall i, In i (sudden_improvers l) ->
              Pd.loc (final_data l) i "cheater" = Ok (VInt 1).
Proof.
  eexists. eexists. split; [vm_compute; reflexivity|].
  match goal with
  | |- context [sudden_improvers ?l] =>
      refine (sudden_improvers_are_distinct_cheaters 10 0.25%float 0 l _ _)
  end.
  vm_compute. reflexivity.
Defined.

(** Three records, the last two of them cheaters. *)
Definition three_records : DataFrame :=
  {| nrows := 3;
     cols := [("ability", FloatCol [0.5; -0.25; 0.75]%float);
              ("cheater", IntCol [0; 1; 1]%Z);
              ("coursework_raw", FloatCol [1; 2; 0.5]%float);
              ("exam_raw", FloatCol [0; 1.5; 2.5]%float)] |}.

Lemma historical_trend_penalty_run :
  exists d' ci si s',
    historical_trend_block 3 three_records 0 = Ok ((d', ci, si), s')
    /\ exists a cw ex noise s1 size ht,
         Pd.get_float three_records "ability" = Ok a
         /\ Pd.get_float three_records "coursework_raw" = Ok cw
         /\ Pd.get_float three_records "exam_raw" = Ok ex
         /\ normal_n 0 0.5 3 0 = Ok (noise, s1)
         /\ Pd.index_where_eq three_records "cheater" 1 = Ok ci
         /\ Py.int (Py.float_of_nat (length ci) * 0.6)%float = Ok size
         /\ length si = Z.to_nat size
         /\ NoDup si /\ incl si ci
         /\ Pd.get_col d' "historical_trend" = Ok (FloatCol ht)
         /\ length ht = nrows three_records
         /\ forall i x c e g,
              nth_error a i = Some x -> nth_error cw i = Some c ->
              nth_error ex i = Some e -> nth_error noise i = Some g ->
              (~ In i si ->
               nth_error ht i = Some ((c + e) / 2 - (x + g))%float)
              /\ (In i si ->
                  exists t,
                    nth_error ht i
                    = Some ((c + e) / 2
                            - (x + g - fst (rng_uniform 0.5 1.5 t)))%float).
Proof.
  eexists. eexists. eexists. eexists. split; [vm_compute; reflexivity|].
  refine (historical_trend_penalty 3 three_records 0 _ _ _ _ _).
  vm_compute. reflexivity.
Defined.

Definition y_test : list Z := [1; 0; 1; 0]%Z.
Definition y_probs : list float := [0.75; 0.25; 0.625; 0.5]%float.

Lemma best_threshold_is_the_first_best_run :
  exists bt bf,
    Training.best_threshold y_test y_probs = Ok (bt, bf)
    /\ exists ths,
         Training.thresholds = Ok ths /\ length ths = 100
         /\ Forall (fun t => (0 <=? t)%float = true /\ (t <=? 1)%float = true)
              ths
         /\ (forall t, In t ths ->
               exists f, fbeta_score y_test (Training.y_pred y_probs t) 1 = Ok f
                         /\ (bf <? f)%float = false)
         /\ ((bt = 0.5%float /\ bf = 0%float /\ ~ In bt ths
              /\ forall t f, In t ths ->
                   fbeta_score y_test (Training.y_pred y_probs t) 1 = Ok f ->
                   (0 <? f)%float = false)
             \/ exists pre post,
                  ths = pre ++ bt :: post
                  /\ fbeta_score y_test (Training.y_pred y_probs bt) 1 = Ok bf
                  /\ (0 <? bf)%float = true
                  /\ forall t f, In t pre ->
                       fbeta_score y_test (Training.y_pred y_probs t) 1 = Ok f ->
                       (bf <=? f)%float = false).
Proof.
  eexists. eexists. split; [vm_compute; reflexivity|].
  refine (best_threshold_is_the_first_best y_test y_probs _ _ _).
  vm_compute. reflexivity.
Defined.

Lemma raising_the_threshold_flags_fewer_run :
  (0.25 <=? 0.5)%float = true
  /\ length (Training.y_pred y_probs 0.25) = length y_probs
  /\ length (Training.y_pred y_probs 0.5) = length y_probs
  /\ forall i p,
       nth_error y_probs i = Some p ->
       exists b1 b2,
         nth_error (Training.y_pred y_probs 0.25) i = Some b1
         /\ nth_error (Training.y_pred y_probs 0.5) i = Some b2
         /\ (b1 = 0 \/ b1 = 1)%Z /\ (b2 <= b1)%Z
         /\ (PrimFloat.is_nan p = true -> b1 = 0%Z).
Proof.
  split; [reflexivity|].
  refine (raising_the_threshold_flags_fewer y_probs 0.25 0.5 _). reflexivity.
Defined.

Lemma optimal_threshold_reads_inside_the_curve_run :
  exists precisions recalls thresholds,
    precision_recall_curve y_test y_probs = Ok (precisions, recalls, thresholds)
    /\ length precisions = S (length thresholds)
    /\ length recalls = S (length thresholds)
    /\ exists best_idx,
         Np.argmax (map2 PrimFloat.add precisions recalls) = Ok best_idx
         /\ best_idx <= length thresholds
         /\ Likely.optimal_threshold y_test y_probs
            = match nth_error thresholds best_idx with
              | Some t => Ok t
              | None => Err IndexError
              end
         /\ (best_idx = length thresholds <->
             Likely.optimal_threshold y_test y_probs = Err IndexError)
         /\ forall j p q p' q',
              j < length thresholds ->
              nth_error precisions j = Some p -> nth_error recalls j = Some q ->
              nth_error precisions (length thresholds) = Some p' ->
              nth_error recalls (length thresholds) = Some q' ->
              (p' + q' <=? p + q)%float = true ->
              best_idx < length thresholds.
Proof.
  eexists. eexists. eexists. split; [vm_compute; reflexivity|].
  split; [reflexivity|]. split; [reflexivity|].
  refine (optimal_threshold_reads_inside_the_curve y_test y_probs _ _ _ _ _ _);
    [vm_compute; reflexivity | reflexivity | reflexivity].
Defined.

Definition student : list float := [0.75; 0.5; 0.25]%float.
Definition names : list string := ["a"; "b"; "c"].

Lemma analysis_definitions_agree_run :
  exists prediction prob contributions,
    Summary.analyze_student 7 student names 0.5
    = Ok (prediction, prob, contributions)
    /\ student <> []
    /\ exists radar_fig,
         Analysis.radar_chart names student = Ok radar_fig
         /\ Likely.analyze_student 7 student names 0.5
            = Ok (prediction, prob, contributions, radar_fig)
         /\ Analysis.analyze_student_with_dashboard 7 student names 0.5
            = Ok (prediction, Analysis.report 7 prob prediction,
                  [("radar_chart", radar_fig)])
         /\ length student = length names
         /\ prediction = (if (0.5 <? prob)%float then 1%Z else 0%Z).
Proof.
  eexists. eexists. eexists. split; [vm_compute; reflexivity|].
  split; [discriminate|].
  refine (analysis_definitions_agree 7 student names 0.5 _ _ _ _ _);
    [vm_compute; reflexivity | discriminate].
Defined.

Lemma feature_contributions_by_name_run :
  exists prediction prob contributions,
    Summary.analyze_student 7 student names 0.5
    = Ok (prediction, prob, contributions)
    /\ NoDup names
    /\ length feature_importances_ = length student
    /\ map fst contributions = names
    /\ forall i name w x,
         nth_error names i = Some name ->
         nth_error feature_importances_ i = Some w ->
         nth_error student i = Some x ->
         dict_lookup name contributions = Some (w * x)%float.
Proof.
  assert (Hnd : NoDup names).
  { unfold names. repeat constructor; cbn; intuition discriminate. }
  eexists. eexists. eexists. split; [vm_compute; reflexivity|].
  split; [exact Hnd|]. split; [reflexivity|].
  refine (feature_contributions_by_name 7 student names 0.5 _ _ _ _ Hnd _);
    [vm_compute; reflexivity | reflexivity].
Defined.

Definition X_test_scaled : list (list float) :=
  [[0.75; 0.5; 0.25]; [0.25; 0.5; 0.75]]%float.

Lemma likely_cheaters_are_the_rows_marked_yes_run :
  exists likely all,
    Likely.likely_cheaters X_test_scaled names 0.5 = Ok likely
    /\ Summary.students_list X_test_scaled names 0.5 = Ok all
    /\ length all = length X_test_scaled
    /\ map Summary.student_id all
       = map Z.of_nat (seq 0 (length X_test_scaled))
    /\ Forall (fun r => Summary.cheater r = "Yes" \/ Summary.cheater r = "No")
         all
    /\ map (fun r => (Likely.student_id r, Likely.predicted_probability r))
         likely
       = map (fun r => (Summary.student_id r, Summary.predicted_probability r))
           (filter (fun r => String.eqb (Summary.cheater r) "Yes") all).
Proof.
  eexists. eexists. split; [vm_compute; reflexivity|].
  split; [vm_compute; reflexivity|].
  refine (likely_cheaters_are_the_rows_marked_yes X_test_scaled names 0.5
            _ _ _ _); vm_compute; reflexivity.
Defined.

Lemma summary_table_needs_a_likely_cheater_run :
  exists likely,
    Likely.likely_cheaters [[0.25; 0.5; 0.75]]%float names 0.5 = Ok likely
    /\ match Likely.summary_table likely with
       | Ok table =>
           likely <> []
           /\ table = map (fun r => (Likely.student_id r,
                                     Likely.predicted_probability r)) likely
           /\ exists i student_data prob,
                nth_error [[0.25; 0.5; 0.75]]%float i = Some student_data
                /\ Analysis.predict student_data names 0.5 = Ok (1%Z, prob)
       | Err e =>
           e = KeyError /\ likely = []
           /\ forall i student_data,
                nth_error [[0.25; 0.5; 0.75]]%float i = Some student_data ->
                exists prob,
                  Analysis.predict student_data names 0.5 = Ok (0%Z, prob)
       end.
Proof.
  eexists. split; [vm_compute; reflexivity|].
  match goal with
  | |- context [Likely.summary_table ?l] =>
      refine (summary_table_needs_a_likely_cheater [[0.25; 0.5; 0.75]]%float
                names 0.5 l _)
  end.
  vm_compute. reflexivity.
Defined.

Lemma highlighted_rows_are_the_predicted_cheaters_run :
  exists all,
    Summary.students_list X_test_scaled names 0.5 = Ok all
    /\ match Summary.summary_table all with
       | Ok table =>
           X_test_scaled <> [] /\ table = all
           /\ length (Summary.highlighted_table table) = length X_test_scaled
           /\ forall i student_data,
                nth_error X_test_scaled i = Some student_data ->
                exists prediction prob,
                  Analysis.predict student_data names 0.5
                  = Ok (prediction, prob)
                  /\ nth_error (Summary.highlighted_table table) i
                     = Some (repeat (if (prediction =? 1)%Z
                                     then "background-color: blue" else "") 3)
       | Err e => e = KeyError /\ X_test_scaled = []
       end.
Proof.
  eexists. split; [vm_compute; reflexivity|].
  match goal with
  | |- context [Summary.summary_table ?l] =>
      refine (highlighted_rows_are_the_predicted_cheaters X_test_scaled names
                0.5 l _)
  end.
  vm_compute. reflexivity.
Defined.

Lemma peer_comparison_uses_the_own_group_run :
  exists l s',
    run 4 0.25%float 0 = Ok (l, s')
    /\ exists a ex pc p33 p66,
         Pd.get_col (data l) "ability" = Ok (FloatCol a)
         /\ Pd.get_col (data l) "exam_raw" = Ok (FloatCol ex)
         /\ Pd.get_col (final_data l) "peer_comparison" = Ok (FloatCol pc)
         /\ Np.percentile a 33 = Ok p33 /\ Np.percentile a 66 = Ok p66
         /\ ability_groups l = map (Np.digitize [p33; p66]) a
         /\ length a = Z.to_nat 4 /\ length ex = Z.to_nat 4
         /\ length pc = Z.to_nat 4
         /\ forall i, i < Z.to_nat 4 ->
              exists x e,
                nth_error a i = Some x /\ nth_error ex i = Some e
                /\ let g := Np.digitize [p33; p66] x in
                   let peers :=
                     map snd
                       (filter (fun xe =>
                                  Nat.eqb (Np.digitize [p33; p66] (fst xe)) g)
                          (combine a ex)) in
                   nth_error (ability_groups l) i = Some g /\ g < 3
                   /\ In e peers
                   /\ dict_get (avg_group_exam l) g = Ok (Pd.mean peers)
                   /\ nth_error pc i = Some (e - Pd.mean peers)%float.
Proof.
  eexists. eexists. split; [vm_compute; reflexivity|].
  match goal with
  | |- context [ability_groups ?l] =>
      refine (peer_comparison_uses_the_own_group 4 0.25%float 0 l _ _)
  end.
  vm_compute. reflexivity.
Defined.

End Runs.
